(** * virttest.env_process: pre/post-processing orchestration

    A shallow embedding of [virttest/env_process.py]: the image
    scheduler, the per-image and per-VM policies, the two background
    pollers and the kernel command line patch workflow, together with
    the properties the specification states about them. *)

From Stdlib Require Import Ascii ZArith Lia.
From stdpp Require Import gmap strings list fin_maps relations.

Local Open Scope string_scope.
Local Open Scope list_scope.
Local Open Scope nat_scope.

(** ** Python values used by the module *)

Module Py.

(** [s.split()]: cut at runs of white space (tab, LF, VT, FF, CR and
    space), dropping empty pieces. *)
Definition split (s : string) : list string := String.words s.

(** [sub in s] on strings. *)
Fixpoint contains (sub s : string) : bool :=
  String.prefix sub s ||
  match s with
  | EmptyString => false
  | String _ t => contains sub t
  end.

(** [s.strip()] *)
Fixpoint lstrip (s : string) : string :=
  match s with
  | String c rest => if Ascii.is_space c then lstrip rest else s
  | EmptyString => EmptyString
  end.
Definition strip (s : string) : string :=
  String.rev (lstrip (String.rev (lstrip s))).

(** [" ".join(l)] *)
Fixpoint join_spaces (l : list string) : string :=
  match l with
  | [] => ""
  | [x] => x
  | x :: rest => x +:+ " " +:+ join_spaces rest
  end.

(** [x in l] on a list of strings. *)
Definition mem (x : string) (l : list string) : bool :=
  bool_decide (x ∈ l).

(** An exception instance: its class name and [e.message].  Every
    exception of the model derives from [Exception]. *)
Record exn := Exn { exc_class : string; message : string }.

Global Instance exn_eq_dec : EqDecision exn.
Proof. solve_decision. Defined.

(** [l[i::k]] for [0 <= i] and [0 < k]: walk the list, keep an element
    when the countdown [skip] reaches zero, then restart it at
    [k - 1]. *)
Fixpoint stride {A} (skip k : nat) (l : list A) : list A :=
  match l with
  | [] => []
  | x :: t =>
      match skip with
      | 0 => x :: stride (k - 1) k t
      | S s => stride s k t
      end
  end.

End Py.

(** ** Params: the configuration map

    [params.get(k)] is a lookup, [params.get(k, d)] a lookup with a
    default, [params.objects(k)] the white-space split of the value. *)

Abbreviation Params := (gmap string string).

Definition get (params : Params) (k : string) : option string := params !! k.

Definition get_d (params : Params) (k d : string) : string :=
  default d (params !! k).

Definition objects (params : Params) (k : string) : list string :=
  Py.split (get_d params k "").

(** ** Image processing scheduler *)

Module ImageSched.

Inductive thread_id := MainThread | WorkerThread (i : nat).

(** One call [image_func(test, image_params, image_name, status)]. *)
Record call := Call { on_thread : thread_id; image_name : string }.

Section Scheduler.

(** [params.object_params(name)] and the image function, which
    either returns or raises. *)
Variable object_params : Params → string → Params.
Variable image_func : Params → string → option Py.exn.
Variable params : Params.
(** [multiprocessing.cpu_count()] *)
Variable cpu_count : nat.

(** [_process_images_serial] with [exit_event=None]: the test
    [exit_event and exit_event.is_set()] is always false, so the loop
    only stops at the end of the list or at the first exception. *)
Fixpoint _process_images_serial (images : list string)
  : list call * option Py.exn :=
  match images with
  | [] => ([], None)
  | image_name :: rest =>
      let image_params := object_params params image_name in
      match image_func image_params image_name with
      | Some e => ([Call MainThread image_name], Some e)
      | None =>
          let '(tr, r) := _process_images_serial rest in
          (Call MainThread image_name :: tr, r)
      end
  end.

(** [min(len(images) / 5, 2 * multiprocessing.cpu_count())], with
    Python 2 integer division. *)
Definition no_threads (images : list string) : nat :=
  Nat.min (length images / 5) (2 * cpu_count).

(** The image lists handed to the workers:
    [images[i::no_threads] for i in xrange(no_threads)]. *)
Definition partitions (images : list string) : list (list string) :=
  (λ i, Py.stride i (no_threads images) images) <$> seq 0 (no_threads images).

(** *** The worker threads of [_process_images_parallel]

    A [_CreateImages] thread runs [_process_images_serial] on its own
    image list with the shared [exit_event].  Its control points:
    about to call the image function on the head of [todo]; back
    from the call and about to test [exit_event.is_set()]; inside the
    [except] clause with [exc_info] stored and [exit_event.set()]
    still to run; [run()] has returned. *)
Inductive wstate :=
| Running (todo : list string)
| Checking (todo : list string)
| Caught (e : Py.exn)
| Finished.

Record worker := Worker { st : wstate; exc_info : option Py.exn }.

(** The thread that called [_process_images_parallel]: in the
    [for i in xrange(no_threads)] loop, in the [while not finished]
    loop, or done (by [raise] or by falling off the end). *)
Inductive main_state :=
| Spawning (i : nat)
| Polling
| Raise (e : Py.exn)
| Returned.

Record pstate := PState {
  threads : list worker;
  exit_event : bool;
  main : main_state;
  calls : list call
}.

Definition is_alive (w : worker) : bool :=
  match st w with Finished => false | _ => true end.

(** [for thread in threads: if thread.exc_info: raise ...] *)
Fixpoint first_exc_info (ths : list worker) : option Py.exn :=
  match ths with
  | [] => None
  | thread :: rest =>
      match exc_info thread with
      | Some e => Some e
      | None => first_exc_info rest
      end
  end.

Definition init (images : list string) : pstate :=
  PState [] false (Spawning 0) [].

(** One step of the calling thread. *)
Definition main_step (images : list string) (s : pstate) : option pstate :=
  match main s with
  | Spawning i =>
      if i <? no_threads images then
        let imgs := Py.stride i (no_threads images) images in
        Some (PState (threads s ++ [Worker (Running imgs) None])
                     (exit_event s) (Spawning (S i)) (calls s))
      else Some (PState (threads s) (exit_event s) Polling (calls s))
  | Polling =>
      if existsb is_alive (threads s) then Some s (* time.sleep(0.5) *)
      else if exit_event s then
        match first_exc_info (threads s) with
        | Some e => Some (PState (threads s) (exit_event s) (Raise e) (calls s))
        | None => Some (PState (threads s) (exit_event s) Returned (calls s))
        end
      else Some (PState (threads s) (exit_event s) Returned (calls s))
  | Raise _ | Returned => None
  end.

(** One step of worker [j]. *)
Definition worker_step (j : nat) (s : pstate) : option pstate :=
  match threads s !! j with
  | None => None
  | Some w =>
      match st w with
      | Running [] =>
          Some (PState (<[j := Worker Finished (exc_info w)]> (threads s))
                       (exit_event s) (main s) (calls s))
      | Running (image_name :: rest) =>
          let image_params := object_params params image_name in
          let calls' := calls s ++ [Call (WorkerThread j) image_name] in
          match image_func image_params image_name with
          | Some e =>
              Some (PState (<[j := Worker (Caught e) (Some e)]> (threads s))
                           (exit_event s) (main s) calls')
          | None =>
              Some (PState (<[j := Worker (Checking rest) (exc_info w)]> (threads s))
                           (exit_event s) (main s) calls')
          end
      | Checking rest =>
          let st' := if exit_event s then Finished else Running rest in
          Some (PState (<[j := Worker st' (exc_info w)]> (threads s))
                       (exit_event s) (main s) (calls s))
      | Caught e =>
          Some (PState (<[j := Worker Finished (exc_info w)]> (threads s))
                       true (main s) (calls s))
      | Finished => None
      end
  end.

(** The scheduler picks who runs next. *)
Inductive choice := RunMain | RunWorker (j : nat).

Definition step (images : list string) (c : choice) (s : pstate)
  : option pstate :=
  match c with
  | RunMain => main_step images s
  | RunWorker j => worker_step j s
  end.

(** Run a schedule; a choice that is not enabled is skipped. *)
Fixpoint run (images : list string) (cs : list choice) (s : pstate) : pstate :=
  match cs with
  | [] => s
  | c :: cs' => run images cs' (default s (step images c s))
  end.

Definition reachable (images : list string) (s : pstate) : Prop :=
  ∃ cs, run images cs (init images) = s.

(** What is left to do: a bound on the number of steps other than
    the sleep of the polling loop. *)
Definition wstate_size (w : wstate) : nat :=
  match w with
  | Running todo => 2 * length todo + 3
  | Checking todo => 2 * length todo + 4
  | Caught _ => 1
  | Finished => 0
  end.

Definition main_size (images : list string) (m : main_state) : nat :=
  match m with
  | Spawning i => 2 + (S (no_threads images) - i) * (2 * length images + 4)
  | Polling => 1
  | Raise _ | Returned => 0
  end.

Definition size (images : list string) (s : pstate) : nat :=
  main_size images (main s) + sum_list_with (wstate_size ∘ st) (threads s).

(** What holds in every state the machine can be in. *)
Record inv (images : list string) (s : pstate) : Prop := Inv {
  inv_worker : ∀ j w, threads s !! j = Some w →
    match st w with
    | Running _ | Checking _ => exc_info w = None
    | Caught e => exc_info w = Some e
    | Finished => is_Some (exc_info w) → exit_event s = true
    end;
  inv_event : exit_event s = true →
    ∃ j w, threads s !! j = Some w ∧ st w = Finished ∧ is_Some (exc_info w);
  inv_main :
    match main s with
    | Spawning i => length (threads s) = i ∧ i ≤ no_threads images
    | Polling => length (threads s) = no_threads images
    | Raise e =>
        length (threads s) = no_threads images ∧
        Forall (λ w, st w = Finished) (threads s) ∧
        first_exc_info (threads s) = Some e
    | Returned =>
        length (threads s) = no_threads images ∧
        Forall (λ w, st w = Finished) (threads s) ∧
        first_exc_info (threads s) = None
    end
}.

(** [process_images]: serial on the calling thread, or the start of
    the parallel machine. *)
Definition process_images
  : (list call * option Py.exn) + pstate :=
  let images := objects params "images" in
  if 20 <? length images then inr (init images)
  else inl (_process_images_serial images).

End Scheduler.

(** Twenty-five images, of which [b] and [c] cannot be processed. *)
Definition many_images : Params :=
  {[ "images" := "a b c d e f g h i j k l m n o p q r s t u v w x y" ]}.

Definition b_and_c_fail (p : Params) (image_name : string) : option Py.exn :=
  if bool_decide (image_name = "b") then Some (Py.Exn "CmdError" "b failed")
  else if bool_decide (image_name = "c") then Some (Py.Exn "CmdError" "c failed")
  else None.

(** A schedule on two cores: the four workers are started; worker 2
    fails on [c] and sets the event; worker 1 fails on [b]; workers 0
    and 3 finish their current image and stop; the caller polls. *)
Definition c_fails_first : list choice :=
  replicate 5 RunMain ++
  [RunWorker 2; RunMain; RunWorker 2; RunWorker 1; RunWorker 1;
   RunWorker 0; RunWorker 0; RunMain; RunWorker 3; RunWorker 3; RunMain].

End ImageSched.

(** ** Calls that may raise, with a record of what was done

    A computation takes the events so far and gives back the events
    after it, with either a value or the exception it raised. *)

Module Eff.

Inductive result (A : Type) :=
| Ok (a : A)
| Raised (e : Py.exn).
Global Arguments Ok {A} a.
Global Arguments Raised {A} e.

Section WithState.
(** What the code acts on: a record of events, or a larger world. *)
Context {St : Type}.

Definition M (A : Type) : Type := St → St * result A.

Definition ret {A} (a : A) : M A := λ w, (w, Ok a).

Definition bind {A B} (m : M A) (k : A → M B) : M B :=
  λ w, match m w with
       | (w', Ok a) => k a w'
       | (w', Raised e) => (w', Raised e)
       end.

Definition raise {A} (e : Py.exn) : M A := λ w, (w, Raised e).

Definition gets {A} (f : St → A) : M A := λ w, (w, Ok (f w)).

Definition modify (f : St → St) : M unit := λ w, (f w, Ok ()).

(** [try: body except Exception, e: handler] *)
Definition try_except {A} (body : M A) (handler : Py.exn → M A) : M A :=
  λ w, match body w with
       | (w', Ok a) => (w', Ok a)
       | (w', Raised e) => handler e w'
       end.

(** [try: body finally: cleanup] *)
Definition try_finally {A} (body : M A) (cleanup : M unit) : M A :=
  λ w, match body w with
       | (w', Ok a) =>
           match cleanup w' with
           | (w'', Ok _) => (w'', Ok a)
           | (w'', Raised e) => (w'', Raised e)
           end
       | (w', Raised e) =>
           match cleanup w' with
           | (w'', Ok _) => (w'', Raised e)
           | (w'', Raised e') => (w'', Raised e')
           end
       end.

(** [if c: body] *)
Definition when (c : bool) (body : M unit) : M unit :=
  if c then body else ret ().

(** [for x in l: body(x)] *)
Fixpoint for_each {A} (l : list A) (body : A → M unit) : M unit :=
  match l with
  | [] => ret ()
  | x :: rest => bind (body x) (λ _, for_each rest body)
  end.

End WithState.

Global Arguments M : clear implicits.

Global Instance M_ret {St} : MRet (M St) := λ A a, ret a.
Global Instance M_bind {St} : MBind (M St) := λ A B k m, bind m k.

Section WithEvents.
Context {Ev : Type}.

Definition emit (ev : Ev) : M (list Ev) unit := λ tr, (tr ++ [ev], Ok ()).

(** [m] only ever records events that satisfy [P]. *)
Definition emits_only (P : Ev → Prop) {A} (m : M (list Ev) A) : Prop :=
  ∀ tr, Forall P tr → Forall P (m tr).1.

End WithEvents.

End Eff.

(** ** Reconciling one image after the test: [postprocess_image] *)

Module ImagePost.
Import Eff.

(** The calls on the [QemuImg] object. *)
Inductive op :=
| Info        (* image.info() *)
| CheckImage  (* image.check_image(params, base_dir) *)
| Backup      (* image.backup_image(params, base_dir, "backup", True) *)
| Restore     (* image.backup_image(params, base_dir, "restore", True) *)
| Remove.     (* image.remove() *)

Global Instance op_eq_dec : EqDecision op.
Proof. solve_decision. Defined.

Inductive event :=
| Did (o : op)
| Logged (level msg : string).

Global Instance event_eq_dec : EqDecision event.
Proof. solve_decision. Defined.

(** The image backend as the function sees it: which calls raise, and
    what [image.info()] returns ([None] or the text). *)
Record backend := Backend {
  fails : op → option Py.exn;
  info_output : option string
}.

(** [s.splitlines()] on a byte string: lines end at LF, CR or CR LF;
    no empty last line. *)
Fixpoint splitlines_go (cur : string) (s : string) : list string :=
  match s with
  | EmptyString => if decide (cur = "") then [] else [String.rev cur]
  | String c rest =>
      if decide (c = "010"%char) then String.rev cur :: splitlines_go "" rest
      else if decide (c = "013"%char) then
        match rest with
        | String "010"%char rest' => String.rev cur :: splitlines_go "" rest'
        | _ => String.rev cur :: splitlines_go "" rest
        end
      else splitlines_go (String c cur) rest
  end.
Definition splitlines (s : string) : list string := splitlines_go "" s.

(** [s.split(":")]: every colon cuts, empty pieces are kept. *)
Fixpoint split_colon_go (cur : string) (s : string) : list string :=
  match s with
  | EmptyString => [String.rev cur]
  | String c rest =>
      if decide (c = ":"%char) then String.rev cur :: split_colon_go "" rest
      else split_colon_go (String c cur) rest
  end.
Definition split_colon (s : string) : list string := split_colon_go "" s.

(** The loop that fills the [image_info] dictionary. *)
Definition parse_image_info (output : string) : gmap string string :=
  foldl (λ image_info image_info_item,
           match split_colon image_info_item with
           | [k; v] => <[Py.strip k := Py.strip v]> image_info
           | _ => image_info
           end) ∅ (splitlines output).

Definition attribute_error : Py.exn :=
  Py.Exn "AttributeError" "'NoneType' object has no attribute 'split'".

Section PostprocessImage.
Variable image : backend.
Variable params : Params.
Variable image_name : string.
Variable vm_process_status : option string.

Definition call (o : op) : M (list event) unit :=
  emit (Did o) ;;
  match fails image o with
  | Some e => raise e
  | None => ret ()
  end.

Definition log (level msg : string) : M (list event) unit := emit (Logged level msg).

(** [image_name in params.get("master_images_clone").split()] *)
Definition in_master_images_clone : M (list event) bool :=
  match get params "master_images_clone" with
  | None => raise attribute_error
  | Some v => ret (Py.mem image_name (Py.split v))
  end.

(** The first part: may the image be checked?  Gives
    [check_image_flag]. *)
Definition check_image_flag : M (list event) bool :=
  let flag := bool_decide (get params "check_image" = Some "yes") in
  if bool_decide (vm_process_status = Some "running") && flag then
    if bool_decide (get params "skip_image_check_during_running" = Some "yes")
    then
      log "debug" "Guest is still running, skip the image check." ;;
      ret false
    else
      call Info ;;
      '(image_info, flag) ←
        match info_output image with
        | Some image_info_output =>
            ret (parse_image_info image_info_output, flag)
        | None =>
            log "debug" "Can not find matched image for selected guest os, skip the image check." ;;
            ret (∅, false)
        end;
      if bool_decide (image_info !! "lazy refcounts" = Some "true") then
        log "debug" "Should not check image while guest is alive when the image is create with lazy refcounts. Skip the image check." ;;
        ret false
      else ret flag
  else ret flag.

Definition postprocess_image : M (list event) unit :=
  let clone_master := get params "clone_master" in
  check_image_flag ← check_image_flag;
  restored ←
    (if check_image_flag : bool then
       try_except
         ((match clone_master with
           | None => call CheckImage
           | Some cm =>
               if bool_decide (cm = "yes") then
                 b ← in_master_images_clone;
                 when b (call CheckImage)
               else ret ()
           end) ;;
          if bool_decide (get_d params "backup_image" "no" = "yes") then
            call Backup ;; ret true
          else if bool_decide (get_d params "restore_image" "no" = "yes") then
            call Restore ;; ret true
          else ret false)
         (λ e,
            when (bool_decide (get_d params "restore_image_on_check_error" "no" = "yes"))
                 (call Restore) ;;
            when (bool_decide (get_d params "remove_image_on_check_error" "no" = "yes"))
                 (let cl_images := get_d params "master_images_clone" "" in
                  when (Py.mem image_name (Py.split cl_images)) (call Remove)) ;;
            if bool_decide (get params "skip_cluster_leak_warn" = Some "yes")
               && Py.contains "Leaked clusters" (Py.message e)
            then log "warn" (Py.message e) ;; ret false
            else raise e)
     else ret false);
  when (negb restored
        && bool_decide (get_d params "restore_image_after_testing" "no" = "yes"))
       (call Restore) ;;
  when (bool_decide (get params "remove_image" = Some "yes"))
       (log "info" "Remove image" ;;
        match clone_master with
        | None => call Remove
        | Some cm =>
            if bool_decide (cm = "yes") then
              b ← in_master_images_clone;
              when b (call Remove)
            else ret ()
        end).

(** Events other than the integrity check and the removal. *)
Definition no_check_no_remove (ev : event) : Prop :=
  ev ≠ Did CheckImage ∧ ev ≠ Did Remove.

(** The events of one run, starting from an empty record. *)
Definition events : list event := (postprocess_image []).1.

End PostprocessImage.

(** A backend on which every call succeeds and [info()] finds no
    image. *)
Definition quiet_backend : backend := Backend (λ _, None) None.

(** A cloned-master run in which [image1] is not in the clone set and
    every action flag is set. *)
Definition all_flags_params : Params :=
  list_to_map
    [("clone_master", "yes"); ("master_images_clone", "image2 image3");
     ("check_image", "yes"); ("backup_image", "yes");
     ("restore_image", "yes"); ("restore_image_after_testing", "yes");
     ("remove_image", "yes")].

End ImagePost.

(** ** The kernel command line check at the end of [preprocess_vm] *)

Module VMPre.
Import Eff.

Inductive event :=
| Logged (level msg : string).

(** What the check reads from the VM: [vm.is_paused()],
    [vm.is_alive()] and [vm.serial_console], which is [None] or a
    console whose [read_until_output_matches(cmd_line, timeout=60)]
    raises or returns [output], of which [output[1]] is the text. *)
Record vm_view := VMView {
  is_paused : bool;
  is_alive : bool;
  serial_console : option (Py.exn + string)
}.

(** The text of a string up to its first line feed. *)
Fixpoint until_lf (s : string) : string :=
  match s with
  | EmptyString => EmptyString
  | String c rest =>
      if decide (c = "010"%char) then EmptyString else String c (until_lf rest)
  end.

(** [re.findall("%s.*" % cmd_line, text)[0]] for a [cmd_line] without
    regular expression metacharacters and line feeds: the leftmost
    occurrence of [cmd_line] with the rest of its line; [None] when
    [findall] gives the empty list and [[0]] raises [IndexError]. *)
Fixpoint literal_first_match (cmd_line text : string) : option string :=
  if String.prefix cmd_line text then Some (until_lf text)
  else match text with
       | EmptyString => None
       | String _ rest => literal_first_match cmd_line rest
       end.

Definition TestError (msg : string) : Py.exn := Py.Exn "TestError" msg.
Definition IndexError : Py.exn := Py.Exn "IndexError" "list index out of range".

Section Check.
(** [re.findall("%s.*" % cmd_line, text)[0]] *)
Variable first_match : string → string → option string.
Variable params : Params.
Variable vm : vm_view.

Definition log (level msg : string) : M (list event) unit := emit (Logged level msg).

(** The two [for] loops that build [err_msg]. *)
Definition missing_options (kernel_cmd_line err_msg : string) : string :=
  foldl (λ err_msg kernel_option,
           if negb (Py.contains kernel_option kernel_cmd_line) then
             err_msg +:+ kernel_option +:+ " not in kernel command line"
                     +:+ " as expect."
           else err_msg)
        err_msg (Py.split (get_d params "kernel_options_exist" "")).

Definition forbidden_options (kernel_cmd_line err_msg : string) : string :=
  foldl (λ err_msg kernel_option,
           if Py.contains kernel_option kernel_cmd_line then
             err_msg +:+ kernel_option +:+ " exist in kernel command"
                     +:+ " line."
           else err_msg)
        err_msg (Py.split (get_d params "kernel_options_not_exist" "")).

(** Lines 212 to 253, the last statement of [preprocess_vm]: what it
    logs and whether it raises is what [preprocess_vm] logs last and
    whether it raises there. *)
Definition check_kernel_cmd_line : M (list event) unit :=
  if bool_decide (get params "check_kernel_cmd_line_from_serial" = Some "yes")
  then
    let debug_msg :=
      if is_paused vm then "VM is paused."
      else if negb (is_alive vm) then "VM is not alive."
      else if bool_decide (serial_console vm = None)
           then "There is no serial console in VM."
           else "" in
    if negb (bool_decide (debug_msg = "")) then
      log "warn" (debug_msg +:+ " Skip the kernel command line check.")
    else
      let cmd_line := get_d params "kernel_cmd_line_str" "Command line:" in
      try_except
        (output ←
           match serial_console vm with
           | Some (inr output) => mret output
           | Some (inl e) => raise e
           | None => raise (Py.Exn "AttributeError"
                        "'NoneType' object has no attribute 'read_until_output_matches'")
           end;
         kernel_cmd_line ←
           match first_match cmd_line output with
           | Some m => mret m
           | None => raise IndexError
           end;
         let err_msg := "" in
         let err_msg := missing_options kernel_cmd_line err_msg in
         let err_msg := forbidden_options kernel_cmd_line err_msg in
         if negb (bool_decide (err_msg = "")) then
           let err_msg := err_msg +:+ " Kernel command line get from" in
           let err_msg := err_msg +:+ " serial output is " +:+ kernel_cmd_line in
           raise (TestError err_msg)
         else
           log "info" "Kernel command line get from serial port is as expect")
        (λ err,
           log "warn"
             ("Did not get the kernel command line from serial port output. Skip the kernel command line check.Error is "
              +:+ Py.message err))
  else mret ().

End Check.

(** A running guest whose serial console shows a command line without
    the required [pci=nomsi]. *)
Definition booted_without_option : vm_view :=
  VMView false true
    (Some (inr "[    0.000000] Command line: BOOT_IMAGE=/vmlinuz-3.10 ro quiet")).

Definition expect_nomsi : Params :=
  list_to_map
    [("check_kernel_cmd_line_from_serial", "yes");
     ("kernel_options_exist", "pci=nomsi")].

End VMPre.

(** ** The background pollers *)

Module Poller.

(** *** The loop both pollers share

    [while True: <one pass over env.get_all_vms()>; <test of the
    termination event>].  The module global that holds the event is
    [None], or an [Event] whose flag is unset or set.  The poller is in
    the pass over the VMs, at the test after it, inside
    [event.wait(delay)] with some of the delay left, or out of the
    loop. *)
Inductive pc :=
| Iterating
| Deciding
| Waiting (remaining : nat)
| Exited.

Record state (D I : Type) := State {
  at_pc : pc;
  termination_event : option bool;
  data : D;
  inputs : list I
}.
Global Arguments State {D I} _ _ _ _.
Global Arguments at_pc {D I} _.
Global Arguments termination_event {D I} _.
Global Arguments data {D I} _.
Global Arguments inputs {D I} _.

Section Loop.
Context {D I : Type}.
(** One pass over the VMs, given what the pass observes. *)
Variable body : I → D → D.
(** What a pass observes once the recorded observations run out. *)
Variable idle : I.
(** What the poller does on its way out, after the event is dealt
    with. *)
Variable on_exit : D → D.
(** The polling delay, in clock ticks. *)
Variable delay : nat.

(** One step of the poller thread. *)
Definition poll_step (s : state D I) : state D I :=
  match at_pc s with
  | Iterating =>
      State Deciding (termination_event s)
            (body (hd idle (inputs s)) (data s)) (tail (inputs s))
  | Deciding =>
      match termination_event s with
      | Some true =>
          (* isSet(): the global is set to None, then break *)
          State Exited None (on_exit (data s)) (inputs s)
      | Some false =>
          (* event.wait(delay) *)
          State (Waiting delay) (Some false) (data s) (inputs s)
      | None =>
          (* the event is gone already: break *)
          State Exited None (on_exit (data s)) (inputs s)
      end
  | Waiting remaining =>
      match termination_event s, remaining with
      | Some true, _ => State Iterating (termination_event s) (data s) (inputs s)
      | _, 0 => State Iterating (termination_event s) (data s) (inputs s)
      | _, S r => State (Waiting r) (termination_event s) (data s) (inputs s)
      end
  | Exited => s
  end.

(** The driver: [<the global>.set()] in [postprocess]. *)
Definition driver_set (s : state D I) : state D I :=
  State (at_pc s)
        (match termination_event s with Some _ => Some true | None => None end)
        (data s) (inputs s).

(** The thread as [preprocess] starts it: a fresh, unset event. *)
Definition start (d : D) (ins : list I) : state D I :=
  State Iterating (Some false) d ins.

(** Poller and driver take turns in any order. *)
Inductive action := PollerStep | DriverSet.

Definition act (a : action) (s : state D I) : state D I :=
  match a with
  | PollerStep => poll_step s
  | DriverSet => driver_set s
  end.

Definition run (acts : list action) (s : state D I) : state D I :=
  foldl (λ s a, act a s) s acts.

End Loop.

(** The events a step added to a record. *)
Definition new_events {E} (before after : list E) : list E :=
  drop (length before) after.

(** *** The screendump poller: [_take_screendumps] *)

(** A frame slot: the per-VM directory and the frame number, which
    make up [screendump_filename]. *)
Definition slot : Type := string * Z.

Inductive encode_result :=
| Encoded        (* PIL opened the frame and saved the JPEG *)
| EncodeIOError  (* IOError from open() or save() *)
| NoPIL.         (* NameError: PIL is not installed *)

(** What [vm.screendump] and the checks after it give. *)
Inductive capture :=
| MonitorError (msg : string)
| AttributeError (msg : string)
| NoFile
| InvalidPPM
| Frame (image_hash : string) (encode : encode_result).

(** What one pass sees of one VM: identity, [is_alive()], the
    directory for its frames, the capture, and the readings of
    [time.time()] at line 1176 (first sight of the VM), at line 1208
    (a duplicate frame) and at lines 1220 and 1229 (the clock is
    reset). *)
Record sd_vm := SdVm {
  sd_instance : string;
  sd_name : string;
  sd_alive : bool;
  sd_dir : string;
  sd_capture : capture;
  now_first : Z;
  now_check : Z;
  now_reset : Z
}.

Inductive sd_event :=
| SdWarn (msg : string)
| Saved (dst : slot) (image_hash : string)  (* image.save(..., "JPEG") *)
| Linked (src dst : slot)                   (* os.link(cache[hash], dst) *)
| InactiveDebug (name : string) (time_inactive : Z)
| InactiveError (name : string) (time_inactive : Z)
| BackgroundError (name : string) (time_inactive : Z)
| Unlinked.                                 (* os.unlink(temp_filename) *)

Global Instance sd_event_eq_dec : EqDecision sd_event.
Proof. solve_decision. Defined.

Record sd_state := SdState {
  cache : gmap string slot;
  counter : gmap string Z;
  inactivity : gmap string Z;
  sd_out : list sd_event
}.

Record sd_config := SdConfig {
  screendump_delay : nat;
  inactivity_treshold : Z;
  inactivity_watcher : string
}.

Definition sd_init : sd_state := SdState ∅ ∅ ∅ [].

Section Screendumps.
Variable cfg : sd_config.

Definition sd_log (ev : sd_event) (s : sd_state) : sd_state :=
  SdState (cache s) (counter s) (inactivity s) (sd_out s ++ [ev]).

Definition set_counter (i : string) (n : Z) (s : sd_state) : sd_state :=
  SdState (cache s) (<[i := n]> (counter s)) (inactivity s) (sd_out s).

Definition set_inactivity (i : string) (t : Z) (s : sd_state) : sd_state :=
  SdState (cache s) (counter s) (<[i := t]> (inactivity s)) (sd_out s).

Definition set_cache (h : string) (f : slot) (s : sd_state) : sd_state :=
  SdState (<[h := f]> (cache s)) (counter s) (inactivity s) (sd_out s).

(** Lines 1173 to 1176: a VM seen for the first time gets a counter
    and an inactivity clock. *)
Definition first_sight (vm : sd_vm) (s : sd_state) : sd_state :=
  let i := sd_instance vm in
  let s := match counter s !! i with
           | Some _ => s
           | None => set_counter i 0%Z s
           end in
  match inactivity s !! i with
  | Some _ => s
  | None => set_inactivity i (now_first vm) s
  end.

(** Lines 1208 to 1227: the fingerprint is in the cache. *)
Definition on_duplicate (vm : sd_vm) (cached screendump_filename : slot)
    (s : sd_state) : sd_state :=
  let i := sd_instance vm in
  let time_inactive := (now_check vm - default 0 (inactivity s !! i))%Z in
  let s :=
    if bool_decide (time_inactive > inactivity_treshold cfg)%Z then
      if bool_decide (inactivity_watcher cfg = "error") then
        let s := sd_log (InactiveError (sd_name vm) time_inactive) s in
        let s := set_inactivity i (now_reset vm) s in
        sd_log (BackgroundError (sd_name vm) time_inactive) s
      else if bool_decide (inactivity_watcher cfg = "log") then
        sd_log (InactiveDebug (sd_name vm) time_inactive) s
      else s
    else s in
  sd_log (Linked cached screendump_filename) s.

(** Lines 1229 to 1243: the fingerprint is new. *)
Definition on_new_frame (vm : sd_vm) (image_hash : string)
    (encode : encode_result) (screendump_filename : slot)
    (s : sd_state) : sd_state :=
  let i := sd_instance vm in
  let s := set_inactivity i (now_reset vm) s in
  match encode with
  | Encoded =>
      let s := sd_log (Saved screendump_filename image_hash) s in
      set_cache image_hash screendump_filename s
  | EncodeIOError =>
      let s := sd_log (SdWarn "failed to produce a screendump") s in
      set_counter i (default 0 (counter s !! i) - 1)%Z s
  | NoPIL => s
  end.

(** The body of [for vm in env.get_all_vms()] for one VM. *)
Definition screendump_vm (vm : sd_vm) (s : sd_state) : sd_state :=
  let i := sd_instance vm in
  let s := first_sight vm s in
  if negb (sd_alive vm) then s
  else
    match sd_capture vm with
    | MonitorError msg | AttributeError msg => sd_log (SdWarn msg) s
    | NoFile => sd_log (SdWarn "failed to produce a screendump") s
    | InvalidPPM =>
        sd_log Unlinked (sd_log (SdWarn "produced an invalid screendump") s)
    | Frame image_hash encode =>
        let s := set_counter i (default 0 (counter s !! i) + 1)%Z s in
        let screendump_filename : slot :=
          (sd_dir vm, default 0%Z (counter s !! i)) in
        let s :=
          match cache s !! image_hash with
          | Some cached => on_duplicate vm cached screendump_filename s
          | None => on_new_frame vm image_hash encode screendump_filename s
          end in
        sd_log Unlinked s
    end.

(** One pass over [env.get_all_vms()]. *)
Definition screendump_pass (vms : list sd_vm) (s : sd_state) : sd_state :=
  foldl (λ s vm, screendump_vm vm s) s vms.

Definition _take_screendumps_step
  : state sd_state (list sd_vm) → state sd_state (list sd_vm) :=
  poll_step screendump_pass [] id (screendump_delay cfg).

Definition _take_screendumps_run
  : list action → state sd_state (list sd_vm) → state sd_state (list sd_vm) :=
  run screendump_pass [] id (screendump_delay cfg).

(** The inactivity signals (log entry or recorded error) among some
    events. *)
Definition is_inactivity_signal (ev : sd_event) : bool :=
  match ev with
  | InactiveDebug _ _ | BackgroundError _ _ => true
  | _ => false
  end.

Definition is_save (ev : sd_event) : bool :=
  match ev with Saved _ _ => true | _ => false end.

End Screendumps.

(** *** The register poller: [_store_vm_register] *)

(** What one pass sees of one VM; [vr_stored] is what
    [store_vm_register] returns. *)
Record vr_vm := VrVm {
  vr_instance : string;
  vr_name : string;
  vr_alive : bool;
  vr_stored : bool
}.

Inductive vr_event :=
| NotAliveWarning (name : string)
| Store (instance : string) (number : Z)
| AliveNow (name : string) (misses : Z)
| Summary (status : string) (entries : list (string * Z)).

Global Instance vr_event_eq_dec : EqDecision vr_event.
Proof. solve_decision. Defined.

Record vr_state := VrState {
  vr_counter : gmap string Z;
  vm_register_error_count : gmap string Z;
  vr_out : list vr_event
}.

Definition vr_init : vr_state := VrState ∅ ∅ [].

Definition vr_log (ev : vr_event) (s : vr_state) : vr_state :=
  VrState (vr_counter s) (vm_register_error_count s) (vr_out s ++ [ev]).

Definition set_vr_counter (i : string) (n : Z) (s : vr_state) : vr_state :=
  VrState (<[i := n]> (vr_counter s)) (vm_register_error_count s) (vr_out s).

Definition set_error_count (i : string) (n : Z) (s : vr_state) : vr_state :=
  VrState (vr_counter s) (<[i := n]> (vm_register_error_count s)) (vr_out s).

(** The body of [for vm in env.get_all_vms()] for one VM. *)
Definition register_vm (vm : vr_vm) (s : vr_state) : vr_state :=
  let i := vr_instance vm in
  let s := match vm_register_error_count s !! i with
           | Some _ => s
           | None => set_error_count i 0%Z s
           end in
  let errors := default 0%Z (vm_register_error_count s !! i) in
  if negb (vr_alive vm) then
    let s := if bool_decide (errors < 1)%Z
             then vr_log (NotAliveWarning (vr_name vm)) s else s in
    set_error_count i (errors + 1)%Z s
  else
    let s := match vr_counter s !! i with
             | Some _ => s
             | None => set_vr_counter i 1%Z s
             end in
    let number := default 0%Z (vr_counter s !! i) in
    let s := vr_log (Store i number) s in
    let stored_log := vr_stored vm in
    let s := if bool_decide (errors >= 1)%Z then
               let s := vr_log (AliveNow (vr_name vm) errors) s in
               set_error_count i 0%Z s
             else s in
    if stored_log then set_vr_counter i (number + 1)%Z s else s.

Definition register_pass (vms : list vr_vm) (s : vr_state) : vr_state :=
  foldl (λ s vm, register_vm vm s) s vms.

(** [report_result(status, results)]: one entry per VM whose count is
    positive; nothing is logged when there is none. *)
Definition report_entries (results : gmap string Z) : list (string * Z) :=
  filter (λ kv, (0 <? kv.2)%Z = true) (map_to_list results).

Definition report_result (status : string) (s : vr_state) : vr_state :=
  match report_entries (vm_register_error_count s) with
  | [] => s
  | entries => vr_log (Summary status entries) s
  end.

Definition _store_vm_register_step (vm_register_delay : nat)
  : state vr_state (list vr_vm) → state vr_state (list vr_vm) :=
  poll_step register_pass [] (report_result "Thread quit") vm_register_delay.

Definition _store_vm_register_run (vm_register_delay : nat)
  : list action → state vr_state (list vr_vm) → state vr_state (list vr_vm) :=
  run register_pass [] (report_result "Thread quit") vm_register_delay.

Definition is_not_alive_warning (ev : vr_event) : bool :=
  match ev with NotAliveWarning _ => true | _ => false end.

Definition is_summary (ev : vr_event) : bool :=
  match ev with Summary _ _ => true | _ => false end.

Definition is_alive_now (ev : vr_event) : bool :=
  match ev with AliveNow _ _ => true | _ => false end.

(** *** Sample runs *)

(** One VM whose screen shows the same picture at every capture. *)
Definition still_frame (t : Z) : sd_vm :=
  SdVm "vm1-instance" "vm1" true "screendumps_vm1" (Frame "hash-A" Encoded) t t t.

Definition log_policy : sd_config := SdConfig 5 10 "log".
Definition error_policy : sd_config := SdConfig 5 10 "error".

(** One VM that is down for three passes and up at the fourth; then
    the driver sets the event and the poller leaves. *)
Definition down_vm : vr_vm := VrVm "vm1-instance" "vm1" false false.
Definition up_vm : vr_vm := VrVm "vm1-instance" "vm1" true true.

Definition three_misses_then_alive : state vr_state (list vr_vm) :=
  _store_vm_register_run 0
    (replicate 10 PollerStep ++ [DriverSet; PollerStep])
    (start vr_init [[down_vm]; [down_vm]; [down_vm]; [up_vm]]).

End Poller.

(** ** Dispatch over VMs and images: [process] *)

Module Process.
Import Eff.

Inductive vm_status := Dead | Running | Paused.

Global Instance vm_status_eq_dec : EqDecision vm_status.
Proof. solve_decision. Defined.

(** The VM handle as [process] uses it. *)
Definition is_dead (vm : vm_status) : bool :=
  match vm with Dead => true | _ => false end.
Definition is_alive (vm : vm_status) : bool := negb (is_dead vm).
Definition is_paused (vm : vm_status) : bool :=
  match vm with Paused => true | _ => false end.

Inductive event :=
| VmPause (name : string)
| VmResume (name : string)
| ProcessImages (params : Params) (vm_process_status : option string)
| VmFunc (params : Params) (name : string).

Global Instance event_eq_dec : EqDecision event.
Proof. solve_decision. Defined.

(** The environment (VM name to handle; a missing name is
    [env.get_vm(name) is None]) and what has been called so far. *)
Record world := World {
  env : gmap string vm_status;
  called : list event
}.

Section Process.
Variable object_params : Params → string → Params.
(** [process_images(image_func, test, params, status)] returns or
    raises; it is given no access to [env]. *)
Variable process_images : Params → option string → option Py.exn.
(** [vm_func(test, vm_params, env, vm_name)] acts on [env] and
    returns or raises. *)
Variable vm_func : Params → string → gmap string vm_status →
                   gmap string vm_status * option Py.exn.
Variable params : Params.

Definition record (ev : event) : M world unit :=
  modify (λ w, World (env w) (called w ++ [ev])).

(** [vm.pause()]: a running guest stops. *)
Definition pause (name : string) : M world unit :=
  record (VmPause name) ;;
  modify (λ w, World (alter (λ vm, match vm with Running => Paused | _ => vm end)
                            name (env w)) (called w)).

(** [vm.resume()]: a stopped guest runs again. *)
Definition resume (name : string) : M world unit :=
  record (VmResume name) ;;
  modify (λ w, World (alter (λ vm, match vm with Paused => Running | _ => vm end)
                            name (env w)) (called w)).

Definition call_process_images (p : Params) (status : option string)
  : M world unit :=
  record (ProcessImages p status) ;;
  match process_images p status with
  | Some e => raise e
  | None => mret ()
  end.

(** The body of [for vm_name in params.objects("vms")] in
    [_call_image_func]. *)
Definition image_step (vm_name : string) : M world unit :=
  let vm_params := object_params params vm_name in
  vm ← gets (λ w, env w !! vm_name);
  let unpause_vm := false in
  let vm_process_status :=
    match vm with
    | None => "dead"
    | Some h => if is_dead h then "dead" else "running"
    end in
  '(unpause_vm, vm_params) ←
    match vm with
    | Some h =>
        if is_alive h && negb (is_paused h) then
          pause vm_name ;;
          mret (true, <["skip_cluster_leak_warn" := "yes"]> vm_params)
        else mret (unpause_vm, vm_params)
    | None => mret (unpause_vm, vm_params)
    end;
  try_finally
    (call_process_images vm_params (Some vm_process_status))
    (when unpause_vm (resume vm_name)).

Definition _call_image_func : M world unit :=
  if bool_decide (get params "skip_image_processing" = Some "yes") then mret ()
  else
    match objects params "vms" with
    | [] => call_process_images params None
    | vms => for_each vms image_step
    end.

Definition _call_vm_func : M world unit :=
  for_each (objects params "vms")
    (λ vm_name,
       let vm_params := object_params params vm_name in
       record (VmFunc vm_params vm_name) ;;
       r ← gets (λ w, vm_func vm_params vm_name (env w));
       modify (λ w, World r.1 (called w)) ;;
       match r.2 with
       | Some e => raise e
       | None => mret ()
       end).

Definition process (vm_first : bool) : M world unit :=
  when (negb vm_first) _call_image_func ;;
  _call_vm_func ;;
  when vm_first _call_image_func.

End Process.

(** A sample environment: one running, one paused and one dead guest;
    a fourth name is not registered. *)
Definition sample_env : gmap string vm_status :=
  list_to_map [("vm1", Running); ("vm2", Paused); ("vm3", Dead)].

Definition sample_params : Params :=
  list_to_map [("vms", "vm1 vm2 vm3 vm4"); ("images", "image1")].

(** Image processing that fails for the guest that was paused for
    it. *)
Definition fails_when_paused (p : Params) (status : option string)
  : option Py.exn :=
  if bool_decide (p !! "skip_cluster_leak_warn" = Some "yes")
  then Some (Py.Exn "VMError" "image check failed")
  else None.

End Process.

(** ** The kernel command line patch workflow *)

Module KernelPatch.
Import Eff.

(** Modelled from the spec: the guest filesystem editor
    ([utils_disk.GuestFSModiDisk], which is not part of this module)
    reads the boot configuration file, here the list of its lines, and
    the code "locates the kernel command-line entry by pattern": the
    lines the pattern selects, in file order, of which the code takes
    the first. *)
Definition locate (selects : string → bool) (content : list string)
  : list string :=
  filter (λ line, selects line = true) content.

(** Modelled from the spec: [replace_image_file_content(file, find_con,
    rep_con)] of the same editor "writes the patch" and "overwrites" the
    located entry: the first line equal to [find_con] becomes
    [rep_con]. *)
Fixpoint replace_image_file_content (find_con rep_con : string)
    (content : list string) : list string :=
  match content with
  | [] => []
  | line :: rest =>
      if decide (line = find_con) then rep_con :: rest
      else line :: replace_image_file_content find_con rep_con rest
  end.

(** [token.split("=")[0]] *)
Definition key_of (token : string) : string :=
  match String.index 0 "=" token with
  | Some n => String.substring 0 n token
  | None => token
  end.

(** Modelled from the spec: [utils_misc.rm_ker_cmd] (not part of this
    module), "each removal": the command line as its white-space
    separated tokens, without the token removed. *)
Definition rm_ker_cmd_tokens (kernel_cmdline kernel_param : string) : string :=
  Py.join_spaces
    (filter (λ t, t ≠ kernel_param) (Py.split kernel_cmdline)).

(** Modelled from the spec: [utils_misc.add_ker_cmd] (not part of this
    module), "each addition (optionally removing similar existing
    tokens)": the token is appended unless it is there, after dropping
    the tokens with the same key when asked to. *)
Definition add_ker_cmd_tokens (kernel_cmdline kernel_param : string)
    (remove_similar : bool) : string :=
  let tokens := Py.split kernel_cmdline in
  if Py.mem kernel_param tokens then Py.join_spaces tokens
  else
    let kept :=
      if remove_similar && Py.contains "=" kernel_param
      then filter (λ t, ¬ (Py.contains "=" t = true ∧
                             key_of t = key_of kernel_param)) tokens
      else tokens in
    Py.join_spaces (kept ++ [kernel_param]).

(** The default [kernel_cfg_pos_reg], [.*vmlinuz-\d+.*], on one line:
    the line has [vmlinuz-] followed by a digit. *)
Definition starts_with_digit (s : string) : bool :=
  match s with
  | String c _ => bool_decide (is_Some (Ascii.is_nat c))
  | EmptyString => false
  end.

Fixpoint has_vmlinuz_digit (line : string) : bool :=
  (String.prefix "vmlinuz-" line
   && starts_with_digit (String.substring 8 (String.length line - 8) line))
  || match line with
     | String _ rest => has_vmlinuz_digit rest
     | EmptyString => false
     end.

Inductive event :=
| VmDestroy (name : string)
| Debug (msg : string).

(** What the workflow acts on: the guest boot file, the two module
    globals, the VMs registered in [env], [params], and the calls
    made. *)
Record world := World {
  grub_file : list string;
  kernel_modified : bool;
  kernel_cmdline : option string;
  registered : list string;
  params : Params;
  called : list event
}.

Definition set_grub_file (f : list string → list string) (w : world) : world :=
  World (f (grub_file w)) (kernel_modified w) (kernel_cmdline w)
        (registered w) (params w) (called w).
Definition set_kernel_modified (b : bool) (w : world) : world :=
  World (grub_file w) b (kernel_cmdline w) (registered w) (params w) (called w).
Definition set_kernel_cmdline (c : string) (w : world) : world :=
  World (grub_file w) (kernel_modified w) (Some c) (registered w) (params w)
        (called w).
Definition unregister_vm (name : string) (w : world) : world :=
  World (grub_file w) (kernel_modified w) (kernel_cmdline w)
        (filter (λ n, n ≠ name) (registered w)) (params w) (called w).
Definition set_param (k v : string) (w : world) : world :=
  World (grub_file w) (kernel_modified w) (kernel_cmdline w) (registered w)
        (<[k := v]> (params w)) (called w).
Definition record (ev : event) (w : world) : world :=
  World (grub_file w) (kernel_modified w) (kernel_cmdline w) (registered w)
        (params w) (called w ++ [ev]).

Definition TestError (msg : string) : Py.exn := Py.Exn "TestError" msg.
Definition TypeError : Py.exn :=
  Py.Exn "TypeError" "expected string or buffer".

Definition default_kernel_cfg_pos_reg : string := ".*vmlinuz-\d+.*".

Section Workflow.
(** Does the regular expression select the line: the lines that
    [re.findall(kernel_cfg_pos_reg, content)] returns. *)
Variable selects : string → string → bool.
Variable add_ker_cmd : string → string → bool → string.
Variable rm_ker_cmd : string → string → string.
Variable object_params : Params → string → Params.

(** Lines 764 to 782: the command line to set. *)
Definition target_cmdline (p : Params)
    (kernel_extra_params_add kernel_extra_params_remove : string)
    (kernel_config : string) : string :=
  let kernel_config_set := kernel_config in
  let kernel_config_set :=
    if bool_decide (kernel_extra_params_add = "") then kernel_config_set
    else
      foldl (λ kernel_config_set kernel_extra_param,
               let param_tag := key_of kernel_extra_param in
               let params_kernel := object_params p param_tag in
               let rm_s := bool_decide
                 (get_d params_kernel "ker_remove_similar" "no" = "yes") in
               add_ker_cmd kernel_config_set kernel_extra_param rm_s)
            kernel_config_set (Py.split kernel_extra_params_add) in
  if bool_decide (kernel_extra_params_remove = "") then kernel_config_set
  else
    foldl (λ kernel_config_set kernel_extra_param,
             rm_ker_cmd kernel_config_set kernel_extra_param)
          kernel_config_set (Py.split kernel_extra_params_remove).

(** Lines 747 to 801 of [preprocess]. *)
Definition patch_kernel_cmdline
    (kernel_extra_params_add kernel_extra_params_remove : string)
  : M world unit :=
  when (negb (bool_decide (kernel_extra_params_add = ""))
        || negb (bool_decide (kernel_extra_params_remove = "")))
    (p ← gets params;
     let kernel_cfg_pos_reg :=
       get_d p "kernel_cfg_pos_reg" default_kernel_cfg_pos_reg in
     kernel_config_ori ← gets grub_file;
     match locate (selects kernel_cfg_pos_reg) kernel_config_ori with
     | [] => raise (TestError "Cannot find the kernel config")
     | kernel_config :: _ =>
         modify (set_kernel_cmdline kernel_config) ;;
         let kernel_config_set :=
           target_cmdline p kernel_extra_params_add
             kernel_extra_params_remove kernel_config in
         let kernel_need_modify :=
           negb (bool_decide (Py.strip kernel_config_set
                              = Py.strip kernel_config)) in
         when kernel_need_modify
           (vms ← gets registered;
            for_each vms (λ vm,
              modify (record (VmDestroy vm)) ;;
              modify (unregister_vm vm)) ;;
            modify (set_grub_file
                      (replace_image_file_content kernel_config
                         kernel_config_set)) ;;
            modify (set_kernel_modified true)) ;;
         modify (set_param "check_kernel_cmd_line_from_serial" "yes") ;;
         when (negb (bool_decide (kernel_extra_params_add = "")))
           (modify (set_param "kernel_options_exist"
                      kernel_extra_params_add)) ;;
         when (negb (bool_decide (kernel_extra_params_remove = "")))
           (modify (set_param "kernel_options_not_exist"
                      kernel_extra_params_remove)) ;;
         modify (record (Debug "Guest cmdline extra_params setting:"))
     end).

(** Lines 1045 to 1068 of [postprocess]. *)
Definition restore_kernel_cmdline : M world unit :=
  modified ← gets kernel_modified;
  p ← gets params;
  when (modified
        && bool_decide (get_d p "restore_kernel_cmd" "yes" = "yes"))
    (let kernel_cfg_pos_reg :=
       get_d p "kernel_cfg_pos_reg" default_kernel_cfg_pos_reg in
     vms ← gets registered;
     for_each vms (λ vm, modify (record (VmDestroy vm))) ;;
     kernel_config_cur ← gets grub_file;
     match locate (selects kernel_cfg_pos_reg) kernel_config_cur with
     | [] => raise (TestError "Cannot find the kernel config")
     | kernel_config :: _ =>
         saved ← gets kernel_cmdline;
         match saved with
         | Some original =>
             modify (set_grub_file
                       (replace_image_file_content kernel_config original))
         | None => raise TypeError
         end ;;
         modify (set_kernel_modified false) ;;
         modify (record (Debug "Restore the guest cmd line after test."))
     end).

End Workflow.

(** The regular expression engine on the default pattern. *)
Definition selects_default (kernel_cfg_pos_reg line : string) : bool :=
  has_vmlinuz_digit line.

(** A guest with two boot entries and one registered VM. *)
Definition two_entries : world :=
  World ["menuentry 'Linux'";
         "	linux16 /vmlinuz-3.10.0 root=/dev/sda1 ro quiet";
         "menuentry 'Rescue'";
         "	linux16 /vmlinuz-0-rescue root=/dev/sda1 ro"]
        false None ["vm1"] ∅ [].

End KernelPatch.

(** ** Preparing one image before the test: [preprocess_image] *)

Module ImagePre.
Import Eff.

(** The calls on the storage module and on the [QemuImg] object. *)
Inductive op :=
| PrepareBackend  (* storage.preprocess_image_backend(base_dir, params, name) *)
| Backup          (* image.backup_image(params, base_dir, "backup", True, True) *)
| FileRemove      (* storage.file_remove(params, image_filename) *)
| Create.         (* image.create(params) *)

Global Instance op_eq_dec : EqDecision op.
Proof. solve_decision. Defined.

Inductive event :=
| Did (o : op)
| Logged (level msg : string).

Global Instance event_eq_dec : EqDecision event.
Proof. solve_decision. Defined.

(** Which calls raise, and what [preprocess_image_backend] returns. *)
Record backend := Backend {
  fails : op → option Py.exn;
  backend_prepared : bool
}.

(** Whether the image file is there ([storage.file_exists]), and the
    calls made.  [file_remove] takes the file away and [create] puts it
    there; the other calls leave it alone. *)
Record world := World {
  file_exists : bool;
  called : list event
}.

Section PreprocessImage.
Variable storage : backend.
Variable params : Params.

Definition record (ev : event) : M world unit :=
  modify (λ w, World (file_exists w) (called w ++ [ev])).

Definition call (o : op) : M world unit :=
  record (Did o) ;;
  match fails storage o with
  | Some e => raise e
  | None =>
      match o with
      | FileRemove => modify (λ w, World false (called w))
      | Create => modify (λ w, World true (called w))
      | _ => mret ()
      end
  end.

Definition preprocess_image : M world unit :=
  call PrepareBackend ;;
  when (negb (backend_prepared storage))
       (record (Logged "error" "Backend can't be prepared correctly.")) ;;
  create_image ←
    (if bool_decide (get params "force_create_image" = Some "yes") then mret true
     else
       present ← gets file_exists;
       mret (bool_decide (get params "create_image" = Some "yes")
             && negb present));
  when (bool_decide (get_d params "backup_image_before_testing" "no" = "yes"))
       (call Backup) ;;
  when create_image
       (present ← gets file_exists;
        when present (call FileRemove) ;;
        record (Logged "info" "Create image on %s.") ;;
        call Create).

End PreprocessImage.

(** A storage on which every call succeeds. *)
Definition sound_storage : backend := Backend (λ _, None) true.

End ImagePre.

(** ** Tearing one VM down after the test: [postprocess_vm] *)

Module VMPost.
Import Eff.

Inductive event :=
| SessionClose (s : nat)       (* s.close() *)
| WaitForDead (timeout : Z)    (* utils_misc.wait_for(vm.is_dead, timeout, 0, 1) *)
| Destroy (gracefully : bool). (* vm.destroy(gracefully=...) *)

Global Instance event_eq_dec : EqDecision event.
Proof. solve_decision. Defined.

(** The VM that [env.get_vm(name)] gives, if any, with its list of
    remote sessions, and the calls made. *)
Record world := World {
  vm : option (list nat);
  called : list event
}.

(** [l.remove(x)]: the first occurrence goes. *)
Fixpoint list_remove (x : nat) (l : list nat) : list nat :=
  match l with
  | [] => []
  | y :: rest => if decide (y = x) then rest else y :: list_remove x rest
  end.

Definition ValueError (text : string) : Py.exn :=
  Py.Exn "ValueError" ("could not convert string to float: " +:+ text).

Section PostprocessVM.
(** Does [s.close()] return (or raise). *)
Variable closes : nat → bool.
(** Which call of [vm.destroy] raises. *)
Variable destroy_fails : option Py.exn.
(** [float(text)]: the number, in some fixed unit, or [ValueError]. *)
Variable float : string → option Z.
Variable params : Params.

Definition record (ev : event) : M world unit :=
  modify (λ w, World (vm w) (called w ++ [ev])).

Definition postprocess_vm : M world unit :=
  the_vm ← gets vm;
  match the_vm with
  | None => mret ()
  | Some remote_sessions =>
      for_each remote_sessions (λ s,
        try_except
          (record (SessionClose s) ;;
           (if closes s then mret ()
            else raise (Py.Exn "Exception" "close failed")) ;;
           modify (λ w, World (list_remove s <$> vm w) (called w)))
          (λ _, mret ())) ;;
      when (bool_decide (get params "kill_vm" = Some "yes"))
        (kill_vm_timeout ←
           match get params "kill_vm_timeout" with
           | None => mret 0%Z
           | Some text =>
               match float text with
               | Some t => mret t
               | None => raise (ValueError text)
               end
           end;
         when (negb (bool_decide (kill_vm_timeout = 0%Z)))
              (record (WaitForDead kill_vm_timeout)) ;;
         record (Destroy (bool_decide
                            (get params "kill_vm_gracefully" = Some "yes"))) ;;
         match destroy_fails with
         | Some e => raise e
         | None => mret ()
         end)
  end.

End PostprocessVM.

Definition is_destroy (ev : event) : bool :=
  match ev with Destroy _ => true | _ => false end.

Definition is_close (ev : event) : bool :=
  match ev with SessionClose _ => true | _ => false end.

End VMPost.

(** ** Dropping the VMs that are no longer wanted, in [preprocess] *)

Module EnvSweep.
Import Eff.

(** An entry of the environment: a VM, under its name, or something
    else. *)
Inductive entry :=
| VM (name : string)
| Other.

Global Instance entry_eq_dec : EqDecision entry.
Proof. solve_decision. Defined.

(** The environment, and the names [vm.destroy()] was called on. *)
Record world := World {
  env : gmap string entry;
  destroyed : list string
}.

Definition KeyError : Py.exn := Py.Exn "KeyError" "".

(** [vm.name in requested_vms], for the entries that are VMs. *)
Definition wanted (requested_vms : list string) (e : entry) : bool :=
  match e with
  | VM name => Py.mem name requested_vms
  | Other => true
  end.

Section Sweep.
(** Which calls of [vm.destroy()] raise. *)
Variable destroy_fails : string → option Py.exn.
Variable params : Params.

(** The body of the loop, lines 628 to 634: [env[key]] is read from
    the live environment. *)
Definition visit (key : string) : M world unit :=
  let requested_vms := objects params "vms" in
  found ← gets (λ w, env w !! key);
  match found with
  | None => raise KeyError
  | Some Other => mret ()
  | Some (VM name) =>
      when (negb (Py.mem name requested_vms))
        (modify (λ w, World (env w) (destroyed w ++ [name])) ;;
         match destroy_fails name with
         | Some e => raise e
         | None => mret ()
         end ;;
         modify (λ w, World (delete key (env w)) (destroyed w)))
  end.

(** Lines 626 to 634: [for key in env.keys(): ...] walks a copy of the
    keys, in the order of the dictionary. *)
Definition remove_unrequested_vms : M world unit :=
  keys ← gets (λ w, (map_to_list (env w)).*1);
  for_each keys visit.

End Sweep.

(** Two VMs and the address cache; only [vm1] is asked for. *)
Definition sample_env : gmap string entry :=
  <["vm__vm1" := VM "vm1"]> (<["vm__vm2" := VM "vm2"]>
    (<["address_cache" := Other]> ∅)).

Definition sample_params : Params := <["vms" := "vm1"]> ∅.

End EnvSweep.

(** ** The end of [postprocess]: host cleanup, collected failures, and
    [process_command] *)

Module PostCleanup.
Import Eff.

(** The calls on the host, one for each object that is built and then
    cleaned up. *)
Inductive op :=
| HugePageCleanup     (* test_setup.HugePageConfig(params).cleanup() *)
| LibvirtdRestart     (* libvirtd_inst.restart() *)
| THPCleanup          (* test_setup.TransparentHugePageConfig(test, params).cleanup() *)
| KSMCleanup          (* test_setup.KSMConfig(params, env).cleanup(env) *)
| EGDCleanup          (* test_setup.EGDConfig(params, env).cleanup() *)
| PolkitCleanup       (* test_setup.LibvirtPolkitConfig(params).cleanup() *)
| KernelRestore       (* lines 1046 to 1066, see [KernelPatch.restore_kernel_cmdline] *)
| Putenv (k v : string)          (* os.putenv(k, v) *)
| System (command : string)      (* avocado_process.system(command, shell=True) *)
| IscsiCleanup        (* qemu_storage.Iscsidev(params, base_dir, "iscsi").cleanup() *)
| GetLvmdev (name : string)        (* env.get_lvmdev(name) *)
| LvmCleanup                       (* lvmdev.cleanup() *)
| UnregisterLvmdev (name : string) (* env.unregister_lvmdev(name) *)
| NfsCleanup          (* nfs.Nfs(params).cleanup() *)
| BridgeCleanup (ovs : bool)
    (* test_setup.PrivateOvsBridgeConfig(params_pb).cleanup(), or
       test_setup.PrivateBridgeConfig(params_pb).cleanup() *)
| VerifyHostDmesg.    (* utils_misc.verify_host_dmesg() *)

Global Instance op_eq_dec : EqDecision op.
Proof. solve_decision. Defined.

Inductive event :=
| Did (o : op)
| Logged (level msg : string).

Global Instance event_eq_dec : EqDecision event.
Proof. solve_decision. Defined.

(** The local [err], the global [kernel_modified], and the calls made. *)
Record world := World {
  err : string;
  kernel_modified : bool;
  called : list event
}.

(** The line feed, Python's ['\n']; the two characters backslash and n
    are Python's ['\\n']. *)
Definition newline : string := String "010" "".
Definition backslash_n : string := "\n".

(** [s.replace(old, new)] for an [old] that is not empty: from left to
    right, occurrences that do not overlap. *)
Fixpoint replace_from (skip : nat) (old new s : string) : string :=
  match s with
  | EmptyString => EmptyString
  | String c rest =>
      match skip with
      | S n => replace_from n old new rest
      | 0 =>
          if String.prefix old s
          then new +:+ replace_from (String.length old - 1) old new rest
          else String c (replace_from 0 old new rest)
      end
  end.

Definition replace (old new s : string) : string := replace_from 0 old new s.

Definition VMError (err : string) : Py.exn :=
  Py.Exn "VMError" ("Failures occurred while postprocess:" +:+ err).
Definition KeyError (key : string) : Py.exn :=
  Py.Exn "KeyError" ("'" +:+ key +:+ "'").
Definition ValueError (text : string) : Py.exn :=
  Py.Exn "ValueError"
    ("invalid literal for int() with base 10: '" +:+ text +:+ "'").

(** [if params.get(k):] on a string or [None]. *)
Definition truthy (v : option string) : bool :=
  match v with
  | Some (String _ _) => true
  | _ => false
  end.

Section Postprocess.
(** Which calls raise. *)
Variable fails : op → option Py.exn.
Variable object_params : Params → string → Params.
(** [int(text)], or [ValueError]. *)
Variable int : string → option Z.
(** [test.bindir] *)
Variable bindir : string.
Variable params : Params.

Definition record (ev : event) : M world unit :=
  modify (λ w, World (err w) (kernel_modified w) (called w ++ [ev])).

Definition call (o : op) : M world unit :=
  record (Did o) ;;
  match fails o with
  | Some e => raise e
  | None => mret ()
  end.

Definition log (level msg : string) : M world unit := record (Logged level msg).

(** [err += "\n<label>: %s" % str(details).replace(old, '\n  ')] *)
Definition add_err (label old : string) (details : Py.exn) : M world unit :=
  modify (λ w,
    World (err w +:+ newline +:+ label +:+ ": "
             +:+ replace old (newline +:+ "  ") (Py.message details))
          (kernel_modified w) (called w)).

(** [try: body except Exception, details: err += ...;
    logging.error(details)] *)
Definition collecting (label : string) (body : M world unit) : M world unit :=
  try_except body
    (λ details,
       add_err label backslash_n details ;; log "error" (Py.message details)).

(** [process_command]: the timeout is not used. *)
Definition process_command (command : string) (command_timeout : Z)
    (command_noncritical : bool) : M world unit :=
  for_each (map_to_list params)
    (λ kv, call (Putenv ("KVM_TEST_" +:+ kv.1) kv.2)) ;;
  try_except (call (System ("cd " +:+ bindir +:+ "; " +:+ command)))
    (λ e,
       if bool_decide (Py.exc_class e = "CmdError")
       then if command_noncritical then log "warn" (Py.message e)
            else raise e
       else raise e).

(** Lines 994 to 1005. *)
Definition cleanup_hugepages : M world unit :=
  when (bool_decide (get params "setup_hugepages" = Some "yes"))
    (collecting "HP cleanup"
       (call HugePageCleanup ;;
        when (bool_decide (get params "vm_type" = Some "libvirt"))
             (call LibvirtdRestart))).

(** Lines 1007 to 1013. *)
Definition cleanup_thp : M world unit :=
  when (bool_decide (get params "setup_thp" = Some "yes"))
    (collecting "THP cleanup" (call THPCleanup)).

(** Lines 1015 to 1021. *)
Definition cleanup_ksm : M world unit :=
  when (bool_decide (get params "setup_ksm" = Some "yes"))
    (collecting "KSM cleanup" (call KSMCleanup)).

(** Lines 1023 to 1029. *)
Definition cleanup_egd : M world unit :=
  when (bool_decide (get params "setup_egd" = Some "yes")
        && bool_decide (get params "kill_vm" = Some "yes"))
    (collecting "egd.pl cleanup" (call EGDCleanup)).

(** Lines 1031 to 1043. *)
Definition cleanup_polkit : M world unit :=
  when (bool_decide (get params "vm_type" = Some "libvirt"))
    (when (bool_decide (get params "setup_libvirt_polkit" = Some "yes"))
       (try_except (call PolkitCleanup ;; call LibvirtdRestart)
          (λ e,
             if bool_decide (Py.exc_class e = "PolkitConfigCleanupError")
             then add_err "Polkit cleanup" backslash_n e ;;
                  log "error" (Py.message e)
             else add_err "Polkit cleanup" backslash_n e ;;
                  log "error" ("Unexpected error: " +:+ Py.message e)))).

(** Lines 1045 to 1068: no [try] around the restore. *)
Definition restore_kernel : M world unit :=
  modified ← gets kernel_modified;
  when (modified
        && bool_decide (get_d params "restore_kernel_cmd" "yes" = "yes"))
    (call KernelRestore ;;
     modify (λ w, World (err w) false (called w)) ;;
     log "debug" "Restore the guest cmd line after test.").

(** Lines 1070 to 1079. *)
Definition run_post_command : M world unit :=
  when (truthy (get params "post_command"))
    (try_except
       (timeout ←
          match int (get_d params "post_command_timeout" "600") with
          | Some t => mret t
          | None =>
              raise (ValueError (get_d params "post_command_timeout" "600"))
          end;
        process_command (get_d params "post_command" "") timeout
          (bool_decide (get params "post_command_noncritical" = Some "yes")))
       (λ details,
          add_err "Postprocess command" newline details ;;
          log "error" (Py.message details))).

(** Lines 1081 to 1088. *)
Definition cleanup_iscsi : M world unit :=
  when (bool_decide (get params "storage_type" = Some "iscsi"))
    (collecting "iscsi cleanup" (call IscsiCleanup)).

(** ["lvm_%s" % params["main_vm"]] *)
Definition lvm_name : M world string :=
  match params !! "main_vm" with
  | Some v => mret ("lvm_" +:+ v)
  | None => raise (KeyError "main_vm")
  end.

(** Lines 1090 to 1097: the device is unregistered outside the [try]. *)
Definition cleanup_lvm : M world unit :=
  when (bool_decide (get params "storage_type" = Some "lvm"))
    (collecting "LVM cleanup"
       (name ← lvm_name; call (GetLvmdev name) ;; call LvmCleanup) ;;
     name ← lvm_name;
     call (UnregisterLvmdev name)).

(** Lines 1099 to 1104: nothing is logged. *)
Definition cleanup_nfs : M world unit :=
  when (bool_decide (get params "storage_type" = Some "nfs"))
    (try_except (call NfsCleanup)
       (λ details, add_err "nfs cleanup" backslash_n details)).

(** Lines 1106 to 1119: [for nic in ...: if ...: break] and its [else];
    gives [setup_pb] and [ovs_pb]. *)
Definition private_bridge : bool * bool :=
  let '(setup_pb, params_pb) :=
    match
      find (λ nic, bool_decide (get params ("netdst_" +:+ nic) = Some "private"))
           (Py.split (get_d params "nics" ""))
    with
    | Some nic => (true, object_params params nic)
    | None => (bool_decide (get params "netdst" = Some "private"), params)
    end in
  (setup_pb, bool_decide (get params_pb "priv_br_type" = Some "openvswitch")).

(** Lines 1121 to 1130. *)
Definition cleanup_private_bridge : M world unit :=
  let '(setup_pb, ovs_pb) := private_bridge in
  when setup_pb (collecting "PB cleanup" (call (BridgeCleanup ovs_pb))).

(** Lines 1132 to 1135. *)
Definition report : M world unit :=
  collected ← gets err;
  if bool_decide (collected = "")
  then when (bool_decide (get_d params "verify_host_dmesg" "yes" = "yes"))
            (call VerifyHostDmesg)
  else raise (VMError collected).

(** Lines 994 to 1135 of [postprocess]; [err] comes in with what the
    postprocessing of the VMs and images has put there. *)
Definition postprocess_cleanup : M world unit :=
  cleanup_hugepages ;;
  cleanup_thp ;;
  cleanup_ksm ;;
  cleanup_egd ;;
  cleanup_polkit ;;
  restore_kernel ;;
  run_post_command ;;
  cleanup_iscsi ;;
  cleanup_lvm ;;
  cleanup_nfs ;;
  cleanup_private_bridge ;;
  report.

(** The first call of each piece of cleanup that the parameters ask
    for. *)
Definition due_cleanups : list op :=
  (if bool_decide (get params "setup_hugepages" = Some "yes")
   then [HugePageCleanup] else []) ++
  (if bool_decide (get params "setup_thp" = Some "yes")
   then [THPCleanup] else []) ++
  (if bool_decide (get params "setup_ksm" = Some "yes")
   then [KSMCleanup] else []) ++
  (if bool_decide (get params "setup_egd" = Some "yes")
      && bool_decide (get params "kill_vm" = Some "yes")
   then [EGDCleanup] else []) ++
  (if bool_decide (get params "vm_type" = Some "libvirt")
      && bool_decide (get params "setup_libvirt_polkit" = Some "yes")
   then [PolkitCleanup] else []) ++
  (if bool_decide (get params "storage_type" = Some "iscsi")
   then [IscsiCleanup] else []) ++
  (if bool_decide (get params "storage_type" = Some "lvm")
   then match params !! "main_vm" with
        | Some v => [GetLvmdev ("lvm_" +:+ v)]
        | None => []
        end
   else []) ++
  (if bool_decide (get params "storage_type" = Some "nfs")
   then [NfsCleanup] else []) ++
  (if private_bridge.1 then [BridgeCleanup private_bridge.2] else []).

(** The calls of the host tuning cleanup, which comes before the kernel
    command line is restored. *)
Definition tuning_ops : list op :=
  [HugePageCleanup; LibvirtdRestart; THPCleanup; KSMCleanup; EGDCleanup;
   PolkitCleanup].

(** An event of one of the calls [ops], or a log line. *)
Definition allowed (ops : list op) (ev : event) : Prop :=
  match ev with
  | Did o => o ∈ ops
  | Logged _ _ => True
  end.

(** From [w] to [w'] with the events [evs]: only calls among [ops] were
    made; [err] was not emptied; each call of [due] was made, and [err]
    is not empty if it raised; when none of [ops] raises, and [sound]
    holds, [err] is as before. *)
Definition extends (sound : Prop) (due ops : list op)
    (w w' : world) (evs : list event) : Prop :=
  called w' = called w ++ evs ∧
  Forall (allowed ops) evs ∧
  (err w' = "" → err w = "") ∧
  (∀ o, o ∈ due → Did o ∈ evs ∧ (fails o ≠ None → err w' ≠ "")) ∧
  (sound → (∀ o, o ∈ ops → fails o = None) → err w' = err w).

(** A piece of the cleanup that always returns. *)
Definition block_ok (sound : Prop) (due ops : list op)
    (m : M world unit) : Prop :=
  ∀ w, ∃ w' evs,
    m w = (w', Ok ()) ∧
    kernel_modified w' = kernel_modified w ∧
    extends sound due ops w w' evs.

(** Pieces of the cleanup that always get as far as [k]. *)
Definition runs_into (sound : Prop) (due ops : list op)
    (m k : M world unit) : Prop :=
  ∀ w, ∃ w' evs,
    m w = k w' ∧
    kernel_modified w' = kernel_modified w ∧
    extends sound due ops w w' evs.

End Postprocess.

End PostCleanup.

(** ** Bringing one VM up before the test: [preprocess_vm] *)

Module VMBoot.
Import Eff.

(** The calls on the environment and on the VM. *)
Inductive op :=
| EnvCreateVM       (* env.create_vm(vm_type, target, name, params, test.bindir) *)
| Remove            (* vm.remove() *)
| Destroy (gracefully : bool)  (* old_vm.destroy(gracefully=gracefully_kill) *)
| Start             (* vm.start() *)
| UpdateVmId        (* vm.update_vm_id() and the new utils_net.VirtNet *)
| Create (reuse_previous_config : bool)
    (* vm.create(name, params, test.bindir, timeout=..., ...), or
       vm.create(timeout=..., ...) when the previous configuration is
       used again *)
| CreateSerialConsole  (* vm.create_serial_console() *)
| Pause.            (* vm.pause() *)

Global Instance op_eq_dec : EqDecision op.
Proof. solve_decision. Defined.

Inductive event :=
| Did (o : op).

Global Instance event_eq_dec : EqDecision event.
Proof. solve_decision. Defined.

(** What the function reads: whether [env.get_vm(name)] gives a VM,
    whether its [connect_uri] is the normalised one of [params],
    [vm.exists()], [vm.is_alive()] where the start is decided (lines
    151, 154 and 185: nothing is called on the VM between them when it
    is not started), [vm.needs_restart(...)], and [vm.is_alive()] and
    [vm.is_paused()] at line 205. *)
Record vm_view := VMView {
  known : bool;
  same_connect_uri : bool;
  vm_exists : bool;
  alive : bool;
  needs_restart : bool;
  alive_at_end : bool;
  paused_at_end : bool
}.

Definition TestError (msg : string) : Py.exn := Py.Exn "TestError" msg.
Definition TestNAError (msg : string) : Py.exn := Py.Exn "TestNAError" msg.
Definition ValueError (text : string) : Py.exn :=
  Py.Exn "ValueError"
    ("invalid literal for int() with base 10: '" +:+ text +:+ "'").

(** [if params.get(k):] on a string or [None]. *)
Definition truthy (v : option string) : bool :=
  match v with
  | Some (String _ _) => true
  | _ => false
  end.

Section PreprocessVM.
(** Which calls raise. *)
Variable fails : op → option Py.exn.
(** [int(text)], or [ValueError]. *)
Variable int : string → option Z.
Variable params : Params.
Variable name : string.
Variable vm : vm_view.

Definition call (o : op) : M (list event) unit :=
  emit (Did o) ;;
  match fails o with
  | Some e => raise e
  | None => mret ()
  end.

Definition is_libvirt : bool :=
  bool_decide (get params "vm_type" = Some "libvirt").
Definition is_v2v : bool := bool_decide (get params "vm_type" = Some "v2v").

(** Lines 119 to 132: a libvirt guest must be there, unless the test
    installs it. *)
Definition guest_is_missing : bool :=
  is_libvirt && negb (vm_exists vm)
  && negb (bool_decide (get params "type" = Some "unattended_install"))
  && negb (bool_decide (get params "type" = Some "svirt_install")).

Definition missing_guest_error : Py.exn :=
  let error_msg := "Test VM " +:+ name +:+ " does not exist." in
  if bool_decide (get params "main_vm" = Some name)
  then TestError
         (error_msg
          +:+ " Consider adding 'unattended_install.import.import.default_install.aio_native' test as the first one and 'remove_guest.without_disk' test as last one to remove the guest after testing")
  else TestNAError error_msg.

(** Lines 141 to 161: gives [start_vm] and [update_virtnet]. *)
Definition decide_start (gracefully_kill : bool)
  : M (list event) (bool * bool) :=
  if truthy (get params "migration_mode") then mret (true, false)
  else if bool_decide (get params "start_vm" = Some "yes") then
    if is_libvirt || is_v2v then mret (negb (alive vm), false)
    else if bool_decide (get_d params "check_vm_needs_restart" "yes" = "yes")
            && needs_restart vm
    then call (Destroy gracefully_kill) ;; mret (true, true)
    else mret (negb (alive vm), false)
  else mret (false, false).

(** [int(params.get("vm_create_timeout", 20))] *)
Definition vm_create_timeout : M (list event) Z :=
  match get params "vm_create_timeout" with
  | None => mret 20%Z
  | Some text =>
      match int text with
      | Some t => mret t
      | None => raise (ValueError text)
      end
  end.

(** Lines 163 to 197: the VM is started, or left as it is. *)
Definition start_or_settle (start_vm update_virtnet gracefully_kill : bool)
  : M (list event) unit :=
  if start_vm then
    if is_libvirt
       && negb (bool_decide (get params "type" = Some "unattended_install"))
    then call Start
    else if is_v2v then call Start
    else
      when update_virtnet (call UpdateVmId) ;;
      timeout ← vm_create_timeout;
      call (Create (negb (bool_decide
                            (get_d params "reuse_previous_config" "no" = "no"))))
  else if negb (alive vm) then mret ()
  else if bool_decide (get params "kill_vm_before_test" = Some "yes")
          && bool_decide (get params "start_vm" = Some "no")
  then call (Destroy gracefully_kill)
  else call CreateSerialConsole.

(** Lines 101 to 211 of [preprocess_vm]. *)
Definition bring_up : M (list event) unit :=
  when (negb (known vm) || is_libvirt && negb (same_connect_uri vm))
       (call EnvCreateVM) ;;
  when guest_is_missing (raise missing_guest_error) ;;
  when (bool_decide (get params "force_remove_vm" = Some "yes")) (call Remove) ;;
  let gracefully_kill :=
    bool_decide (get params "kill_vm_gracefully" = Some "yes") in
  decision ← decide_start gracefully_kill;
  start_or_settle decision.1 decision.2 gracefully_kill ;;
  when (bool_decide (get params "paused_after_start_vm" = Some "yes")
        && alive_at_end vm && negb (paused_at_end vm))
       (call Pause).

End PreprocessVM.

(** The calls that bring a VM up. *)
Definition is_boot (ev : event) : bool :=
  match ev with
  | Did Start | Did (Create _) | Did UpdateVmId => true
  | _ => false
  end.

End VMBoot.

(** ** Sample inputs *)

Module Samples.

(** Backup and removal asked for, but no check. *)
Definition unchecked_params : Params :=
  list_to_map [("backup_image", "yes"); ("remove_image", "yes")].

(** An image whose check finds leaked clusters. *)
Definition leaky_image : ImagePost.backend :=
  ImagePost.Backend
    (λ o, match o with
          | ImagePost.CheckImage =>
              Some (Py.Exn "CmdError" "Leaked clusters were found")
          | _ => None
          end)
    None.

Definition check_only_params : Params := {[ "check_image" := "yes" ]}.

Definition leak_tolerant_params : Params :=
  list_to_map [("check_image", "yes"); ("skip_cluster_leak_warn", "yes")].

(** A guest that is down when the screendump pass comes by. *)
Definition dead_guest : Poller.sd_vm :=
  Poller.SdVm "vm1-instance" "vm1" false "/tmp/screendumps_vm1"
    Poller.NoFile 0 0 0.

(** A boot file without a kernel entry, before and after a patch. *)
Definition no_kernel_entry : KernelPatch.world :=
  KernelPatch.World ["menuentry 'Linux'"; "	initrd16 /initramfs.img"]
    false None ["vm1"] ∅ [].

Definition entry_lost : KernelPatch.world :=
  KernelPatch.World ["menuentry 'Linux'"; "	initrd16 /initramfs.img"]
    true (Some "	linux16 /vmlinuz-3.10.0 root=/dev/sda1 ro quiet")
    ["vm1"; "vm2"] ∅ [].

(** Parameters of [preprocess_image]. *)
Definition create_if_missing : Params := {[ "create_image" := "yes" ]}.
Definition force_create : Params :=
  list_to_map [("force_create_image", "yes");
               ("backup_image_before_testing", "yes")].

(** Three sessions, of which the second cannot be closed. *)
Definition second_stays (s : nat) : bool := negb (s =? 2).

Definition float_of (text : string) : option Z :=
  if bool_decide (text = "5") then Some 5%Z
  else if bool_decide (text = "0") then Some 0%Z
  else None.

Definition kill_after_wait : Params :=
  list_to_map [("kill_vm", "yes"); ("kill_vm_timeout", "5");
               ("kill_vm_gracefully", "yes")].

Definition kill_with_bad_timeout : Params :=
  list_to_map [("kill_vm", "yes"); ("kill_vm_timeout", "soon")].

(** Host cleanup in which the THP cleanup raises. *)
Definition cleanup_params : Params :=
  list_to_map [("setup_thp", "yes"); ("setup_ksm", "yes");
               ("storage_type", "nfs")].

Definition thp_fails (o : PostCleanup.op) : option Py.exn :=
  match o with
  | PostCleanup.THPCleanup => Some (Py.Exn "Exception" "THP is busy")
  | _ => None
  end.

Definition restore_fails (o : PostCleanup.op) : option Py.exn :=
  match o with
  | PostCleanup.KernelRestore =>
      Some (Py.Exn "TestError" "Cannot find the kernel config")
  | _ => None
  end.

Definition command_fails (o : PostCleanup.op) : option Py.exn :=
  match o with
  | PostCleanup.System _ => Some (Py.Exn "CmdError" "Command failed: 1")
  | _ => None
  end.

Definition int_of (text : string) : option Z :=
  if bool_decide (text = "600") then Some 600%Z else None.

(** A guest that is up and is to be killed before the test, and a guest
    that is down and whose configuration has changed. *)
Definition kill_before_test : Params :=
  list_to_map [("start_vm", "no"); ("kill_vm_before_test", "yes")].

Definition live_guest : VMBoot.vm_view :=
  VMBoot.VMView true true true true false true false.

Definition stale_guest : VMBoot.vm_view :=
  VMBoot.VMView true true true false true true false.

Definition start_requested : Params := {[ "start_vm" := "yes" ]}.

End Samples.

(** ** Observations on the runs *)

Module Observe.

Global Instance thread_id_eq_dec : EqDecision ImageSched.thread_id.
Proof. solve_decision. Defined.

(** The images a worker has called the image function on, in call
    order. *)
Definition called_by (j : nat) (cs : list ImageSched.call) : list string :=
  ImageSched.image_name <$>
    filter (λ c, ImageSched.on_thread c = ImageSched.WorkerThread j) cs.

(** How far each worker has come with its slice [images[j::n]]: what it
    has called so far and what it still has to do make up the slice; a
    worker past its first call has called something; a worker that ended
    while the event was unset has called its whole slice. *)
Definition worker_progress (n : nat) (images : list string)
    (s : ImageSched.pstate) : Prop :=
  (∀ j, length (ImageSched.threads s) ≤ j →
        called_by j (ImageSched.calls s) = []) ∧
  ∀ j w, ImageSched.threads s !! j = Some w →
    let slice := Py.stride j n images in
    let done := called_by j (ImageSched.calls s) in
    match ImageSched.st w with
    | ImageSched.Running todo => done ++ todo = slice
    | ImageSched.Checking todo => done ++ todo = slice ∧ done ≠ []
    | ImageSched.Caught _ => done `prefix_of` slice ∧ done ≠ []
    | ImageSched.Finished =>
        done `prefix_of` slice ∧
        (ImageSched.exit_event s = false → done = slice) ∧
        (done = [] → slice = [])
    end.

(** [image.backup_image(...)] in either direction. *)
Definition is_backup_or_restore (ev : ImagePost.event) : bool :=
  match ev with
  | ImagePost.Did ImagePost.Backup | ImagePost.Did ImagePost.Restore => true
  | _ => false
  end.

(** A picture written into a frame slot: encoded or hard-linked. *)
Definition writes_slot (ev : Poller.sd_event) : bool :=
  match ev with
  | Poller.Saved _ _ | Poller.Linked _ _ => true
  | _ => false
  end.

(** The two kinds of calls [process] makes. *)
Definition is_vm_func (ev : Process.event) : bool :=
  match ev with Process.VmFunc _ _ => true | _ => false end.

Definition is_image_event (ev : Process.event) : bool := negb (is_vm_func ev).

(** What [_call_image_func] calls in one VM's turn, by the state the
    guest is in, and what [process_images] gives there: a guest that
    runs is paused before and resumed after, and its parameters get
    [skip_cluster_leak_warn = "yes"]; any other guest is left alone. *)
Definition image_turn (object_params : Params → string → Params)
    (process_images : Params → option string → option Py.exn)
    (params : Params) (m : gmap string Process.vm_status) (vm_name : string)
  : list Process.event * option Py.exn :=
  let vm_params := object_params params vm_name in
  match m !! vm_name with
  | Some Process.Running =>
      let p := <["skip_cluster_leak_warn" := "yes"]> vm_params in
      ([Process.VmPause vm_name; Process.ProcessImages p (Some "running");
        Process.VmResume vm_name],
       process_images p (Some "running"))
  | Some Process.Paused =>
      ([Process.ProcessImages vm_params (Some "running")],
       process_images vm_params (Some "running"))
  | _ =>
      ([Process.ProcessImages vm_params (Some "dead")],
       process_images vm_params (Some "dead"))
  end.

(** The turns of the VMs in order, up to and with the first one whose
    image processing raises. *)
Fixpoint image_turns (object_params : Params → string → Params)
    (process_images : Params → option string → option Py.exn)
    (params : Params) (m : gmap string Process.vm_status) (vms : list string)
  : list Process.event * option Py.exn :=
  match vms with
  | [] => ([], None)
  | vm_name :: rest =>
      let turn := image_turn object_params process_images params m vm_name in
      match turn.2 with
      | Some e => turn
      | None =>
          let later := image_turns object_params process_images params m rest in
          (turn.1 ++ later.1, later.2)
      end
  end.

End Observe.

(** * Properties *)

Ltac in_list := repeat first [by left | right].
Ltac not_in_list :=
  let Hin := fresh in
  intros Hin;
  repeat (apply elem_of_cons in Hin as [Hin|Hin]; [discriminate Hin|]);
  by apply elem_of_nil in Hin.

(** ** Slices with a step *)

Section Stride.
Context {A : Type}.
Implicit Types l : list A.

Lemma stride_nil skip k : Py.stride skip k (@nil A) = [].
Proof. reflexivity. Qed.

Lemma stride_lookup l : ∀ skip k t,
  0 < k → Py.stride skip k l !! t = l !! (skip + t * k).
Proof.
  induction l as [|x l IH]; intros skip k t Hk; [done|].
  destruct skip as [|s]; simpl.
  - destruct t as [|t]; simpl; [done|].
    destruct k as [|k']; [lia|].
    rewrite IH by done. simpl. f_equal. lia.
  - by rewrite IH.
Qed.

Lemma stride_sublist l : ∀ skip k, Py.stride skip k l `sublist_of` l.
Proof.
  induction l as [|x l IH]; intros skip k; simpl; [done|].
  destruct skip; [apply sublist_skip | apply sublist_cons]; apply IH.
Qed.

Lemma stride_deal l : ∀ k,
  0 < k → concat ((λ i, Py.stride i k l) <$> seq 0 k) ≡ₚ l.
Proof.
  induction l as [|x l IH]; intros k Hk.
  - simpl. generalize (seq 0 k). intros ns. by induction ns.
  - destruct k as [|k']; [lia|].
    specialize (IH (S k') Hk). rewrite seq_S, fmap_app, concat_app in IH.
    simpl in IH. rewrite app_nil_r in IH.
    change (seq 0 (S k')) with (0 :: seq 1 k').
    rewrite fmap_cons, <- fmap_S_seq, <- list_fmap_compose.
    change (concat (?a :: ?b)) with (a ++ concat b).
    change (Py.stride 0 (S k') (x :: l)) with (x :: Py.stride (S k' - 1) (S k') l).
    replace (S k' - 1) with k' by lia.
    change ((λ i, Py.stride i (S k') (x :: l)) ∘ S)
      with (λ i, Py.stride i (S k') l).
    simpl. constructor. etrans; [|exact IH]. apply Permutation_app_comm.
Qed.

End Stride.

(** ** The image processing scheduler *)

Section SchedulerFacts.
Import ImageSched.

Variable object_params : Params → string → Params.
Variable image_func : Params → string → option Py.exn.
Variable params : Params.
Variable cpu_count : nat.

Local Abbreviation serial := (_process_images_serial object_params image_func params).
Local Abbreviation nthreads := (no_threads cpu_count).
Local Abbreviation parts := (partitions cpu_count).
Local Abbreviation pstep := (step object_params image_func params cpu_count).
Local Abbreviation prun := (run object_params image_func params cpu_count).
Local Abbreviation inv := (ImageSched.inv cpu_count).

Lemma serial_calls images :
  (serial images).1 `prefix_of` (Call MainThread <$> images) ∧
  ((serial images).2 = None → (serial images).1 = Call MainThread <$> images) ∧
  (Forall (λ x, image_func (object_params params x) x = None) images →
   (serial images).2 = None).
Proof.
  induction images as [|x images (IH1 & IH2 & IH3)]; simpl.
  - done.
  - destruct (image_func _ x) as [e|] eqn:Hx; simpl.
    + split_and!; [by apply prefix_cons, prefix_nil | done |].
      intros H. apply Forall_cons_1 in H as [H _]. congruence.
    + destruct (serial images) as [tr r]; simpl in *.
      split_and!; [by apply prefix_cons | intros; f_equal; auto |].
      intros H. apply Forall_cons_1 in H as [_ H]. auto.
Qed.

Lemma run_app images cs1 cs2 s :
  prun images (cs1 ++ cs2) s = prun images cs2 (prun images cs1 s).
Proof. revert s. induction cs1 as [|c cs1 IH]; intros s; simpl; auto. Qed.

(** The [for] loop alone: after [i] rounds the first [i] workers have
    been created and started, each on its slice. *)
Lemma spawn_rounds images i :
  i ≤ nthreads images →
  prun images (replicate i RunMain) (init images) =
  PState ((λ j, Worker (Running (Py.stride j (nthreads images) images)) None)
            <$> seq 0 i)
         false (Spawning i) [].
Proof.
  induction i as [|i IH]; intros Hi; [done|].
  rewrite replicate_S_end, run_app, IH by lia.
  cbn [run step main_step main threads exit_event calls].
  destruct (Nat.ltb_spec i (nthreads images)); [|lia].
  by rewrite seq_S, fmap_app.
Qed.

Lemma no_threads_pos images :
  1 ≤ cpu_count → 20 < length images → 0 < nthreads images.
Proof.
  intros Hc Hn. unfold no_threads.
  assert (4 ≤ length images / 5) by (apply Nat.div_le_lower_bound; lia).
  lia.
Qed.

(** C2. Up to 20 images, [process_images] calls the image function on
    the calling thread, image by image in the declared order (all of
    them unless a call raises, which ends the loop).  Above 20 images
    it starts [min(N/5, 2*cpu_count)] workers; worker [i] gets the
    images at positions [i], [i+k], [i+2k], ...; each position of the
    list lies in exactly one slice, the slices together are a
    rearrangement of the list and each keeps the order of the list. *)
Theorem process_images_schedule :
  1 ≤ cpu_count →
  let images := objects params "images" in
  let k := Nat.min (length images / 5) (2 * cpu_count) in
  (length images ≤ 20 →
     ∃ tr r,
       process_images object_params image_func params = inl (tr, r) ∧
       tr `prefix_of` (Call MainThread <$> images) ∧
       (r = None → tr = Call MainThread <$> images) ∧
       (Forall (λ x, image_func (object_params params x) x = None) images →
        r = None)) ∧
  (20 < length images →
     process_images object_params image_func params = inr (init images) ∧
     prun images (replicate k RunMain) (init images) =
       PState ((λ p, Worker (Running p) None) <$> parts images)
              false (Spawning k) [] ∧
     0 < k ∧
     length (parts images) = k ∧
     (∀ i t, i < k → parts images !! i ≫= (.!! t) = images !! (i + t * k)) ∧
     (∀ j, j < length images →
        j `mod` k < k ∧ j `mod` k + j / k * k = j ∧
        ∀ i t, i < k → i + t * k = j → i = j `mod` k ∧ t = j / k) ∧
     concat (parts images) ≡ₚ images ∧
     Forall (λ p, p `sublist_of` images) (parts images)).
Proof.
  intros Hc images k. split; intros Hlen.
  - exists (serial images).1, (serial images).2.
    split; [|apply serial_calls].
    unfold process_images. fold images.
    destruct (Nat.ltb_spec 20 (length images)); [lia|].
    by destruct (serial images).
  - assert (Hk : 0 < k) by (by apply no_threads_pos).
    split_and!.
    + unfold process_images. fold images.
      by destruct (Nat.ltb_spec 20 (length images)); [|lia].
    + rewrite spawn_rounds by done. unfold partitions.
      by rewrite <- list_fmap_compose.
    + done.
    + unfold partitions. by rewrite length_fmap, length_seq.
    + intros i t Hi. unfold partitions.
      rewrite list_lookup_fmap, lookup_seq_lt by done. simpl.
      by apply stride_lookup.
    + intros j _. split_and!.
      * apply Nat.mod_upper_bound. lia.
      * pose proof (Nat.div_mod_eq j k). lia.
      * intros i t Hi <-. split.
        -- rewrite Nat.Div0.mod_add. by rewrite Nat.mod_small.
        -- rewrite Nat.div_add by lia. rewrite Nat.div_small by done. lia.
    + by apply stride_deal.
    + unfold partitions. apply Forall_fmap, Forall_forall.
      intros i _. apply stride_sublist.
Qed.

(** *** The parallel path *)

Lemma first_exc_info_Some ths e :
  first_exc_info ths = Some e →
  ∃ j w, ths !! j = Some w ∧ exc_info w = Some e ∧
         ∀ i w', i < j → ths !! i = Some w' → exc_info w' = None.
Proof.
  induction ths as [|t ths IH]; simpl; [done|].
  destruct (exc_info t) as [e'|] eqn:Ht.
  - intros [= ->]. exists 0, t. split_and!; [done..|]. intros; lia.
  - intros (j & w & Hj & Hw & Hlt)%IH. exists (S j), w.
    split_and!; [done..|]. intros [|i] w' Hi; simpl.
    + by intros [= <-].
    + apply Hlt. lia.
Qed.

Lemma first_exc_info_None ths :
  first_exc_info ths = None ↔ Forall (λ w, exc_info w = None) ths.
Proof.
  induction ths as [|t ths IH]; simpl; [by split|].
  rewrite Forall_cons. destruct (exc_info t); [|by rewrite IH; intuition].
  split; [done|]. by intros [? _].
Qed.

Lemma all_dead ths :
  existsb is_alive ths = false ↔ Forall (λ w, st w = Finished) ths.
Proof.
  induction ths as [|t ths IH]; simpl; [by split|].
  rewrite Forall_cons, orb_false_iff, IH. unfold is_alive.
  destruct (st t); intuition congruence.
Qed.

Lemma sum_list_insert {B} (f : B → nat) (l : list B) j x y :
  l !! j = Some x →
  sum_list_with f (<[j := y]> l) + f x = sum_list_with f l + f y.
Proof.
  revert j. induction l as [|a l IH]; intros [|j] Hj; simplify_eq/=; [lia|].
  specialize (IH _ Hj). lia.
Qed.

Lemma inv_init images : inv images (init images).
Proof. split; simpl; [done|done|lia]. Qed.

Lemma inv_main_step images s s' :
  inv images s → main_step cpu_count images s = Some s' → inv images s'.
Proof.
  intros [Hw He Hm]. unfold main_step.
  destruct (main s) as [i| | |] eqn:Hmain; [| |done..].
  - destruct Hm as [Hlen Hi]. case_match; intros [= <-].
    + apply Nat.ltb_lt in H. split; simpl.
      * intros j w [Hj|[_ Hj]]%lookup_app_Some; [exact (Hw j w Hj)|].
        apply list_lookup_singleton_Some in Hj as [_ <-]. done.
      * intros (j & w & Hj & ?)%He. exists j, w. split; [|done].
        by apply lookup_app_l_Some.
      * rewrite length_app. simpl. lia.
    + apply Nat.ltb_ge in H. split; simpl; [done..|lia].
  - destruct (existsb is_alive (threads s)) eqn:Hal.
    { intros [= <-]. split; [done..|]. by rewrite Hmain. }
    apply all_dead in Hal.
    destruct (exit_event s) eqn:Hev.
    + destruct (first_exc_info (threads s)) eqn:Hf; intros [= <-];
        split; simpl; rewrite ?Hev; auto.
    + intros [= <-]. split; simpl; rewrite ?Hev; auto.
      split_and!; [done..|]. apply first_exc_info_None, Forall_lookup.
      intros j w Hj. specialize (Hw j w Hj).
      rewrite (proj1 (Forall_lookup _ _) Hal j w Hj) in Hw.
      destruct (exc_info w); [|done].
      assert (false = true) by (apply Hw; eauto). done.
Qed.

Lemma inv_update images s j w w' ev' cs' :
  inv images s → threads s !! j = Some w → st w ≠ Finished →
  (exit_event s = true → ev' = true) →
  match st w' with
  | Running _ | Checking _ => exc_info w' = None
  | Caught e => exc_info w' = Some e
  | Finished => is_Some (exc_info w') → ev' = true
  end →
  (ev' = true →
   exit_event s = true ∨ (st w' = Finished ∧ is_Some (exc_info w'))) →
  inv images (PState (<[j := w']> (threads s)) ev' (main s) cs').
Proof.
  intros [Hw He Hm] Hj Hst Hmono Hw' Hev'.
  assert (Hlt : j < length (threads s)) by by eapply lookup_lt_Some.
  split; simpl.
  - intros j' w'' [(-> & <- & _)|[Hne Hj']]%list_lookup_insert_Some; [done|].
    specialize (Hw j' w'' Hj'). destruct (st w''); auto.
  - intros [Hold|[Hfin Hsome]]%Hev'.
    + destruct (He Hold) as (j0 & w0 & Hj0 & Hf0 & Hs0).
      exists j0, w0. split; [|done].
      rewrite list_lookup_insert_ne; [done|]. intros ->. congruence.
    + exists j, w'. split; [|done]. by apply list_lookup_insert_eq.
  - assert (¬ Forall (λ w, st w = Finished) (threads s)).
    { intros Hall. apply Hst. by apply (proj1 (Forall_lookup _ _) Hall j w). }
    rewrite length_insert.
    destruct (main s); [done|done|..]; destruct Hm as (_ & ? & _); done.
Qed.

Lemma inv_worker_step images j s s' :
  inv images s →
  worker_step object_params image_func params j s = Some s' → inv images s'.
Proof.
  intros Hinv. unfold worker_step.
  destruct (threads s !! j) as [w|] eqn:Hj; [|done].
  pose proof (inv_worker _ _ _ Hinv j w Hj) as Hw.
  destruct (st w) as [[|x rest]|rest|e|] eqn:Hst; [..|done].
  - intros [= <-]. eapply inv_update; eauto; simpl; [congruence|].
    rewrite Hw. by intros [? [=]].
  - destruct (image_func _ x) as [e|]; intros [= <-];
      (eapply inv_update; eauto; simpl; congruence).
  - intros [= <-]. eapply inv_update; eauto; simpl; [congruence|].
    by destruct (exit_event s).
  - intros [= <-]. eapply inv_update; eauto; simpl; [congruence|done].
Qed.

Lemma inv_reachable images cs : inv images (prun images cs (init images)).
Proof.
  induction cs as [|c cs IH] using rev_ind; [apply inv_init|].
  rewrite run_app. simpl.
  destruct (pstep images c _) as [s'|] eqn:Hs; simpl; [|done].
  destruct c; simpl in Hs; eauto using inv_main_step, inv_worker_step.
Qed.

Lemma size_worker_step images j s s' :
  worker_step object_params image_func params j s = Some s' →
  size cpu_count images s' < size cpu_count images s.
Proof.
  unfold worker_step, size.
  destruct (threads s !! j) as [w|] eqn:Hj; [|done].
  destruct (st w) as [[|x rest]|rest|e|] eqn:Hst; [..|done];
    repeat case_match; intros [= <-]; simpl;
    match goal with
    | |- context [<[j := ?w']> (threads s)] =>
        pose proof (sum_list_insert (wstate_size ∘ st) _ j w w' Hj) as Hsum
    end; simpl in Hsum; rewrite Hst in Hsum; simpl in Hsum; lia.
Qed.

Lemma size_main_step images s s' :
  main_step cpu_count images s = Some s' →
  s' = s ∨ size cpu_count images s' < size cpu_count images s.
Proof.
  unfold main_step, size.
  destruct (main s) as [i| | |] eqn:Hmain; [| |done..].
  - case_match; intros [= <-]; right; cbn [main_size main threads].
    + apply Nat.ltb_lt in H.
      rewrite sum_list_with_app. cbn [sum_list_with compose st wstate_size].
      pose proof (sublist_length _ _
        (stride_sublist images i (nthreads images))) as Hlen.
      replace (S (nthreads images) - i)
        with (S (S (nthreads images) - S i)) by lia.
      rewrite Nat.mul_succ_l.
      generalize ((S (nthreads images) - S i) * (2 * length images + 4)).
      lia.
    + generalize ((S (nthreads images) - i) * (2 * length images + 4)).
      lia.
  - repeat case_match; intros [= <-]; auto; right; simpl; lia.
Qed.

Lemma progress images s :
  inv images s →
  (∀ e, main s ≠ Raise e) → main s ≠ Returned →
  ∃ c s', pstep images c s = Some s' ∧
          size cpu_count images s' < size cpu_count images s.
Proof.
  intros Hinv Hr Hret.
  destruct (main s) as [i| |e|] eqn:Hmain; [| |by destruct (Hr e)|done].
  - destruct (main_step cpu_count images s) as [s'|] eqn:Hs.
    + exists RunMain, s'. split; [done|].
      destruct (size_main_step _ _ _ Hs) as [->|]; [|done].
      revert Hs. unfold main_step. rewrite Hmain.
      case_match; intros [= Hs]; apply (f_equal main) in Hs; simpl in Hs;
        rewrite Hmain in Hs; simplify_eq; lia.
    + revert Hs. unfold main_step. rewrite Hmain. by case_match.
  - destruct (existsb is_alive (threads s)) eqn:Hal.
    + apply existsb_exists in Hal as (w & Hin & Hw).
      apply list_elem_of_In, list_elem_of_lookup in Hin as [j Hj].
      assert (is_Some (worker_step object_params image_func params j s))
        as [s' Hs'].
      { unfold worker_step. rewrite Hj. unfold is_alive in Hw.
        destruct (st w) as [[|]| | |]; try done; by case_match. }
      exists (RunWorker j), s'. split; [done|]. by eapply size_worker_step.
    + assert (is_Some (main_step cpu_count images s)) as [s' Hs].
      { unfold main_step. rewrite Hmain, Hal. by repeat case_match. }
      exists RunMain, s'. split; [done|].
      revert Hs. unfold main_step, size. rewrite Hmain, Hal.
      repeat case_match; intros [= <-]; simpl; lia.
Qed.

Lemma final_stuck images s c :
  inv images s → (main s = Returned ∨ ∃ e, main s = Raise e) →
  pstep images c s = None.
Proof.
  intros [Hw _ Hm] Hfin. destruct c as [|j]; simpl.
  - unfold main_step. by destruct Hfin as [->|[e ->]].
  - unfold worker_step. destruct (threads s !! j) as [w|] eqn:Hj; [|done].
    assert (Forall (λ w, st w = Finished) (threads s)) as Hall.
    { destruct Hfin as [Hf|[e Hf]]; rewrite Hf in Hm; tauto. }
    by rewrite (proj1 (Forall_lookup _ _) Hall j w Hj).
Qed.

(** C1. In every state of [_process_images_parallel], under every
    interleaving of the workers with the calling thread: a worker whose
    image function raises stores the exception in [exc_info], goes on
    to set [exit_event] and ends normally; the calling thread raises
    only when no worker is alive any more, and what it raises is the
    [exc_info] of the first worker, in start order, that has one; it
    returns normally only if no worker has one; once it has raised or
    returned nothing moves any more.  Every step other than the sleep
    of the polling loop brings the machine closer to its end, and such
    a step exists until the calling thread has raised or returned. *)
Theorem parallel_first_failure images cs :
  let s := prun images cs (init images) in
  (∀ j w x rest e,
     threads s !! j = Some w → st w = Running (x :: rest) →
     image_func (object_params params x) x = Some e →
     ∃ s', pstep images (RunWorker j) s = Some s' ∧
           threads s' !! j = Some (Worker (Caught e) (Some e)) ∧
           main s' = main s ∧ exit_event s' = exit_event s) ∧
  (∀ j w e,
     threads s !! j = Some w → st w = Caught e →
     exc_info w = Some e ∧
     ∃ s', pstep images (RunWorker j) s = Some s' ∧
           threads s' !! j = Some (Worker Finished (Some e)) ∧
           exit_event s' = true) ∧
  (∀ j w, threads s !! j = Some w → is_Some (exc_info w) →
          is_alive w = false → exit_event s = true) ∧
  (∀ e, main s = Raise e →
     length (threads s) = nthreads images ∧
     Forall (λ w, is_alive w = false) (threads s) ∧
     ∃ j w, threads s !! j = Some w ∧ exc_info w = Some e ∧
            ∀ i w', i < j → threads s !! i = Some w' → exc_info w' = None) ∧
  (main s = Returned →
     length (threads s) = nthreads images ∧
     Forall (λ w, is_alive w = false ∧ exc_info w = None) (threads s)) ∧
  ((main s = Returned ∨ ∃ e, main s = Raise e) →
     ∀ c, pstep images c s = None) ∧
  ((∀ e, main s ≠ Raise e) → main s ≠ Returned →
     ∃ c s', pstep images c s = Some s' ∧
             size cpu_count images s' < size cpu_count images s) ∧
  (∀ c s', pstep images c s = Some s' →
           s' = s ∨ size cpu_count images s' < size cpu_count images s).
Proof.
  intros s. pose proof (inv_reachable images cs) as Hinv. fold s in Hinv.
  split_and!.
  - intros j w x rest e Hj Hst He. eexists. simpl. unfold worker_step.
    rewrite Hj, Hst, He. split; [done|]. simpl. split; [|done].
    apply list_lookup_insert_eq. by eapply lookup_lt_Some.
  - intros j w e Hj Hst. pose proof (inv_worker _ _ _ Hinv j w Hj) as Hw.
    rewrite Hst in Hw. split; [done|]. eexists. simpl. unfold worker_step.
    rewrite Hj, Hst. split; [done|]. simpl. split; [|done]. rewrite Hw.
    apply list_lookup_insert_eq. by eapply lookup_lt_Some.
  - intros j w Hj Hsome Hdead. pose proof (inv_worker _ _ _ Hinv j w Hj) as Hw.
    unfold is_alive in Hdead. destruct (st w); try done. auto.
  - intros e He. pose proof (inv_main _ _ _ Hinv) as Hm. rewrite He in Hm.
    destruct Hm as (Hlen & Hall & Hfirst). split_and!; [done| |].
    + eapply Forall_impl; [exact Hall|]. intros w Hw. unfold is_alive.
      by rewrite Hw.
    + by apply first_exc_info_Some.
  - intros Hret. pose proof (inv_main _ _ _ Hinv) as Hm. rewrite Hret in Hm.
    destruct Hm as (Hlen & Hall & Hfirst). split; [done|].
    apply first_exc_info_None in Hfirst.
    apply Forall_and. split; [|done].
    eapply Forall_impl; [exact Hall|]. intros w Hw. unfold is_alive.
    by rewrite Hw.
  - intros Hfin c. by apply final_stuck.
  - by apply progress.
  - intros [|j] s' Hs; simpl in Hs.
    + by apply size_main_step.
    + right. by eapply size_worker_step.
Qed.

End SchedulerFacts.

Lemma process_images_schedule_witness :
  let images := objects ImageSched.many_images "images" in
  1 ≤ 2 ∧ 20 < length images ∧
  length (ImageSched.partitions 2 images) = 4 ∧
  concat (ImageSched.partitions 2 images) ≡ₚ images.
Proof.
  intros images.
  assert (H1 : 1 ≤ 2) by lia.
  assert (H20 : 20 < length images) by (vm_compute; lia).
  destruct (process_images_schedule (λ p _, p) ImageSched.b_and_c_fail
              ImageSched.many_images 2 H1) as [_ Hpar].
  destruct (Hpar H20) as (_ & _ & _ & Hlen & _ & _ & Hperm & _).
  split; [exact H1|]. split; [exact H20|]. split; [exact Hlen|exact Hperm].
Defined.

(** A run of the parallel path: worker 2 is the first to fail in time,
    worker 1 the first in start order; the caller raises what worker 1
    caught, after all four workers are done. *)
Example first_by_start_order :
  let s := ImageSched.run (λ p _, p) ImageSched.b_and_c_fail
             ImageSched.many_images 2
             (objects ImageSched.many_images "images")
             ImageSched.c_fails_first
             (ImageSched.init (objects ImageSched.many_images "images")) in
  ImageSched.main s = ImageSched.Raise (Py.Exn "CmdError" "b failed") ∧
  ImageSched.st <$> ImageSched.threads s = replicate 4 ImageSched.Finished ∧
  ImageSched.exc_info <$> ImageSched.threads s =
    [None; Some (Py.Exn "CmdError" "b failed");
     Some (Py.Exn "CmdError" "c failed"); None] ∧
  ImageSched.image_name <$> ImageSched.calls s = ["c"; "b"; "a"; "d"].
Proof. by vm_compute. Qed.

(** ** What a computation records *)

Section EmitsOnly.
Import Eff.
Context {Ev : Type} (P : Ev → Prop).

Lemma emits_only_ret {A} (a : A) : emits_only P (mret a : M (list Ev) A).
Proof. by intros tr. Qed.

Lemma emits_only_raise {A} e : emits_only P (raise e : M (list Ev) A).
Proof. by intros tr. Qed.

Lemma emits_only_emit ev : P ev → emits_only P (emit ev).
Proof. intros Hev tr Htr. simpl. apply Forall_app. by repeat constructor. Qed.

Lemma emits_only_bind {A B} (m : M (list Ev) A) (k : A → M (list Ev) B) :
  emits_only P m → (∀ a, emits_only P (k a)) → emits_only P (m ≫= k).
Proof.
  intros Hm Hk tr Htr. specialize (Hm tr Htr).
  unfold mbind, M_bind, bind. destruct (m tr) as [tr' [a|e]]; [|done].
  by apply Hk.
Qed.

Lemma emits_only_try_except {A} (m : M (list Ev) A) h :
  emits_only P m → (∀ e, emits_only P (h e)) → emits_only P (try_except m h).
Proof.
  intros Hm Hh tr Htr. specialize (Hm tr Htr).
  unfold try_except. destruct (m tr) as [tr' [a|e]]; [done|].
  by apply Hh.
Qed.

Lemma emits_only_try_finally {A} (m : M (list Ev) A) c :
  emits_only P m → emits_only P c → emits_only P (try_finally m c).
Proof.
  intros Hm Hc tr Htr. specialize (Hm tr Htr).
  unfold try_finally. destruct (m tr) as [tr' [a|e]];
    specialize (Hc tr' Hm); by destruct (c tr') as [tr'' [|]].
Qed.

Lemma emits_only_when c (m : M (list Ev) unit) :
  (c = true → emits_only P m) → emits_only P (when c m).
Proof. destruct c; simpl; [auto|]. intros _. apply emits_only_ret. Qed.

Lemma emits_only_for_each {A} (l : list A) (body : A → M (list Ev) unit) :
  (∀ x, x ∈ l → emits_only P (body x)) → emits_only P (for_each l body).
Proof.
  induction l as [|x l IH]; intros Hb; simpl; [apply emits_only_ret|].
  apply emits_only_bind; [apply Hb; left|].
  intros _. apply IH. intros y Hy. apply Hb. by right.
Qed.

End EmitsOnly.

Ltac emits_step :=
  first
    [ apply emits_only_ret
    | apply emits_only_raise
    | apply emits_only_bind; [|intros ?]
    | apply emits_only_try_except; [|intros ?]
    | apply emits_only_when; intros ? ].

(** ** [postprocess_image] and the clone set *)

Section PostprocessImageFacts.
Import Eff ImagePost.

Variable image : backend.
Variable params : Params.
Variable image_name : string.
Variable vm_process_status : option string.

Hypothesis clone_master_yes : get params "clone_master" = Some "yes".
Hypothesis not_in_clone_set :
  ∀ v, get params "master_images_clone" = Some v → image_name ∉ Py.split v.

Lemma call_other o :
  o ≠ CheckImage → o ≠ Remove → emits_only no_check_no_remove (call image o).
Proof.
  intros ??. unfold call. emits_step.
  - apply emits_only_emit. split; congruence.
  - destruct (fails image o); emits_step.
Qed.

Lemma log_other level msg : emits_only no_check_no_remove (log level msg).
Proof. by apply emits_only_emit. Qed.

Lemma clone_gate_closed (act : M (list event) unit) :
  emits_only no_check_no_remove
    (b ← in_master_images_clone params image_name; when b act).
Proof.
  unfold in_master_images_clone.
  destruct (get params "master_images_clone") as [v|] eqn:Hv; [|by intros tr].
  assert (Py.mem image_name (Py.split v) = false) as Hmem
    by (apply bool_decide_eq_false; eauto).
  intros tr Htr. unfold mbind, M_bind, bind. simpl. by rewrite Hmem.
Qed.

Lemma on_error_gate_closed :
  Py.mem image_name (Py.split (get_d params "master_images_clone" "")) = false.
Proof.
  apply bool_decide_eq_false. unfold get_d.
  destruct (params !! "master_images_clone") as [v|] eqn:Hv; simpl; [eauto|].
  by intros ?%elem_of_nil.
Qed.

Lemma check_image_flag_other :
  emits_only no_check_no_remove
    (check_image_flag image params vm_process_status).
Proof.
  unfold check_image_flag.
  repeat first
    [ apply log_other | by apply call_other | emits_step | case_match ].
Qed.

Lemma postprocess_image_other :
  emits_only no_check_no_remove
    (postprocess_image image params image_name vm_process_status).
Proof.
  unfold postprocess_image. rewrite clone_master_yes.
  rewrite on_error_gate_closed.
  apply emits_only_bind; [apply check_image_flag_other|]. intros flag.
  repeat first
    [ apply clone_gate_closed | apply log_other | by apply call_other
    | emits_step | case_match ].
Qed.

(** The first part of the function calls neither backup nor restore, and
    returns when [image.info()] does. *)
Lemma check_image_flag_spec :
  fails image Info = None →
  ∃ pre flag,
    (∀ tr, check_image_flag image params vm_process_status tr
           = (tr ++ pre, Ok flag)) ∧
    (Did Backup ∉ pre) ∧ (Did Restore ∉ pre).
Proof.
  intros Hinfo. unfold check_image_flag, call, log, emit, mbind, M_bind, bind.
  rewrite Hinfo.
  destruct (bool_decide (vm_process_status = Some "running")
            && bool_decide (get params "check_image" = Some "yes")).
  2:{ exists [], (bool_decide (get params "check_image" = Some "yes")).
      split; [intros tr; by rewrite app_nil_r|]. split; not_in_list. }
  destruct (bool_decide
              (get params "skip_image_check_during_running" = Some "yes")).
  { eexists [_], _. split; [done|]. split; not_in_list. }
  destruct (info_output image) as [out|]; cbn.
  - destruct (bool_decide (parse_image_info out !! "lazy refcounts" = Some "true")).
    + eexists [_; _], _.
      split; [intros tr; by rewrite <- (assoc_L (++))|]. split; not_in_list.
    + eexists [_], _. split; [done|]. split; not_in_list.
  - rewrite lookup_empty.
    rewrite (bool_decide_eq_false_2 (None = Some "true")) by done.
    eexists [_; _], _.
    split; [intros tr; by rewrite <- (assoc_L (++))|]. split; not_in_list.
Qed.

(** C3, as the code has it. With [clone_master = "yes"] and the image
    outside the white-space split [master_images_clone] (or that key
    absent), [postprocess_image] neither checks nor removes the image,
    whatever the flags, the VM status and the backend do.  Backup and
    restore are not gated by the clone set, they follow their own
    flags: when no call raises and [master_images_clone] is set, the
    image is backed up exactly when it is to be checked ([flag], what
    the first part of the function gives) and [backup_image = "yes"];
    it is restored exactly when it is to be checked, not backed up and
    [restore_image = "yes"], or, nothing having been backed up or
    restored in the check block, when
    [restore_image_after_testing = "yes"]. *)
Theorem postprocess_image_clone_gate :
  (Did CheckImage ∉ events image params image_name vm_process_status) ∧
  (Did Remove ∉ events image params image_name vm_process_status) ∧
  ((∀ o, fails image o = None) →
   is_Some (get params "master_images_clone") →
   ∀ flag,
     (check_image_flag image params vm_process_status []).2 = Ok flag →
     let backup := bool_decide (get_d params "backup_image" "no" = "yes") in
     let restore := bool_decide (get_d params "restore_image" "no" = "yes") in
     let after :=
       bool_decide (get_d params "restore_image_after_testing" "no" = "yes") in
     (Did Backup ∈ events image params image_name vm_process_status
      ↔ flag && backup = true) ∧
     (Did Restore ∈ events image params image_name vm_process_status
      ↔ (if flag && (backup || restore) then negb backup else after) = true)).
Proof.
  assert (Forall no_check_no_remove
            (events image params image_name vm_process_status)) as Hall
    by apply (postprocess_image_other [] (Forall_nil_2 _)).
  rewrite Forall_forall in Hall.
  split; [|split];
    [intros Hin; apply Hall in Hin; destruct Hin; congruence..|].
  intros Hok [v Hv] flag Hflag backup restore after.
  destruct (check_image_flag_spec (Hok Info)) as (pre & flag' & Hrun & Hb & Hr).
  rewrite Hrun in Hflag. injection Hflag as <-.
  assert (Py.mem image_name (Py.split v) = false) as Hmem
    by (apply bool_decide_eq_false; eauto).
  assert (events image params image_name vm_process_status =
          pre ++ (if flag' && backup then [Did Backup] else [])
              ++ (if (if flag' && (backup || restore) then negb backup
                      else after)
                  then [Did Restore] else [])
              ++ (if bool_decide (get params "remove_image" = Some "yes")
                  then [Logged "info" "Remove image"] else [])) as ->.
  { unfold events, postprocess_image.
    unfold mbind at 1, M_bind at 1, bind at 1. rewrite Hrun.
    rewrite clone_master_yes.
    unfold in_master_images_clone, call, log, emit, try_except, when, raise,
      mbind, M_bind, bind, mret, M_ret, ret.
    rewrite Hv, !Hok, Hmem, !(bool_decide_eq_true_2 ("yes" = "yes")) by done.
    subst backup restore after.
    destruct flag',
      (bool_decide (get_d params "backup_image" "no" = "yes")),
      (bool_decide (get_d params "restore_image" "no" = "yes")),
      (bool_decide (get_d params "restore_image_after_testing" "no" = "yes")),
      (bool_decide (get params "remove_image" = Some "yes"));
      cbn; rewrite <- ?(assoc_L (++)), ?app_nil_r; reflexivity. }
  rewrite !elem_of_app.
  destruct (flag' && backup), (if flag' && (backup || restore) then negb backup
                               else after),
    (bool_decide (get params "remove_image" = Some "yes"));
    (split;
     (split;
      [ intros [Hin|[Hin|[Hin|Hin]]];
        first [done | exfalso; revert Hin; not_in_list]
      | intros Hyes;
        first [discriminate Hyes
              | by (right; left; left) | by (right; right; left; left)] ])).
Qed.

End PostprocessImageFacts.

Lemma postprocess_image_clone_gate_witness :
  get ImagePost.all_flags_params "clone_master" = Some "yes" ∧
  (∀ v, get ImagePost.all_flags_params "master_images_clone" = Some v →
        "image1" ∉ Py.split v) ∧
  (ImagePost.Did ImagePost.CheckImage ∉
    ImagePost.events ImagePost.quiet_backend ImagePost.all_flags_params
      "image1" (Some "dead")) ∧
  (ImagePost.Did ImagePost.Remove ∉
    ImagePost.events ImagePost.quiet_backend ImagePost.all_flags_params
      "image1" (Some "dead")) ∧
  (ImagePost.Did ImagePost.Backup ∈
    ImagePost.events ImagePost.quiet_backend ImagePost.all_flags_params
      "image1" (Some "dead")) ∧
  (ImagePost.Did ImagePost.Restore ∉
    ImagePost.events ImagePost.quiet_backend ImagePost.all_flags_params
      "image1" (Some "dead")) ∧
  (ImagePost.Did ImagePost.Restore ∈
    ImagePost.events ImagePost.quiet_backend
      (delete "backup_image" ImagePost.all_flags_params)
      "image1" (Some "dead")).
Proof.
  assert (H1 : get ImagePost.all_flags_params "clone_master" = Some "yes")
    by reflexivity.
  assert (H2 : ∀ v, get ImagePost.all_flags_params "master_images_clone" = Some v →
                    "image1" ∉ Py.split v).
  { intros v [= <-]. vm_compute. intros Hin.
    repeat (apply elem_of_cons in Hin as [Hin|Hin]; [discriminate Hin|]).
    by apply elem_of_nil in Hin. }
  assert (H3 : get (delete "backup_image" ImagePost.all_flags_params)
                 "clone_master" = Some "yes") by reflexivity.
  assert (H4 : ∀ v, get (delete "backup_image" ImagePost.all_flags_params)
                      "master_images_clone" = Some v →
                    "image1" ∉ Py.split v).
  { intros v [= <-]. vm_compute. intros Hin.
    repeat (apply elem_of_cons in Hin as [Hin|Hin]; [discriminate Hin|]).
    by apply elem_of_nil in Hin. }
  destruct (postprocess_image_clone_gate ImagePost.quiet_backend
              ImagePost.all_flags_params "image1" (Some "dead") H1 H2)
    as (Hcheck & Hremove & Hflags).
  destruct (Hflags (λ _, eq_refl) (mk_is_Some _ _ eq_refl) true eq_refl)
    as [Hbackup Hrestore].
  destruct (postprocess_image_clone_gate ImagePost.quiet_backend
              (delete "backup_image" ImagePost.all_flags_params)
              "image1" (Some "dead") H3 H4)
    as (_ & _ & Hflags').
  destruct (Hflags' (λ _, eq_refl) (mk_is_Some _ _ eq_refl) true eq_refl)
    as [_ Hrestore'].
  split; [exact H1|]. split; [exact H2|]. split; [exact Hcheck|].
  split; [exact Hremove|]. split; [by apply Hbackup|].
  split; [|by apply Hrestore'].
  intros Hin. by apply Hrestore in Hin.
Defined.

(** C3 as stated fails: with every flag set, an image outside the clone
    set is still backed up (and, without the backup, restored). *)
Lemma postprocess_image_backup_not_gated :
  get ImagePost.all_flags_params "clone_master" = Some "yes" ∧
  ("image1" ∉ Py.split (get_d ImagePost.all_flags_params "master_images_clone" "")) ∧
  ¬ Forall (λ ev, ev ∉ [ImagePost.Did ImagePost.CheckImage;
                        ImagePost.Did ImagePost.Backup;
                        ImagePost.Did ImagePost.Restore;
                        ImagePost.Did ImagePost.Remove])
      (ImagePost.events ImagePost.quiet_backend ImagePost.all_flags_params
         "image1" (Some "dead")).
Proof.
  split; [reflexivity|]. split.
  - vm_compute. intros Hin.
    repeat (apply elem_of_cons in Hin as [Hin|Hin]; [discriminate Hin|]).
    by apply elem_of_nil in Hin.
  - assert (ImagePost.events ImagePost.quiet_backend ImagePost.all_flags_params
              "image1" (Some "dead")
            = [ImagePost.Did ImagePost.Backup;
               ImagePost.Logged "info" "Remove image"]) as -> by (by vm_compute).
    intros Hall. apply Forall_cons_1 in Hall as [Hb _]. apply Hb.
    apply elem_of_cons. right. by left.
Qed.

(** ** The kernel command line check of [preprocess_vm] *)

Section KernelCmdLineCheck.
Import Eff VMPre.

Variable first_match : string → string → option string.
Variable params : Params.
Variable vm : vm_view.

(** X14. Whatever the guest shows, the check returns normally: the
    [TestError] raised for a missing or forbidden option is raised
    inside the [try] block and caught by its [except Exception]. *)
Lemma check_kernel_cmd_line_returns tr :
  (check_kernel_cmd_line first_match params vm tr).2 = Ok ().
Proof.
  unfold check_kernel_cmd_line, try_except, log, emit, mbind, M_bind, bind.
  repeat (case_match; simplify_eq/=; try done).
Qed.

(** When the serial output cannot be read (VM paused, VM dead, no
    console, or the read raises), one warning is logged and nothing is
    raised. *)
Lemma unreadable_serial_is_skipped :
  get params "check_kernel_cmd_line_from_serial" = Some "yes" →
  (is_paused vm = true ∨ is_alive vm = false ∨ serial_console vm = None ∨
   ∃ e, serial_console vm = Some (inl e)) →
  ∃ msg, check_kernel_cmd_line first_match params vm [] =
         ([Logged "warn" msg], Ok ()).
Proof.
  intros Hyes Hcase.
  unfold check_kernel_cmd_line, try_except, log, emit, mbind, M_bind, bind.
  rewrite bool_decide_eq_true_2 by done.
  destruct (is_paused vm); [by eexists|].
  destruct (is_alive vm); [|by eexists].
  destruct (serial_console vm) as [[e|out]|] eqn:Hc; simpl; [by eexists| |by eexists].
  destruct Hcase as [?|[?|[?|[e ?]]]]; done.
Qed.

End KernelCmdLineCheck.

(** C4, on the code. The guest booted without the required [pci=nomsi];
    the command line was read from the serial console; the check builds
    its [TestError], which its own [except Exception] clause catches:
    one warning is logged and [preprocess_vm] returns normally. *)
Theorem check_failure_is_swallowed :
  VMPre.check_kernel_cmd_line VMPre.literal_first_match
    VMPre.expect_nomsi VMPre.booted_without_option [] =
  ([VMPre.Logged "warn"
      ("Did not get the kernel command line from serial port output. Skip the kernel command line check.Error is "
       +:+ "pci=nomsi not in kernel command line as expect."
       +:+ " Kernel command line get from serial output is "
       +:+ "Command line: BOOT_IMAGE=/vmlinuz-3.10 ro quiet")],
   Eff.Ok ()).
Proof. reflexivity. Qed.

(** ** The termination protocol of the pollers *)

Section PollLoop.
Import Poller.
Context {D I : Type}.
Variable body : I → D → D.
Variable idle : I.
Variable on_exit : D → D.
Variable delay : nat.

Local Abbreviation step := (poll_step body idle on_exit delay).
Local Abbreviation runs := (run body idle on_exit delay).

Lemma run_snoc acts a (s : state D I) :
  runs (acts ++ [a]) s = act body idle on_exit delay a (runs acts s).
Proof. unfold run. by rewrite foldl_app. Qed.

(** Out of the loop, the global is [None]. *)
Lemma exited_event_none d ins acts :
  let s := runs acts (start d ins) in
  at_pc s = Exited → termination_event s = None.
Proof.
  induction acts as [|a acts IH] using rev_ind; [done|].
  rewrite run_snoc. simpl in *.
  destruct a; simpl; [|by intros H; rewrite (IH H)].
  unfold poll_step.
  destruct (at_pc (runs acts _)) as [| |r|] eqn:Hpc; simpl; [done| | |by auto].
  - by destruct (termination_event (runs acts _)) as [[]|].
  - by destruct (termination_event (runs acts _)) as [[]|], r.
Qed.

(** With the event set, the poller is out after at most three of its
    own steps: a sleep ends at once, whatever is left of the delay;
    a pass runs to its end; the test after the pass leaves the loop. *)
Lemma set_event_exits (s : state D I) :
  termination_event s = Some true →
  match at_pc s with
  | Deciding => at_pc (step s) = Exited ∧ termination_event (step s) = None
  | Iterating =>
      at_pc (step s) = Deciding ∧
      at_pc (step (step s)) = Exited ∧
      termination_event (step (step s)) = None
  | Waiting _ =>
      at_pc (step s) = Iterating ∧
      at_pc (step (step (step s))) = Exited ∧
      termination_event (step (step (step s))) = None
  | Exited => True
  end.
Proof.
  destruct s as [pc ev d ins]; simpl. intros ->.
  destruct pc; unfold poll_step; simpl; done.
Qed.

Lemma driver_set_sets (s : state D I) :
  is_Some (termination_event s) →
  termination_event (driver_set s) = Some true ∧
  at_pc (driver_set s) = at_pc s.
Proof. intros [b Hb]. unfold driver_set. simpl. by rewrite Hb. Qed.

Lemma poll_step_keeps_set (s : state D I) :
  termination_event s = Some true → at_pc s ≠ Deciding →
  termination_event (step s) = Some true.
Proof.
  destruct s as [pc ev d ins]; simpl. intros -> Hpc.
  destruct pc; unfold poll_step; simpl; done.
Qed.

End PollLoop.

(** C5. For the screendump poller and for the register poller, in every
    state that poller steps and driver [set()] calls can lead to from
    the start of the thread: [set()] on a live event leaves it set; with
    the event set, the poller leaves its loop at the test that follows
    the pass in progress, a sleep being cut short whatever remains of the
    delay; and whenever the poller is out of its loop the global event
    reference is [None]. *)
Theorem pollers_honour_termination cfg vm_register_delay :
  (∀ d ins acts,
     let step := Poller._take_screendumps_step cfg in
     let s := Poller._take_screendumps_run cfg acts (Poller.start d ins) in
     (Poller.at_pc s = Poller.Exited → Poller.termination_event s = None) ∧
     (is_Some (Poller.termination_event s) →
      Poller.termination_event (Poller.driver_set s) = Some true) ∧
     (Poller.termination_event s = Some true →
      match Poller.at_pc s with
      | Poller.Deciding =>
          Poller.at_pc (step s) = Poller.Exited ∧
          Poller.termination_event (step s) = None
      | Poller.Iterating =>
          Poller.at_pc (step s) = Poller.Deciding ∧
          Poller.at_pc (step (step s)) = Poller.Exited ∧
          Poller.termination_event (step (step s)) = None
      | Poller.Waiting _ =>
          Poller.at_pc (step s) = Poller.Iterating ∧
          Poller.at_pc (step (step (step s))) = Poller.Exited ∧
          Poller.termination_event (step (step (step s))) = None
      | Poller.Exited => False
      end)) ∧
  (∀ d ins acts,
     let step := Poller._store_vm_register_step vm_register_delay in
     let s := Poller._store_vm_register_run vm_register_delay acts
                (Poller.start d ins) in
     (Poller.at_pc s = Poller.Exited → Poller.termination_event s = None) ∧
     (is_Some (Poller.termination_event s) →
      Poller.termination_event (Poller.driver_set s) = Some true) ∧
     (Poller.termination_event s = Some true →
      match Poller.at_pc s with
      | Poller.Deciding =>
          Poller.at_pc (step s) = Poller.Exited ∧
          Poller.termination_event (step s) = None
      | Poller.Iterating =>
          Poller.at_pc (step s) = Poller.Deciding ∧
          Poller.at_pc (step (step s)) = Poller.Exited ∧
          Poller.termination_event (step (step s)) = None
      | Poller.Waiting _ =>
          Poller.at_pc (step s) = Poller.Iterating ∧
          Poller.at_pc (step (step (step s))) = Poller.Exited ∧
          Poller.termination_event (step (step (step s))) = None
      | Poller.Exited => False
      end)).
Proof.
  split; intros d ins acts step s.
  - pose proof (exited_event_none (Poller.screendump_pass cfg) [] id
                  (Poller.screendump_delay cfg) d ins acts) as Hex.
    split_and!; [exact Hex| apply driver_set_sets |].
    intros Hset.
    pose proof (set_event_exits (Poller.screendump_pass cfg) [] id
                  (Poller.screendump_delay cfg) s Hset) as H3.
    destruct (Poller.at_pc s) eqn:Hpc; try exact H3.
    assert (Poller.termination_event s = None) as E by exact (Hex Hpc).
    congruence.
  - pose proof (exited_event_none Poller.register_pass []
                  (Poller.report_result "Thread quit")
                  vm_register_delay d ins acts) as Hex.
    split_and!; [exact Hex| apply driver_set_sets |].
    intros Hset.
    pose proof (set_event_exits Poller.register_pass []
                  (Poller.report_result "Thread quit")
                  vm_register_delay s Hset) as H3.
    destruct (Poller.at_pc s) eqn:Hpc; try exact H3.
    assert (Poller.termination_event s = None) as E by exact (Hex Hpc).
    congruence.
Qed.


(** ** The screendump poller *)

Section ScreendumpFacts.
Import Poller.
Variable cfg : sd_config.

Lemma new_events_app {E} (before added : list E) :
  new_events before (before ++ added) = added.
Proof. unfold new_events. by rewrite drop_app_length. Qed.

Lemma new_events_refl {E} (before : list E) : new_events before before = [].
Proof. unfold new_events. by rewrite drop_all. Qed.

Lemma first_sight_spec vm s :
  let i := sd_instance vm in
  counter (first_sight vm s) !! i = Some (default 0%Z (counter s !! i)) ∧
  inactivity (first_sight vm s) !! i =
    Some (default (now_first vm) (inactivity s !! i)) ∧
  cache (first_sight vm s) = cache s ∧
  sd_out (first_sight vm s) = sd_out s.
Proof.
  intros i. unfold first_sight, set_counter, set_inactivity. fold i.
  destruct s as [c k ina out]. simpl.
  destruct (k !! i) as [kz|] eqn:Hk; simpl;
    destruct (ina !! i) as [iz|] eqn:Hi; simpl;
    rewrite ?lookup_insert_eq, ?Hk, ?Hi; done.
Qed.

(** A duplicate frame: what [on_duplicate] records and changes. *)
Lemma on_duplicate_spec vm cached f s :
  let i := sd_instance vm in
  let t := (now_check vm - default 0 (inactivity s !! i))%Z in
  cache (on_duplicate cfg vm cached f s) = cache s ∧
  counter (on_duplicate cfg vm cached f s) = counter s ∧
  ∃ signals,
    sd_out (on_duplicate cfg vm cached f s) =
      sd_out s ++ signals ++ [Linked cached f] ∧
    ((t > inactivity_treshold cfg)%Z ∧ inactivity_watcher cfg = "error" ∧
       signals = [InactiveError (sd_name vm) t; BackgroundError (sd_name vm) t] ∧
       inactivity (on_duplicate cfg vm cached f s) =
         <[i := now_reset vm]> (inactivity s)
     ∨ (t > inactivity_treshold cfg)%Z ∧ inactivity_watcher cfg = "log" ∧
       signals = [InactiveDebug (sd_name vm) t] ∧
       inactivity (on_duplicate cfg vm cached f s) = inactivity s
     ∨ ((t ≤ inactivity_treshold cfg)%Z ∨
        (inactivity_watcher cfg ≠ "error" ∧ inactivity_watcher cfg ≠ "log")) ∧
       signals = [] ∧
       inactivity (on_duplicate cfg vm cached f s) = inactivity s).
Proof.
  intros i t. unfold on_duplicate. fold i t. destruct s as [c k ina out].
  repeat case_bool_decide; cbn; (split_and!; [done..|]).
  - exists [InactiveError (sd_name vm) t; BackgroundError (sd_name vm) t].
    rewrite <- !(assoc_L (++)). split; [done|]. left. done.
  - exists [InactiveDebug (sd_name vm) t].
    rewrite <- !(assoc_L (++)). split; [done|]. right. left. done.
  - exists []. split; [done|]. right. right. by split_and!; [right|..].
  - exists []. split; [done|]. right. right. split_and!; [left; lia|done..].
Qed.

Lemma screendump_vm_frame vm s image_hash encode :
  sd_alive vm = true →
  sd_capture vm = Frame image_hash encode →
  let i := sd_instance vm in
  let n := (default 0 (counter s !! i) + 1)%Z in
  let s2 := set_counter i n (first_sight vm s) in
  let f : slot := (sd_dir vm, n) in
  screendump_vm cfg vm s =
  sd_log Unlinked
    match cache s !! image_hash with
    | Some cached => on_duplicate cfg vm cached f s2
    | None => on_new_frame vm image_hash encode f s2
    end.
Proof.
  intros Halive Hcap i n s2 f. unfold screendump_vm.
  rewrite Halive, Hcap. cbn [negb]. fold i.
  destruct (first_sight_spec vm s) as (Hk & _ & Hc & _). fold i in Hk.
  rewrite Hk. unfold s2, f, n, set_counter. simpl.
  by rewrite lookup_insert_eq, Hc.
Qed.

Lemma duplicate_frame_step vm s image_hash encode cached :
  sd_alive vm = true →
  sd_capture vm = Frame image_hash encode →
  cache s !! image_hash = Some cached →
  let i := sd_instance vm in
  let n := (default 0 (counter s !! i) + 1)%Z in
  let last := default (now_first vm) (inactivity s !! i) in
  let t := (now_check vm - last)%Z in
  let s' := screendump_vm cfg vm s in
  cache s' = cache s ∧
  counter s' !! i = Some n ∧
  ∃ signals,
    new_events (sd_out s) (sd_out s') =
      signals ++ [Linked cached (sd_dir vm, n); Unlinked] ∧
    ((t > inactivity_treshold cfg)%Z ∧ inactivity_watcher cfg = "error" ∧
       signals = [InactiveError (sd_name vm) t; BackgroundError (sd_name vm) t] ∧
       inactivity s' !! i = Some (now_reset vm)
     ∨ (t > inactivity_treshold cfg)%Z ∧ inactivity_watcher cfg = "log" ∧
       signals = [InactiveDebug (sd_name vm) t] ∧
       inactivity s' !! i = Some last
     ∨ ((t ≤ inactivity_treshold cfg)%Z ∨
        (inactivity_watcher cfg ≠ "error" ∧ inactivity_watcher cfg ≠ "log")) ∧
       signals = [] ∧
       inactivity s' !! i = Some last).
Proof.
  intros Halive Hcap Hcache i n last t s'. subst s'.
  rewrite (screendump_vm_frame vm s image_hash encode Halive Hcap), Hcache.
  fold i n.
  destruct (first_sight_spec vm s) as (_ & Hina & Hc & Hout).
  fold i last in Hina.
  set (s2 := set_counter i n (first_sight vm s)).
  assert (inactivity s2 !! i = Some last) as Hina2 by done.
  destruct (on_duplicate_spec vm cached (sd_dir vm, n) s2)
    as (Hc' & Hk' & signals & Hout' & Hcases).
  fold i in Hcases. rewrite Hina2 in Hcases. cbn [default] in Hcases.
  fold t in Hcases.
  cbn [sd_log cache counter inactivity sd_out].
  split_and!.
  - by rewrite Hc'.
  - rewrite Hk'. unfold s2, set_counter. simpl. by rewrite lookup_insert_eq.
  - exists signals. split.
    + rewrite Hout'. unfold s2, set_counter. cbn [sd_out]. rewrite Hout.
      rewrite <- !(assoc_L (++)). by rewrite new_events_app.
    + destruct Hcases as [(?&?&?&Hi)|[(?&?&?&Hi)|(?&?&Hi)]]; rewrite Hi.
      * left. split_and!; [done..|]. by rewrite lookup_insert_eq.
      * right. left. done.
      * right. right. done.
Qed.

(** C6, as the code has it. A frame whose fingerprint is in the cache
    gets a slot of its own, one past the VM's counter, and that slot
    is hard-linked to the cached rendering; nothing is encoded and the
    cache is unchanged; the counter goes up by one.  A frame with a new
    fingerprint that encodes is saved to its slot and cached, and the
    counter goes up by one.  A frame with a new fingerprint whose JPEG
    cannot be written ([IOError]) leaves the counter where it was, and
    nothing is saved or cached.  With PIL missing ([NameError]) nothing
    is saved or cached either, but the counter stays one up. *)
Theorem duplicate_frame_is_linked vm s image_hash encode :
  sd_alive vm = true →
  sd_capture vm = Frame image_hash encode →
  let i := sd_instance vm in
  let n := default 0%Z (counter s !! i) in
  let s' := screendump_vm cfg vm s in
  (∀ cached, cache s !! image_hash = Some cached →
     counter s' !! i = Some (n + 1)%Z ∧
     cache s' = cache s ∧
     Linked cached (sd_dir vm, (n + 1)%Z)
       ∈ new_events (sd_out s) (sd_out s') ∧
     filter is_save (new_events (sd_out s) (sd_out s')) = []) ∧
  (cache s !! image_hash = None → encode = Encoded →
     counter s' !! i = Some (n + 1)%Z ∧
     cache s' = <[image_hash := (sd_dir vm, (n + 1)%Z)]> (cache s) ∧
     new_events (sd_out s) (sd_out s') =
       [Saved (sd_dir vm, (n + 1)%Z) image_hash; Unlinked]) ∧
  (cache s !! image_hash = None → encode = EncodeIOError →
     counter s' !! i = Some n ∧
     cache s' = cache s ∧
     filter Observe.writes_slot (new_events (sd_out s) (sd_out s')) = []) ∧
  (cache s !! image_hash = None → encode = NoPIL →
     counter s' !! i = Some (n + 1)%Z ∧
     cache s' = cache s ∧
     filter Observe.writes_slot (new_events (sd_out s) (sd_out s')) = []).
Proof.
  intros Halive Hcap i n s'. split; [|split; [|split]].
  - intros cached Hcache.
    destruct (duplicate_frame_step vm s image_hash encode cached
                Halive Hcap Hcache) as (Hc & Hk & signals & Hout & Hcases).
    fold i n s' in Hc, Hk, Hout.
    split_and!; [done..| |]; rewrite Hout.
    + apply elem_of_app. right. by left.
    + destruct Hcases as [(_&_&->&_)|[(_&_&->&_)|(_&->&_)]]; done.
  - intros Hcache ->. subst s'.
    rewrite (screendump_vm_frame vm s image_hash Encoded Halive Hcap), Hcache.
    fold i n.
    destruct (first_sight_spec vm s) as (_ & _ & Hc & Hout).
    unfold on_new_frame, set_cache, set_inactivity, set_counter, sd_log.
    cbn [cache counter inactivity sd_out].
    rewrite Hc, Hout, lookup_insert_eq, <- !(assoc_L (++)), new_events_app.
    done.
  - intros Hcache ->. subst s'.
    rewrite (screendump_vm_frame vm s image_hash EncodeIOError Halive Hcap),
      Hcache.
    fold i n.
    destruct (first_sight_spec vm s) as (_ & _ & Hc & Hout).
    unfold on_new_frame, set_cache, set_inactivity, set_counter, sd_log.
    cbn [cache counter inactivity sd_out].
    rewrite Hc, Hout, !lookup_insert_eq, <- !(assoc_L (++)), new_events_app.
    split; [simpl; f_equal; lia|]. split; [done|]. by vm_compute.
  - intros Hcache ->. subst s'.
    rewrite (screendump_vm_frame vm s image_hash NoPIL Halive Hcap),
      Hcache.
    fold i n.
    destruct (first_sight_spec vm s) as (_ & _ & Hc & Hout).
    unfold on_new_frame, set_cache, set_inactivity, set_counter, sd_log.
    cbn [cache counter inactivity sd_out].
    rewrite Hc, Hout, !lookup_insert_eq, new_events_app.
    done.
Qed.


End ScreendumpFacts.

Lemma duplicate_frame_is_linked_witness :
  let s := Poller.screendump_pass Poller.error_policy [Poller.still_frame 0]
             Poller.sd_init in
  let vm := Poller.still_frame 5 in
  Poller.sd_alive vm = true ∧
  Poller.sd_capture vm = Poller.Frame "hash-A" Poller.Encoded ∧
  Poller.cache s !! "hash-A" = Some ("screendumps_vm1", 1%Z) ∧
  Poller.counter (Poller.screendump_vm Poller.error_policy vm s)
    !! "vm1-instance" = Some 2%Z.
Proof.
  intros s vm.
  destruct (duplicate_frame_is_linked Poller.error_policy vm s "hash-A"
              Poller.Encoded eq_refl eq_refl) as [Hdup _].
  destruct (Hdup ("screendumps_vm1", 1%Z) eq_refl) as (Hk & _).
  split; [reflexivity|]. split; [reflexivity|]. split; [reflexivity|].
  exact Hk.
Defined.

(** C6 as stated fails: the second of two identical frames is linked
    into slot 2, so the counter stands at 2, above the 1 that a single
    frame leaves; there is one encode all the same. *)
Lemma two_identical_frames_count_two :
  let one := Poller.screendump_pass Poller.error_policy
               [Poller.still_frame 0] Poller.sd_init in
  let two := Poller.screendump_pass Poller.error_policy
               [Poller.still_frame 0; Poller.still_frame 5] Poller.sd_init in
  Poller.counter one !! "vm1-instance" = Some 1%Z ∧
  Poller.counter two !! "vm1-instance" = Some 2%Z ∧
  filter Poller.is_save (Poller.sd_out two) =
    [Poller.Saved ("screendumps_vm1", 1%Z) "hash-A"] ∧
  ¬ (default 0 (Poller.counter two !! "vm1-instance")
     ≤ default 0 (Poller.counter one !! "vm1-instance"))%Z.
Proof.
  intros one two.
  assert (Poller.counter one !! "vm1-instance" = Some 1%Z) as H1 by by vm_compute.
  assert (Poller.counter two !! "vm1-instance" = Some 2%Z) as H2 by by vm_compute.
  split_and!; [done|done|by vm_compute|]. rewrite H1, H2. simpl. lia.
Qed.



(** Under the "error" policy the same run is signalled once. *)
Example error_policy_signals_once :
  filter Poller.is_inactivity_signal
    (Poller.sd_out
       (Poller.screendump_pass Poller.error_policy
          [Poller.still_frame 0; Poller.still_frame 11; Poller.still_frame 12]
          Poller.sd_init)) =
  [Poller.BackgroundError "vm1" 11].
Proof. by vm_compute. Qed.

(** ** The register poller *)

Section RegisterFacts.
Import Poller.

Lemma register_vm_dead vm s :
  vr_alive vm = false →
  let i := vr_instance vm in
  let e := default 0%Z (vm_register_error_count s !! i) in
  vm_register_error_count (register_vm vm s) !! i = Some (e + 1)%Z ∧
  vr_out (register_vm vm s) =
    vr_out s ++ (if bool_decide (e < 1)%Z then [NotAliveWarning (vr_name vm)] else []).
Proof.
  intros Hdead i e. unfold register_vm. rewrite Hdead. fold i.
  destruct s as [k m out]. unfold set_error_count, vr_log. simpl in *.
  subst e.
  destruct (m !! i) as [z|] eqn:Hm; simpl;
    rewrite ?Hm, ?lookup_insert_eq; simpl;
    repeat case_bool_decide; simpl;
    rewrite ?lookup_insert_eq, ?app_nil_r; done || lia.
Qed.

Lemma register_vm_alive vm s :
  vr_alive vm = true →
  let i := vr_instance vm in
  let e := default 0%Z (vm_register_error_count s !! i) in
  let number := default 1%Z (vr_counter s !! i) in
  vm_register_error_count (register_vm vm s) !! i = Some 0%Z ∨
  (e < 1)%Z ∧
  vm_register_error_count (register_vm vm s) !! i = Some e.
Proof.
  intros Halive i e number. unfold register_vm. rewrite Halive. fold i.
  destruct s as [k m out].
  unfold set_error_count, set_vr_counter, vr_log. simpl in *.
  subst e.
  destruct (m !! i) as [z|] eqn:Hm; simpl; rewrite ?Hm, ?lookup_insert_eq;
    simpl; destruct (k !! i) as [c|]; simpl;
    repeat case_bool_decide; simpl; destruct (vr_stored vm); simpl;
    rewrite ?lookup_insert_eq, ?Hm; auto; right; split; auto; lia.
Qed.

Lemma register_vm_alive_out vm s :
  vr_alive vm = true →
  let i := vr_instance vm in
  let e := default 0%Z (vm_register_error_count s !! i) in
  let number := default 1%Z (vr_counter s !! i) in
  vr_out (register_vm vm s) =
    vr_out s ++ [Store i number] ++
    (if bool_decide (e >= 1)%Z then [AliveNow (vr_name vm) e] else []).
Proof.
  intros Halive i e number. unfold register_vm. rewrite Halive. fold i.
  destruct s as [k m out].
  unfold set_error_count, set_vr_counter, vr_log. simpl in *.
  subst e number.
  destruct (m !! i) as [z|] eqn:Hm; simpl; rewrite ?Hm, ?lookup_insert_eq;
    simpl; destruct (k !! i) as [c|] eqn:Hk; simpl;
    rewrite ?Hk, ?lookup_insert_eq; simpl;
    repeat case_bool_decide; simpl; destruct (vr_stored vm); simpl;
    rewrite <- ?(assoc_L (++)); done || lia.
Qed.

Lemma report_entries_skip_zero (m : gmap string Z) i :
  m !! i = Some 0%Z → Forall (λ kv, kv.1 ≠ i) (report_entries m).
Proof.
  intros Hm. apply Forall_forall. intros [k v] Hin Hk. simpl in Hk. subst k.
  apply list_elem_of_filter in Hin as [Hpos Hin].
  apply elem_of_map_to_list in Hin. simpl in Hpos.
  rewrite Hm in Hin. by simplify_eq.
Qed.

(** C8, as the code has it. A VM that is not alive at three passes in
    a row and alive at the fourth: the "not alive" warning is logged
    once, at the first miss; at the fourth pass the "alive now" entry
    reports the three misses, once, and the miss count goes back to
    zero, so that the summary written when the thread leaves has no
    entry for this VM. *)
Theorem dead_streak_then_alive s d1 d2 d3 a i :
  vr_instance d1 = i → vr_instance d2 = i → vr_instance d3 = i →
  vr_instance a = i →
  vr_alive d1 = false → vr_alive d2 = false → vr_alive d3 = false →
  vr_alive a = true →
  default 0%Z (vm_register_error_count s !! i) = 0%Z →
  let s' := register_pass [d1; d2; d3; a] s in
  filter is_not_alive_warning (new_events (vr_out s) (vr_out s')) =
    [NotAliveWarning (vr_name d1)] ∧
  filter is_alive_now (new_events (vr_out s) (vr_out s')) =
    [AliveNow (vr_name a) 3] ∧
  vm_register_error_count s' !! i = Some 0%Z ∧
  Forall (λ kv, kv.1 ≠ i) (report_entries (vm_register_error_count s')) ∧
  filter is_summary (new_events (vr_out s) (vr_out s')) = [].
Proof.
  intros <- H2 H3 H4 Hd1 Hd2 Hd3 Ha H0 s'.
  unfold register_pass in s'. simpl in s'.
  set (s1 := register_vm d1 s) in *.
  set (s2 := register_vm d2 s1) in *.
  set (s3 := register_vm d3 s2) in *.
  destruct (register_vm_dead d1 s Hd1) as [E1 O1].
  rewrite H0 in E1, O1. fold s1 in E1, O1.
  rewrite bool_decide_eq_true_2 in O1 by lia.
  destruct (register_vm_dead d2 s1 Hd2) as [E2 O2].
  rewrite H2, E1 in E2, O2. fold s2 in E2, O2. cbn [default] in E2, O2.
  rewrite bool_decide_eq_false_2 in O2 by (unfold id; lia).
  destruct (register_vm_dead d3 s2 Hd3) as [E3 O3].
  rewrite H3, E2 in E3, O3. fold s3 in E3, O3. cbn [default] in E3, O3.
  rewrite bool_decide_eq_false_2 in O3 by (unfold id; lia).
  pose proof (register_vm_alive_out a s3 Ha) as O4. cbv zeta in O4.
  rewrite H4, E3 in O4. fold s' in O4. cbn [default] in O4.
  rewrite bool_decide_eq_true_2 in O4 by (unfold id; lia).
  assert (vm_register_error_count s' !! vr_instance d1 = Some 0%Z) as E4.
  { destruct (register_vm_alive a s3 Ha) as [E4|[Hlt _]];
      rewrite H4 in *; [done|]. rewrite E3 in Hlt. unfold id in Hlt. simpl in Hlt. lia. }
  assert (new_events (vr_out s) (vr_out s') =
          [NotAliveWarning (vr_name d1);
           Store (vr_instance d1) (default 1%Z (vr_counter s3 !! vr_instance d1));
           AliveNow (vr_name a) 3]) as ->.
  { rewrite O4, O3, O2, O1. rewrite !app_nil_r, <- !(assoc_L (++)).
    by rewrite new_events_app. }
  split_and!; [done..| |done]. by apply report_entries_skip_zero.
Qed.

End RegisterFacts.

Lemma dead_streak_then_alive_witness :
  default 0%Z (Poller.vm_register_error_count Poller.vr_init !! "vm1-instance")
    = 0%Z ∧
  Poller.vr_alive Poller.down_vm = false ∧
  Poller.vr_alive Poller.up_vm = true ∧
  Poller.vm_register_error_count
    (Poller.register_pass
       [Poller.down_vm; Poller.down_vm; Poller.down_vm; Poller.up_vm]
       Poller.vr_init) !! "vm1-instance" = Some 0%Z.
Proof.
  split; [reflexivity|]. split; [reflexivity|]. split; [reflexivity|].
  exact (proj1 (proj2 (proj2
    (dead_streak_then_alive Poller.vr_init Poller.down_vm Poller.down_vm
       Poller.down_vm Poller.up_vm "vm1-instance"
       eq_refl eq_refl eq_refl eq_refl eq_refl eq_refl eq_refl eq_refl
       eq_refl)))).
Defined.

(** C8 as stated fails: the VM was down for three passes and is up at
    the fourth; the driver then sets the event and the poller leaves:
    the miss count was reset when the VM came back, and the thread-exit
    summary is not written at all. *)
Lemma no_summary_after_recovery :
  Poller.at_pc Poller.three_misses_then_alive = Poller.Exited ∧
  Poller.vr_out (Poller.data Poller.three_misses_then_alive) =
    [Poller.NotAliveWarning "vm1"; Poller.Store "vm1-instance" 1;
     Poller.AliveNow "vm1" 3] ∧
  length (filter Poller.is_summary
            (Poller.vr_out (Poller.data Poller.three_misses_then_alive))) ≠ 1.
Proof.
  assert (Poller.vr_out (Poller.data Poller.three_misses_then_alive) =
          [Poller.NotAliveWarning "vm1"; Poller.Store "vm1-instance" 1;
           Poller.AliveNow "vm1" 3]) as H by by vm_compute.
  split_and!; [by vm_compute|done|]. by rewrite H.
Qed.

(** ** Image processing leaves the guests as they were *)

Section ProcessFacts.
Import Eff Process.

Variable object_params : Params → string → Params.
Variable process_images : Params → option string → option Py.exn.
Variable params : Params.

Local Abbreviation step := (image_step object_params process_images params).

Lemma pause_resume (m : gmap string vm_status) name :
  m !! name = Some Running →
  alter (λ vm, match vm with Paused => Running | _ => vm end) name
    (alter (λ vm, match vm with Running => Paused | _ => vm end) name m) = m.
Proof.
  intros Hm. rewrite alter_alter_eq. apply alter_id.
  intros vm Hvm. by simplify_eq.
Qed.

Lemma image_step_running w vm_name :
  env w !! vm_name = Some Running →
  let p := <["skip_cluster_leak_warn" := "yes"]> (object_params params vm_name) in
  step vm_name w =
  (World (env w)
     (called w ++ [VmPause vm_name; ProcessImages p (Some "running");
                   VmResume vm_name]),
   match process_images p (Some "running") with
   | Some e => Raised e
   | None => Ok ()
   end).
Proof.
  intros Hvm p. destruct w as [m tr]. simpl in Hvm.
  unfold image_step, try_finally, call_process_images, pause, resume,
    record, when, mbind, M_bind, bind, gets, modify, mret, M_ret, ret, raise.
  cbn [env called]. rewrite Hvm. cbn. fold p.
  destruct (process_images p (Some "running")); cbn;
    rewrite pause_resume by done; by rewrite <- !(assoc_L (++)).
Qed.

Lemma image_step_other w vm_name :
  env w !! vm_name ≠ Some Running →
  let status := match env w !! vm_name with
                | Some Paused => "running"
                | _ => "dead"
                end in
  let p := object_params params vm_name in
  step vm_name w =
  (World (env w) (called w ++ [ProcessImages p (Some status)]),
   match process_images p (Some status) with
   | Some e => Raised e
   | None => Ok ()
   end).
Proof.
  intros Hvm status p. destruct w as [m tr]. simpl in *.
  unfold image_step, try_finally, call_process_images, pause, resume,
    record, when, mbind, M_bind, bind, gets, modify, mret, M_ret, ret, raise.
  cbn [env called]. subst status.
  destruct (m !! vm_name) as [[| |]|] eqn:Hm; [..|]; try done; cbn; fold p;
    by destruct (process_images p _).
Qed.

Lemma image_step_env w vm_name : env (step vm_name w).1 = env w.
Proof.
  destruct (decide (env w !! vm_name = Some Running)) as [Hr|Hr].
  - by rewrite image_step_running.
  - by rewrite image_step_other.
Qed.

Lemma for_each_env {A} (l : list A) (body : A → M world unit) :
  (∀ x w, env (body x w).1 = env w) →
  ∀ w, env (for_each l body w).1 = env w.
Proof.
  intros Hbody. induction l as [|x l IH]; intros w; [done|].
  simpl. unfold bind. specialize (Hbody x w).
  destruct (body x w) as [w' [[]|e]]; simpl in *; [|done].
  by rewrite IH.
Qed.

Local Abbreviation turns :=
  (Observe.image_turns object_params process_images params).

Lemma image_step_turn w vm_name :
  let turn :=
    Observe.image_turn object_params process_images params (env w) vm_name in
  step vm_name w =
  (World (env w) (called w ++ turn.1),
   match turn.2 with Some e => Raised e | None => Ok () end).
Proof.
  intros turn. subst turn. unfold Observe.image_turn.
  destruct (decide (env w !! vm_name = Some Running)) as [Hr|Hr].
  - rewrite (image_step_running w vm_name Hr).
    by rewrite Hr.
  - rewrite (image_step_other w vm_name Hr).
    by destruct (env w !! vm_name) as [[| |]|].
Qed.

Lemma for_each_turns vms w :
  for_each vms step w =
  (World (env w) (called w ++ (turns (env w) vms).1),
   match (turns (env w) vms).2 with Some e => Raised e | None => Ok () end).
Proof.
  revert w. induction vms as [|vm_name vms IH]; intros w.
  - destruct w. cbn. by rewrite app_nil_r.
  - cbn [for_each Observe.image_turns]. unfold bind.
    rewrite image_step_turn.
    destruct (Observe.image_turn object_params process_images params (env w)
                vm_name) as [evs [e|]]; cbn [fst snd]; [done|].
    rewrite IH. cbn [env called]. by rewrite (assoc_L (++)).
Qed.

(** C10. For each VM of [params.objects("vms")]: a guest that runs is
    paused, [process_images] is called on its scoped params with
    [skip_cluster_leak_warn = "yes"] added, and the guest is resumed,
    whether [process_images] returned or raised; a guest that is
    paused, dead or not registered is neither paused nor resumed.
    Every guest is in the state it was in before: after one VM's turn
    and after the whole of [_call_image_func], also when it raises.
    The loop of [_call_image_func] makes exactly these calls, VM by VM
    in the order of [params.objects("vms")], up to and with the first
    VM whose image processing raises, and raises what that one
    raised. *)
Theorem image_processing_keeps_vm_state :
  (∀ w vm_name,
     env (step vm_name w).1 = env w ∧
     (env w !! vm_name = Some Running →
        let p := <["skip_cluster_leak_warn" := "yes"]>
                   (object_params params vm_name) in
        called (step vm_name w).1 =
          called w ++ [VmPause vm_name; ProcessImages p (Some "running");
                       VmResume vm_name] ∧
        (step vm_name w).2 =
          match process_images p (Some "running") with
          | Some e => Raised e
          | None => Ok ()
          end) ∧
     (env w !! vm_name ≠ Some Running →
        ∃ status,
          called (step vm_name w).1 =
            called w ++ [ProcessImages (object_params params vm_name)
                           (Some status)])) ∧
  (∀ w, env (_call_image_func object_params process_images params w).1
        = env w) ∧
  (∀ w,
     get params "skip_image_processing" ≠ Some "yes" →
     objects params "vms" ≠ [] →
     let run := turns (env w) (objects params "vms") in
     _call_image_func object_params process_images params w =
     (World (env w) (called w ++ run.1),
      match run.2 with Some e => Raised e | None => Ok () end)).
Proof.
  split; [|split].
  - intros w vm_name. split_and!.
    + apply image_step_env.
    + intros Hr p. by rewrite image_step_running.
    + intros Hr. eexists. by rewrite image_step_other.
  - intros w. unfold _call_image_func.
    case_bool_decide; [done|].
    destruct (objects params "vms") as [|v vs] eqn:Hvms.
    + unfold call_process_images, record, mbind, M_bind, bind, modify.
      simpl. by destruct (process_images params None).
    + apply for_each_env. intros x w'. apply image_step_env.
  - intros w Hskip Hvms run. unfold _call_image_func.
    rewrite (bool_decide_eq_false_2 _ Hskip).
    destruct (objects params "vms") as [|v vs] eqn:Hl; [done|].
    apply for_each_turns.
Qed.

End ProcessFacts.

(** A run of [_call_image_func] in which the image processing of the
    running guest raises: the guest was paused and resumed, the later
    guests were not reached, every guest is as before. *)
Example image_processing_raises :
  let r := Process._call_image_func (λ p _, p) Process.fails_when_paused
             Process.sample_params (Process.World Process.sample_env []) in
  Process.env r.1 = Process.sample_env ∧
  Process.called r.1 =
    [Process.VmPause "vm1";
     Process.ProcessImages
       (<["skip_cluster_leak_warn" := "yes"]> Process.sample_params)
       (Some "running");
     Process.VmResume "vm1"] ∧
  r.2 = Eff.Raised (Py.Exn "VMError" "image check failed").
Proof. by vm_compute. Qed.

(** ** The kernel command line patch workflow *)

Section KernelPatchFacts.
Import Eff KernelPatch.

Variable selects : string → string → bool.
Variable add_ker_cmd : string → string → bool → string.
Variable rm_ker_cmd : string → string → string.
Variable object_params : Params → string → Params.

Local Abbreviation patch :=
  (patch_kernel_cmdline selects add_ker_cmd rm_ker_cmd object_params).
Local Abbreviation restore := (restore_kernel_cmdline selects).
Local Abbreviation target :=
  (target_cmdline add_ker_cmd rm_ker_cmd object_params).

Lemma locate_head (f : string → bool) content original rest :
  locate f content = original :: rest → f original = true.
Proof.
  intros Hloc.
  assert (original ∈ locate f content) as Hin by (rewrite Hloc; left).
  by apply list_elem_of_filter in Hin as [? _].
Qed.

(** Overwriting the located entry and overwriting it back. *)
Lemma replace_located (f : string → bool) content original rest patched :
  locate f content = original :: rest →
  f patched = true →
  locate f (replace_image_file_content original patched content)
    = patched :: rest ∧
  replace_image_file_content patched original
    (replace_image_file_content original patched content) = content.
Proof.
  intros Hloc Hp. pose proof (locate_head _ _ _ _ Hloc) as Ho.
  revert Hloc. unfold locate.
  induction content as [|line content IH]; [done|]. simpl.
  rewrite filter_cons. destruct (decide (f line = true)) as [Hl|Hl].
  - intros [= -> <-]. rewrite decide_True by done. simpl.
    rewrite filter_cons, decide_True by done.
    by rewrite decide_True by done.
  - intros Hloc. destruct (IH Hloc) as [IH1 IH2].
    rewrite decide_False by congruence. simpl.
    rewrite filter_cons, decide_False by done.
    rewrite decide_False by congruence. by rewrite IH1, IH2.
Qed.

(** The loops over [env.get_all_vms()] touch neither the boot file nor
    the globals nor [params]. *)
Lemma destroy_loop (body : string → M world unit) vms :
  (∀ vm w, (body vm w).2 = Ok () ∧
           grub_file (body vm w).1 = grub_file w ∧
           kernel_modified (body vm w).1 = kernel_modified w ∧
           kernel_cmdline (body vm w).1 = kernel_cmdline w ∧
           params (body vm w).1 = params w) →
  ∀ w, (for_each vms body w).2 = Ok () ∧
       grub_file (for_each vms body w).1 = grub_file w ∧
       kernel_modified (for_each vms body w).1 = kernel_modified w ∧
       kernel_cmdline (for_each vms body w).1 = kernel_cmdline w ∧
       params (for_each vms body w).1 = params w.
Proof.
  intros Hbody. induction vms as [|vm vms IH]; intros w; [done|].
  simpl. unfold bind. destruct (Hbody vm w) as (Hr & Hg & Hm & Hc & Hp).
  destruct (body vm w) as [w1 [[]|e]]; simpl in *; [|done].
  destruct (IH w1) as (Hr' & Hg' & Hm' & Hc' & Hp').
  split_and!; congruence.
Qed.

(** What [patch_kernel_cmdline] leaves when it patches. *)
Lemma patch_patches w add remove (original : string) rest :
  locate (selects (get_d (params w) "kernel_cfg_pos_reg"
                     default_kernel_cfg_pos_reg)) (grub_file w)
    = original :: rest →
  kernel_modified w = false →
  (patch add remove w).2 = Ok () →
  kernel_modified (patch add remove w).1 = true →
  let w1 := (patch add remove w).1 in
  grub_file w1 =
    replace_image_file_content original
      (target (params w) add remove original) (grub_file w) ∧
  kernel_cmdline w1 = Some original ∧
  get_d (params w1) "kernel_cfg_pos_reg" default_kernel_cfg_pos_reg =
    get_d (params w) "kernel_cfg_pos_reg" default_kernel_cfg_pos_reg ∧
  get_d (params w1) "restore_kernel_cmd" "yes" =
    get_d (params w) "restore_kernel_cmd" "yes".
Proof.
  intros Hloc Hunmod. unfold patch_kernel_cmdline.
  destruct (negb (bool_decide (add = "")) || negb (bool_decide (remove = "")))
    eqn:Hany; cbn [when]; [|simpl; congruence].
  unfold mbind, M_bind, bind, gets, modify. cbn [fst snd]. rewrite Hloc.
  set (T := target (params w) add remove original).
  destruct (negb (bool_decide (Py.strip T = Py.strip original))) eqn:Hneed;
    cbn [when].
  - match goal with
    | |- context [for_each ?l ?b ?wk] =>
        assert (∀ vm wx, (b vm wx).2 = Ok () ∧
                  grub_file (b vm wx).1 = grub_file wx ∧
                  kernel_modified (b vm wx).1 = kernel_modified wx ∧
                  kernel_cmdline (b vm wx).1 = kernel_cmdline wx ∧
                  params (b vm wx).1 = params wx) as Hbody by done;
        destruct (destroy_loop b l Hbody wk) as (Hr & Hg & Hm & Hc & Hp);
        destruct (for_each l b wk) as [w2 [[]|e]]; [|done]
    end.
    simpl in Hg, Hm, Hc, Hp. intros _ _. unfold when, ret.
    destruct (bool_decide (add = "")), (bool_decide (remove = ""));
      simpl; rewrite ?Hg, ?Hc, ?Hp;
      unfold get_d; simpl; rewrite ?lookup_insert_ne by done; done.
  - intros _. unfold when, ret.
    destruct (bool_decide (add = "")), (bool_decide (remove = ""));
      simpl; congruence.
Qed.

(** What [restore_kernel_cmdline] does when a patch is pending. *)
Lemma restore_restores w1 (current original : string) rest :
  kernel_modified w1 = true →
  get_d (params w1) "restore_kernel_cmd" "yes" = "yes" →
  locate (selects (get_d (params w1) "kernel_cfg_pos_reg"
                     default_kernel_cfg_pos_reg)) (grub_file w1)
    = current :: rest →
  kernel_cmdline w1 = Some original →
  (restore w1).2 = Ok () ∧
  grub_file (restore w1).1 =
    replace_image_file_content current original (grub_file w1) ∧
  kernel_modified (restore w1).1 = false.
Proof.
  intros Hmod Hyes Hloc Hsaved. unfold restore_kernel_cmdline.
  unfold mbind, M_bind, bind, gets, modify. cbn [fst snd].
  rewrite Hmod, Hyes. cbn [andb].
  rewrite bool_decide_eq_true_2 by done. cbn [when]. cbv beta.
  match goal with
  | |- context [for_each ?l ?b ?wk] =>
      assert (∀ vm wx, (b vm wx).2 = Ok () ∧
                grub_file (b vm wx).1 = grub_file wx ∧
                kernel_modified (b vm wx).1 = kernel_modified wx ∧
                kernel_cmdline (b vm wx).1 = kernel_cmdline wx ∧
                params (b vm wx).1 = params wx) as Hbody by done;
      destruct (destroy_loop b l Hbody wk) as (Hr & Hg & Hm & Hc & Hp);
      destruct (for_each l b wk) as [w2 [[]|e]]; [|done]
  end.
  simpl in Hg, Hm, Hc, Hp. rewrite Hg, Hloc, Hc, Hsaved. simpl.
  by rewrite Hg.
Qed.

(** C9, against the editor as the specification describes it. When
    [preprocess] patches the boot file (the pending flag goes from
    unset to set) and the patched command line is still an entry that
    [kernel_cfg_pos_reg] selects, [postprocess] with
    [restore_kernel_cmd] left at "yes" finds that entry, overwrites it
    with the saved original, clears the flag, and the boot file is
    what it was before the patch. *)
Theorem kernel_cmdline_round_trip w add remove :
  let reg := get_d (params w) "kernel_cfg_pos_reg" default_kernel_cfg_pos_reg in
  let patched := patch add remove w in
  let restored := restore patched.1 in
  kernel_modified w = false →
  patched.2 = Ok () →
  kernel_modified patched.1 = true →
  get_d (params w) "restore_kernel_cmd" "yes" = "yes" →
  (∀ original rest,
     locate (selects reg) (grub_file w) = original :: rest →
     selects reg (target (params w) add remove original) = true) →
  kernel_cmdline patched.1 = head (locate (selects reg) (grub_file w)) ∧
  restored.2 = Ok () ∧
  grub_file restored.1 = grub_file w ∧
  kernel_modified restored.1 = false.
Proof.
  intros reg patched restored Hunmod Hok Hmod Hyes Hsel.
  destruct (locate (selects reg) (grub_file w)) as [|original rest] eqn:Hloc.
  { exfalso. revert Hok Hmod. subst patched. unfold patch_kernel_cmdline.
    destruct (_ || _); cbn [when]; [|simpl; congruence].
    unfold mbind, M_bind, bind, gets. cbn [fst snd]. fold reg.
    by rewrite Hloc. }
  destruct (patch_patches w add remove original rest Hloc Hunmod Hok Hmod)
    as (Hg & Hc & Hreg & Hres).
  fold patched in Hg, Hc, Hreg, Hres.
  destruct (replace_located (selects reg) (grub_file w) original rest
              (target (params w) add remove original) Hloc
              (Hsel original rest eq_refl)) as [Hloc' Hback].
  assert (Hyes' : get_d (params patched.1) "restore_kernel_cmd" "yes" = "yes")
    by congruence.
  assert (Hloc1 : locate (selects (get_d (params patched.1) "kernel_cfg_pos_reg"
                                     default_kernel_cfg_pos_reg))
                    (grub_file patched.1)
                  = target (params w) add remove original :: rest)
    by (by rewrite Hreg, Hg).
  destruct (restore_restores patched.1 _ original rest Hmod Hyes' Hloc1 Hc)
    as (Hr2 & Hg2 & Hm2).
  fold restored in Hr2, Hg2, Hm2.
  split_and!; [done|done| |done]. by rewrite Hg2, Hg, Hback.
Qed.

End KernelPatchFacts.

Lemma kernel_cmdline_round_trip_witness :
  let patched :=
    KernelPatch.patch_kernel_cmdline KernelPatch.selects_default
      KernelPatch.add_ker_cmd_tokens KernelPatch.rm_ker_cmd_tokens (λ p _, p)
      "pci=nomsi" "quiet" KernelPatch.two_entries in
  KernelPatch.kernel_modified patched.1 = true ∧
  KernelPatch.grub_file patched.1 =
    ["menuentry 'Linux'";
     "linux16 /vmlinuz-3.10.0 root=/dev/sda1 ro pci=nomsi";
     "menuentry 'Rescue'";
     "	linux16 /vmlinuz-0-rescue root=/dev/sda1 ro"] ∧
  KernelPatch.grub_file
    (KernelPatch.restore_kernel_cmdline KernelPatch.selects_default patched.1).1
  = KernelPatch.grub_file KernelPatch.two_entries.
Proof.
  intros patched.
  split; [by vm_compute|]. split; [by vm_compute|].
  refine (proj1 (proj2 (proj2
    (kernel_cmdline_round_trip KernelPatch.selects_default
       KernelPatch.add_ker_cmd_tokens KernelPatch.rm_ker_cmd_tokens (λ p _, p)
       KernelPatch.two_entries "pci=nomsi" "quiet" eq_refl _ _ eq_refl _)))).
  - by vm_compute.
  - by vm_compute.
  - intros original rest. vm_compute. intros [= <- <-]. reflexivity.
Defined.

(** C9 as stated fails: the removal takes the kernel image token out of
    the first entry, so that the pattern no longer selects the patched
    line; the restore then finds the rescue entry, overwrites it with
    the saved line and clears the flag, and the boot file is not what
    it was. *)
Lemma restore_overwrites_another_entry :
  let patched :=
    KernelPatch.patch_kernel_cmdline KernelPatch.selects_default
      KernelPatch.add_ker_cmd_tokens KernelPatch.rm_ker_cmd_tokens (λ p _, p)
      "" "/vmlinuz-3.10.0" KernelPatch.two_entries in
  let restored :=
    KernelPatch.restore_kernel_cmdline KernelPatch.selects_default patched.1 in
  KernelPatch.kernel_modified KernelPatch.two_entries = false ∧
  patched.2 = Eff.Ok () ∧
  KernelPatch.kernel_modified patched.1 = true ∧
  KernelPatch.kernel_cmdline patched.1
    = Some "	linux16 /vmlinuz-3.10.0 root=/dev/sda1 ro quiet" ∧
  restored.2 = Eff.Ok () ∧
  KernelPatch.kernel_modified restored.1 = false ∧
  KernelPatch.grub_file restored.1 =
    ["menuentry 'Linux'";
     "linux16 root=/dev/sda1 ro quiet";
     "menuentry 'Rescue'";
     "	linux16 /vmlinuz-3.10.0 root=/dev/sda1 ro quiet"] ∧
  KernelPatch.grub_file restored.1 ≠ KernelPatch.grub_file KernelPatch.two_entries.
Proof. intros patched restored. split_and!; by vm_compute. Qed.


(** * Further properties *)

(** ** [postprocess_image]: when nothing is checked, and what follows a
    failed check *)

Section PostprocessImageMore.
Import Eff ImagePost.

Variable image : backend.
Variable params : Params.
Variable image_name : string.
Variable vm_process_status : option string.

Lemma emits_only_ext {Ev A} (P : Ev → Prop) (m m' : M (list Ev) A) :
  (∀ tr, m tr = m' tr) → emits_only P m' → emits_only P m.
Proof. intros Heq Hm tr Htr. rewrite Heq. by apply Hm. Qed.

(** X1. Without [check_image = "yes"], or with the guest running and
    [skip_image_check_during_running = "yes"], the image is neither
    inspected nor checked nor backed up: [backup_image] and
    [restore_image] are only looked at after a check. *)
Theorem no_check_no_backup :
  get params "check_image" ≠ Some "yes" ∨
  (vm_process_status = Some "running" ∧
   get params "skip_image_check_during_running" = Some "yes") →
  (Did Info ∉ events image params image_name vm_process_status) ∧
  (Did CheckImage ∉ events image params image_name vm_process_status) ∧
  (Did Backup ∉ events image params image_name vm_process_status).
Proof.
  intros Hoff.
  set (P := λ ev : event, ev ≠ Did Info ∧ ev ≠ Did CheckImage ∧ ev ≠ Did Backup).
  assert (emits_only P (postprocess_image image params image_name
                          vm_process_status)) as Hall.
  { unfold postprocess_image.
    assert (∃ pre, Forall P pre ∧
              ∀ tr, check_image_flag image params vm_process_status tr
                    = (tr ++ pre, Ok false)) as (pre & Hpre & Hflag).
    { unfold check_image_flag.
      destruct Hoff as [Hno|[-> Hskip]].
      - exists []. split; [done|]. intros tr.
        rewrite (bool_decide_eq_false_2 _ Hno), andb_false_r, app_nil_r. done.
      - rewrite (bool_decide_eq_true_2 (Some "running" = Some "running")) by done.
        destruct (bool_decide (get params "check_image" = Some "yes")) eqn:Hc;
          simpl.
        + rewrite (bool_decide_eq_true_2 _ Hskip).
          eexists [_]. split; [|done]. by repeat constructor.
        + exists []. split; [done|]. intros tr. by rewrite app_nil_r. }
    intros tr Htr. unfold mbind at 1. unfold M_bind, bind at 1.
    rewrite Hflag.
    assert (Forall P (tr ++ pre)) as Htr' by (by apply Forall_app).
    revert Htr'. generalize (tr ++ pre). clear tr Htr.
    change (emits_only P
      (mret false ≫= λ restored : bool,
         when (negb restored &&
               bool_decide (get_d params "restore_image_after_testing" "no" = "yes"))
              (call image Restore) ;;
         when (bool_decide (get params "remove_image" = Some "yes"))
              (log "info" "Remove image" ;;
               match get params "clone_master" with
               | None => call image Remove
               | Some cm =>
                   if bool_decide (cm = "yes")
                   then b ← in_master_images_clone params image_name;
                        when b (call image Remove)
                   else mret ()
               end))).
    assert (∀ o, o ≠ Info → o ≠ CheckImage → o ≠ Backup →
                 emits_only P (call image o)) as Hcall.
    { intros o ???. unfold call. apply emits_only_bind.
      - apply emits_only_emit. unfold P. split_and!; congruence.
      - intros _. destruct (fails image o); [apply emits_only_raise|apply emits_only_ret]. }
    assert (∀ l m, emits_only P (log l m)) as Hlog
      by (intros; by apply emits_only_emit).
    repeat first
      [ apply Hlog | by apply Hcall | emits_step | case_match
      | unfold in_master_images_clone ]. }
  specialize (Hall [] (Forall_nil_2 _)).
  fold (events image params image_name vm_process_status) in Hall.
  rewrite Forall_forall in Hall.
  split_and!; intros Hin; apply Hall in Hin; destruct Hin as (?&?&?);
    congruence.
Qed.

Ltac run_postprocess_image :=
  unfold events, postprocess_image, check_image_flag, in_master_images_clone,
    call, log, emit, try_except, when, raise, mbind, M_bind, bind, mret,
    M_ret, ret.

(** X2. When no call on the image raises, the image is backed up or
    restored at most once: a backup or restore after the check rules out
    the restore after testing. *)
Theorem at_most_one_backup_or_restore :
  (∀ o, fails image o = None) →
  length (filter Observe.is_backup_or_restore
            (events image params image_name vm_process_status)) ≤ 1.
Proof.
  intros Hok. run_postprocess_image. rewrite !Hok.
  repeat (case_match; simplify_eq/=; try lia).
Qed.

(** X3. A check that fails: with the image checked (the flag set, the guest
    not running, no [clone_master]) and the restore and removal calls
    sound, the exception of [check_image] is raised again, unchanged,
    unless [skip_cluster_leak_warn = "yes"] and its message has "Leaked
    clusters", in which case its message is logged as a warning and the
    function goes on to return. *)
Theorem failed_check_is_raised_again e :
  get params "check_image" = Some "yes" →
  vm_process_status ≠ Some "running" →
  get params "clone_master" = None →
  fails image CheckImage = Some e →
  fails image Restore = None →
  fails image Remove = None →
  let swallowed :=
    bool_decide (get params "skip_cluster_leak_warn" = Some "yes")
    && Py.contains "Leaked clusters" (Py.message e) in
  (postprocess_image image params image_name vm_process_status []).2 =
    (if swallowed then Ok () else Raised e) ∧
  (swallowed = true →
   Logged "warn" (Py.message e)
     ∈ events image params image_name vm_process_status) ∧
  (Did Backup ∉ events image params image_name vm_process_status).
Proof.
  intros Hflag Hrun Hcm He Hr Hrm swallowed. subst swallowed.
  run_postprocess_image.
  rewrite Hcm, (bool_decide_eq_true_2 _ Hflag),
    (bool_decide_eq_false_2 _ Hrun), He, Hr, Hrm.
  cbn [andb fst snd].
  repeat (case_match; simplify_eq/=; try done);
    (split_and!; [done | try done; intros _; in_list | not_in_list]).
Qed.

End PostprocessImageMore.

(** ** The screendump poller: frames that are not written, and what the
    cache points at *)

Section ScreendumpMore.
Import Poller.
Variable cfg : sd_config.

Ltac run_screendump_vm :=
  unfold screendump_vm, first_sight, on_duplicate, on_new_frame,
    set_counter, set_inactivity, set_cache, sd_log;
  cbn [cache counter inactivity sd_out].

(** X4. When no picture comes out of a capture because the guest is not
    alive, the monitor or the capture fails, the file is missing or not
    a valid PPM, or the JPEG of a new frame cannot be written
    ([IOError]), the guest's frame counter is what it was, so that the
    frames stay numbered without a gap, the cache is unchanged and no
    slot is written.  When PIL is missing ([NameError]) a new frame is
    not written either and the cache is unchanged, but there the counter
    stays one up. *)
Theorem no_picture_keeps_counter vm s :
  let i := sd_instance vm in
  let s' := screendump_vm cfg vm s in
  (sd_alive vm = false ∨
   (∃ msg, sd_capture vm = MonitorError msg) ∨
   (∃ msg, sd_capture vm = AttributeError msg) ∨
   sd_capture vm = NoFile ∨
   sd_capture vm = InvalidPPM ∨
   (∃ h, sd_capture vm = Frame h EncodeIOError ∧ cache s !! h = None) →
   counter s' !! i = Some (default 0%Z (counter s !! i)) ∧
   cache s' = cache s ∧
   filter Observe.writes_slot (new_events (sd_out s) (sd_out s')) = []) ∧
  (∀ h, sd_alive vm = true → sd_capture vm = Frame h NoPIL →
        cache s !! h = None →
   counter s' !! i = Some (default 0%Z (counter s !! i) + 1)%Z ∧
   cache s' = cache s ∧
   filter Observe.writes_slot (new_events (sd_out s) (sd_out s')) = []).
Proof.
  intros i s'. split.
  - intros Hcase. subst s'. destruct s as [c k ina out].
    run_screendump_vm. fold i. cbn [cache counter inactivity sd_out] in Hcase.
    assert (∀ (l : list sd_event), new_events out (out ++ l) = l) as Hnew
      by apply new_events_app.
    destruct (k !! i) as [kz|] eqn:Hk; cbn [cache counter inactivity sd_out];
      destruct (ina !! i) as [iz|] eqn:Hi; cbn [cache counter inactivity sd_out];
      (destruct (sd_alive vm);
       [|cbn; rewrite ?lookup_insert_eq, ?Hk, new_events_refl; done]);
      cbn [negb];
      destruct Hcase as [?|[[? Hc]|[[? Hc]|[Hc|[Hc|(h & Hc & Hh)]]]]];
      try done; rewrite Hc; cbn [cache counter inactivity sd_out];
      rewrite ?Hh; cbn [cache counter inactivity sd_out];
      rewrite ?lookup_insert_eq, ?Hk; cbn;
      rewrite <- ?(assoc_L (++)), ?Hnew, ?lookup_insert_eq, ?insert_insert_eq;
      (split_and!; [f_equal; lia || done | done | done]).
  - intros h Halive Hcap Hcache. subst s'.
    rewrite (screendump_vm_frame cfg vm s h NoPIL Halive Hcap), Hcache.
    fold i.
    destruct (first_sight_spec vm s) as (_ & _ & Hc & Hout).
    unfold on_new_frame, set_cache, set_inactivity, set_counter, sd_log.
    cbn [cache counter inactivity sd_out].
    rewrite Hc, Hout, !lookup_insert_eq, new_events_app.
    done.
Qed.

(** What one VM's turn adds: the record only grows; the cache gains at
    most the entry of a picture saved in this turn; a hard link made in
    this turn points at what the cache held. *)
Lemma screendump_vm_adds vm s :
  ∃ added,
    sd_out (screendump_vm cfg vm s) = sd_out s ++ added ∧
    (cache (screendump_vm cfg vm s) = cache s ∨
     ∃ h f, cache s !! h = None ∧
            cache (screendump_vm cfg vm s) = <[h := f]> (cache s) ∧
            Saved f h ∈ added) ∧
    (∀ src dst, Linked src dst ∈ added → ∃ h, cache s !! h = Some src).
Proof.
  destruct s as [c k ina out]. run_screendump_vm.
  set (i := sd_instance vm).
  destruct (k !! i) as [kz|] eqn:Hk; cbn [cache counter inactivity sd_out];
    destruct (ina !! i) as [iz|] eqn:Hi; cbn [cache counter inactivity sd_out];
    (destruct (sd_alive vm); cbn [negb];
     [|exists []; rewrite app_nil_r; split_and!; [done|by left|];
       by intros ?? ?%elem_of_nil]);
    (destruct (sd_capture vm) as [msg|msg| | |h enc];
     cbn [cache counter inactivity sd_out];
     [ eexists [_]; split_and!; [done|by left|]; intros ??; not_in_list
     | eexists [_]; split_and!; [done|by left|]; intros ??; not_in_list
     | eexists [_]; split_and!; [done|by left|]; intros ??; not_in_list
     | eexists [_; _]; rewrite <- ?(assoc_L (++)); split_and!;
         [done|by left|]; intros ??; not_in_list
     | ]);
    (destruct (c !! h) as [cached|] eqn:Hc;
     cbn [cache counter inactivity sd_out];
     [ repeat case_bool_decide; cbn [cache counter inactivity sd_out];
       rewrite <- ?(assoc_L (++)); eexists; (split_and!; [done|by left|]);
       intros src dst Hin;
       repeat (apply elem_of_cons in Hin as [Hin|Hin];
               [try discriminate Hin; simplify_eq; by exists h|]);
       by apply elem_of_nil in Hin
     | destruct enc; cbn [cache counter inactivity sd_out];
       rewrite <- ?(assoc_L (++)); eexists;
       (split_and!; [done| |intros ??; not_in_list]);
       [ right; eexists _, _; split_and!; [done|done|in_list]
       | by left | by left ] ]).
Qed.

(** X5. Across any number of passes from the start of the poller, the cache
    only points at pictures that were encoded and saved, and every hard
    link points at such a picture: a duplicate frame is never linked to
    a file the poller did not write. *)
Theorem cache_points_at_saved_pictures (passes : list (list sd_vm)) :
  let s := foldl (λ s vms, screendump_pass cfg vms s) sd_init passes in
  (∀ h f, cache s !! h = Some f → Saved f h ∈ sd_out s) ∧
  (∀ src dst, Linked src dst ∈ sd_out s → ∃ h, Saved src h ∈ sd_out s).
Proof.
  set (Inv := λ s : sd_state,
        (∀ h f, cache s !! h = Some f → Saved f h ∈ sd_out s) ∧
        (∀ src dst, Linked src dst ∈ sd_out s → ∃ h, Saved src h ∈ sd_out s)).
  assert (Hstep : ∀ vm s, Inv s → Inv (screendump_vm cfg vm s)).
  { intros vm s [Hc Hl].
    destruct (screendump_vm_adds vm s) as (added & Hout & Hcache & Hlinks).
    split.
    - intros h f Hhf. rewrite Hout. apply elem_of_app.
      destruct Hcache as [Heq|(h0 & f0 & Hnone & Heq & Hsaved)];
        rewrite Heq in Hhf; [left; by apply Hc|].
      apply lookup_insert_Some in Hhf as [[<- <-]|[_ Hhf]]; [by right|].
      left. by apply Hc.
    - intros src dst Hin. rewrite Hout in Hin |- *.
      apply elem_of_app in Hin as [Hin|Hin].
      + destruct (Hl _ _ Hin) as [h Hh]. exists h. apply elem_of_app. by left.
      + destruct (Hlinks _ _ Hin) as [h Hh]. exists h.
        apply elem_of_app. left. by apply Hc. }
  assert (Hpass : ∀ vms s, Inv s → Inv (screendump_pass cfg vms s)).
  { intros vms. unfold screendump_pass.
    induction vms as [|vm vms IH]; intros s Hs; [done|]. simpl. auto. }
  assert (Hall : ∀ s, Inv s →
            Inv (foldl (λ s vms, screendump_pass cfg vms s) s passes)).
  { induction passes as [|vms ps IH]; intros s Hs; [done|]. simpl. auto. }
  apply Hall. split; [by intros h f ?|]. by intros ?? ?%elem_of_nil.
Qed.

End ScreendumpMore.

(** ** The register poller: a guest that stays down *)

Section RegisterMore.
Import Poller.

Lemma register_pass_snoc vms vm s :
  register_pass (vms ++ [vm]) s = register_vm vm (register_pass vms s).
Proof. unfold register_pass. by rewrite foldl_app. Qed.

(** X6. A guest that is not alive at [n] passes in a row, counted from the
    pass at which it was first missed: the warning is logged at the
    first of them only, the miss count stands at [n], and a summary
    written then lists the guest with [n] misses. *)
Theorem misses_are_counted vm s (n : nat) :
  vr_alive vm = false →
  default 0%Z (vm_register_error_count s !! vr_instance vm) = 0%Z →
  0 < n →
  let s' := register_pass (replicate n vm) s in
  vm_register_error_count s' !! vr_instance vm = Some (Z.of_nat n) ∧
  new_events (vr_out s) (vr_out s') = [NotAliveWarning (vr_name vm)] ∧
  (vr_instance vm, Z.of_nat n) ∈ report_entries (vm_register_error_count s').
Proof.
  intros Hdead H0 Hn.
  assert (vm_register_error_count (register_pass (replicate n vm) s)
            !! vr_instance vm = Some (Z.of_nat n) ∧
          vr_out (register_pass (replicate n vm) s)
            = vr_out s ++ [NotAliveWarning (vr_name vm)]) as [Hc Ho].
  { induction n as [|n IH]; [lia|].
    rewrite replicate_S_end, register_pass_snoc.
    destruct (register_vm_dead vm (register_pass (replicate n vm) s) Hdead)
      as [E O].
    destruct n as [|n].
    - simpl in *. rewrite H0 in E, O.
      by rewrite bool_decide_eq_true_2 in O by lia.
    - destruct IH as [IHc IHo]; [lia|]. rewrite IHc in E, O. cbn [default] in E, O.
      rewrite bool_decide_eq_false_2 in O by (unfold id; lia).
      rewrite app_nil_r in O. rewrite E, O, IHo. split; [|done].
      f_equal. unfold id. lia. }
  intros s'. subst s'. split_and!; [done| |].
  - by rewrite Ho, new_events_app.
  - unfold report_entries. apply list_elem_of_filter. split.
    + simpl. apply Z.ltb_lt. lia.
    + by apply elem_of_map_to_list.
Qed.

End RegisterMore.

(** ** The pollers only leave on request *)

Section PollLoopMore.
Import Poller.
Context {D I : Type}.
Variable body : I → D → D.
Variable idle : I.
Variable on_exit : D → D.
Variable delay : nat.

(** X7. As long as the driver does not set the event, the poller of either
    loop never leaves it: after any number of its steps it is still in
    the loop and the event is still there, unset. *)
Theorem poller_stays_until_set d ins (n : nat) :
  let s := run body idle on_exit delay (replicate n PollerStep) (start d ins) in
  at_pc s ≠ Exited ∧ termination_event s = Some false.
Proof.
  induction n as [|n IH]; [done|].
  rewrite replicate_S_end, run_snoc. destruct IH as [Hpc Hev].
  cbn [act]. unfold poll_step.
  destruct (at_pc _) as [| |r|] eqn:E; [..|done]; rewrite ?Hev; simpl;
    [done|done|by destruct r].
Qed.

End PollLoopMore.

(** ** The kernel command line patch: edge cases *)

Section KernelPatchMore.
Import Eff KernelPatch.

Variable selects : string → string → bool.
Variable add_ker_cmd : string → string → bool → string.
Variable rm_ker_cmd : string → string → string.
Variable object_params : Params → string → Params.

Local Abbreviation patch :=
  (patch_kernel_cmdline selects add_ker_cmd rm_ker_cmd object_params).
Local Abbreviation restore := (restore_kernel_cmdline selects).
Local Abbreviation target :=
  (target_cmdline add_ker_cmd rm_ker_cmd object_params).
Local Abbreviation reg_of w :=
  (get_d (params w) "kernel_cfg_pos_reg" default_kernel_cfg_pos_reg).

Lemma filter_all {A} (P : A → Prop) `{∀ x, Decision (P x)} (l : list A) :
  (∀ x, x ∈ l → P x) → filter P l = l.
Proof.
  induction l as [|x l IH]; intros HP; [done|].
  rewrite filter_cons_True by (apply HP; left). f_equal. apply IH.
  intros y Hy. apply HP. by right.
Qed.

Lemma filter_none {A} (P : A → Prop) `{∀ x, Decision (P x)} (l : list A) :
  (∀ x, x ∈ l → ¬ P x) → filter P l = [].
Proof.
  induction l as [|x l IH]; intros HP; [done|].
  rewrite filter_cons_False by (apply HP; left). apply IH.
  intros y Hy. apply HP. by right.
Qed.

Lemma destroy_unregister_all (body : string → M world unit) vms w :
  (∀ vm w, body vm w = (unregister_vm vm (record (VmDestroy vm) w), Ok ())) →
  for_each vms body w =
  (World (grub_file w) (kernel_modified w) (kernel_cmdline w)
         (filter (λ n, n ∉ vms) (registered w)) (params w)
         (called w ++ (VmDestroy <$> vms)),
   Ok ()).
Proof.
  intros Hbody. revert w. induction vms as [|vm vms IH]; intros w.
  - destruct w. simpl. unfold ret. rewrite app_nil_r. f_equal. f_equal.
    symmetry. apply filter_all. intros n _ ?%elem_of_nil. done.
  - simpl. unfold bind. rewrite Hbody, IH.
    destruct w as [g km kc r p c]. unfold record, unregister_vm. simpl.
    rewrite list_filter_filter, <- (assoc_L (++)). do 3 f_equal.
    apply list_filter_iff. intros n. rewrite not_elem_of_cons. tauto.
Qed.

Lemma destroy_all (body : string → M world unit) vms w :
  (∀ vm w, body vm w = (record (VmDestroy vm) w, Ok ())) →
  for_each vms body w =
  (World (grub_file w) (kernel_modified w) (kernel_cmdline w) (registered w)
         (params w) (called w ++ (VmDestroy <$> vms)),
   Ok ()).
Proof.
  intros Hbody. revert w. induction vms as [|vm vms IH]; intros w.
  - destruct w. simpl. unfold ret. by rewrite app_nil_r.
  - simpl. unfold bind. rewrite Hbody, IH.
    destruct w. unfold record. simpl. by rewrite <- (assoc_L (++)).
Qed.

(** X8. When the boot file has no entry the pattern selects, the patch
    raises [TestError] before anything has changed: the file, the two
    globals, the registered VMs and [params] are as they were. *)
Theorem patch_without_entry_changes_nothing w add remove :
  add ≠ "" ∨ remove ≠ "" →
  locate (selects (reg_of w)) (grub_file w) = [] →
  patch add remove w =
    (w, Raised (TestError "Cannot find the kernel config")).
Proof.
  intros Hany Hloc. unfold patch_kernel_cmdline.
  assert (negb (bool_decide (add = "")) || negb (bool_decide (remove = ""))
          = true) as ->.
  { destruct Hany; [rewrite (bool_decide_eq_false_2 (add = ""))
                   |rewrite (bool_decide_eq_false_2 (remove = ""))];
      try done; by rewrite ?orb_true_r. }
  cbn [when]. unfold mbind, M_bind, bind, gets. cbn [fst snd].
  by rewrite Hloc.
Qed.

(** X9. When the additions and removals leave the located command line as
    it is (up to surrounding white space), nothing is written and no VM
    is destroyed or unregistered, and no restore is made pending; the
    located line is remembered all the same and the serial-console check
    of the new boot is switched on. *)
Theorem patch_without_change w add remove original rest :
  add ≠ "" ∨ remove ≠ "" →
  locate (selects (reg_of w)) (grub_file w) = original :: rest →
  Py.strip (target (params w) add remove original) = Py.strip original →
  let r := patch add remove w in
  r.2 = Ok () ∧
  grub_file r.1 = grub_file w ∧
  registered r.1 = registered w ∧
  kernel_modified r.1 = kernel_modified w ∧
  kernel_cmdline r.1 = Some original ∧
  called r.1 = called w ++ [Debug "Guest cmdline extra_params setting:"] ∧
  get (params r.1) "check_kernel_cmd_line_from_serial" = Some "yes".
Proof.
  intros Hany Hloc Hsame. unfold patch_kernel_cmdline.
  assert (negb (bool_decide (add = "")) || negb (bool_decide (remove = ""))
          = true) as ->.
  { destruct Hany; [rewrite (bool_decide_eq_false_2 (add = ""))
                   |rewrite (bool_decide_eq_false_2 (remove = ""))];
      try done; by rewrite ?orb_true_r. }
  cbn [when]. unfold mbind, M_bind, bind, gets, modify. cbn [fst snd].
  rewrite Hloc, (bool_decide_eq_true_2 _ Hsame). cbn [negb when].
  unfold when, ret, get.
  destruct (bool_decide (add = "")), (bool_decide (remove = ""));
    simpl; rewrite ?lookup_insert_ne by done; by rewrite lookup_insert_eq.
Qed.

(** X10. When the patch changes the command line, every registered VM is
    destroyed, in the order of the environment, and unregistered; the
    boot file is the old one with the located line replaced by the new
    command line, and the restore is pending. *)
Theorem patch_destroys_every_vm w add remove original rest :
  add ≠ "" ∨ remove ≠ "" →
  locate (selects (reg_of w)) (grub_file w) = original :: rest →
  Py.strip (target (params w) add remove original) ≠ Py.strip original →
  let r := patch add remove w in
  r.2 = Ok () ∧
  registered r.1 = [] ∧
  called r.1 = called w ++ (VmDestroy <$> registered w)
                 ++ [Debug "Guest cmdline extra_params setting:"] ∧
  kernel_modified r.1 = true ∧
  grub_file r.1 =
    replace_image_file_content original
      (target (params w) add remove original) (grub_file w).
Proof.
  intros Hany Hloc Hdiff. unfold patch_kernel_cmdline.
  assert (negb (bool_decide (add = "")) || negb (bool_decide (remove = ""))
          = true) as ->.
  { destruct Hany; [rewrite (bool_decide_eq_false_2 (add = ""))
                   |rewrite (bool_decide_eq_false_2 (remove = ""))];
      try done; by rewrite ?orb_true_r. }
  cbn [when]. unfold mbind, M_bind, bind, gets, modify. cbn [fst snd].
  rewrite Hloc, (bool_decide_eq_false_2 _ Hdiff). cbn [negb when].
  match goal with
  | |- context [for_each ?l ?b ?wk] =>
      rewrite (destroy_unregister_all b l wk) by done
  end.
  unfold when, ret.
  destruct (bool_decide (add = "")), (bool_decide (remove = ""));
    simpl; (split_and!; [done| |by rewrite <- (assoc_L (++))|done|done]);
    apply filter_none; intros n Hn Hnot; by apply Hnot.
Qed.

(** X11. A restore that finds no entry: the VMs have been destroyed by then,
    [TestError] is raised, the boot file is untouched and the patch is
    still pending. *)
Theorem restore_without_entry w :
  kernel_modified w = true →
  get_d (params w) "restore_kernel_cmd" "yes" = "yes" →
  locate (selects (reg_of w)) (grub_file w) = [] →
  let r := restore w in
  r.2 = Raised (TestError "Cannot find the kernel config") ∧
  called r.1 = called w ++ (VmDestroy <$> registered w) ∧
  grub_file r.1 = grub_file w ∧
  kernel_modified r.1 = true.
Proof.
  intros Hmod Hyes Hloc. unfold restore_kernel_cmdline.
  unfold mbind, M_bind, bind, gets, modify. cbn [fst snd].
  rewrite Hmod, Hyes, bool_decide_eq_true_2 by done.
  cbn [andb when]. cbv beta.
  match goal with
  | |- context [for_each ?l ?b ?wk] =>
      rewrite (destroy_all b l wk) by done
  end.
  cbn [grub_file]. by rewrite Hloc.
Qed.

End KernelPatchMore.

(** ** [process]: the order of the two phases *)

Section ProcessMore.
Import Eff Process.

Variable object_params : Params → string → Params.
Variable process_images : Params → option string → option Py.exn.
Variable vm_func : Params → string → gmap string vm_status →
                   gmap string vm_status * option Py.exn.
Variable params : Params.

Local Abbreviation images_phase :=
  (_call_image_func object_params process_images params).
Local Abbreviation vms_phase := (_call_vm_func object_params vm_func params).

Lemma for_each_called {A} (P : event → Prop) (l : list A)
    (body : A → M world unit) :
  (∀ x w, ∃ added, called (body x w).1 = called w ++ added ∧ Forall P added) →
  ∀ w, ∃ added, called (for_each l body w).1 = called w ++ added ∧
                Forall P added.
Proof.
  intros Hbody. induction l as [|x l IH]; intros w.
  - exists []. by rewrite app_nil_r.
  - simpl. unfold bind. destruct (Hbody x w) as (a1 & H1 & HP1).
    destruct (body x w) as [w1 [[]|e]]; simpl in *; [|by exists a1].
    destruct (IH w1) as (a2 & H2 & HP2). exists (a1 ++ a2).
    rewrite H2, H1, (assoc_L (++)). split; [done|]. by apply Forall_app.
Qed.

Lemma images_phase_called w :
  ∃ added, called (images_phase w).1 = called w ++ added ∧
           Forall (λ ev, Observe.is_image_event ev = true) added.
Proof.
  unfold _call_image_func. case_bool_decide.
  { exists []. by rewrite app_nil_r. }
  destruct (objects params "vms") as [|v vs].
  - unfold call_process_images, record, mbind, M_bind, bind, modify. simpl.
    eexists [_]. by destruct (process_images params None); repeat constructor.
  - apply for_each_called. intros x w'.
    destruct (decide (env w' !! x = Some Running)) as [Hr|Hr].
    + rewrite image_step_running by done. eexists. split; [done|].
      by repeat constructor.
    + rewrite image_step_other by done. eexists. split; [done|].
      by repeat constructor.
Qed.

Lemma vms_phase_called w :
  ∃ added, called (vms_phase w).1 = called w ++ added ∧
           Forall (λ ev, Observe.is_vm_func ev = true) added.
Proof.
  unfold _call_vm_func. apply for_each_called. intros x w'.
  unfold record, mbind, M_bind, bind, modify, gets. simpl.
  eexists [_]. by destruct (vm_func _ x (env w')).2; repeat constructor.
Qed.

(** X12. [process] keeps its two phases apart. With [vm_first] unset (in
    [preprocess]) everything done for the images (pausing, image
    processing, resuming) comes before the first call of the VM
    function; with [vm_first] set (in [postprocess]) every call of the VM
    function comes before anything is done for the images.  A phase that
    raises ends [process]: the other phase is not entered. *)
Theorem process_phases (vm_first : bool) w :
  let r := process object_params process_images vm_func params vm_first w in
  ∃ first second,
    called r.1 = called w ++ first ++ second ∧
    (if vm_first
     then Forall (λ ev, Observe.is_vm_func ev = true) first ∧
          Forall (λ ev, Observe.is_image_event ev = true) second ∧
          (∀ e, (vms_phase w).2 = Raised e → r.2 = Raised e ∧ second = [])
     else Forall (λ ev, Observe.is_image_event ev = true) first ∧
          Forall (λ ev, Observe.is_vm_func ev = true) second ∧
          (∀ e, (images_phase w).2 = Raised e → r.2 = Raised e ∧ second = [])).
Proof.
  unfold process. destruct vm_first; cbn [negb when].
  - unfold mbind, M_bind, bind. cbn [ret].
    destruct (vms_phase_called w) as (a1 & H1 & HP1).
    destruct (vms_phase w) as [w1 [[]|e]]; simpl in *.
    + destruct (images_phase_called w1) as (a2 & H2 & HP2).
      exists a1, a2. rewrite H2, H1, (assoc_L (++)). by split_and!.
    + exists a1, []. rewrite app_nil_r. split_and!; [done..|].
      by intros e' [= <-].
  - unfold mbind, M_bind, bind.
    destruct (images_phase_called w) as (a1 & H1 & HP1).
    destruct (images_phase w) as [w1 [[]|e]]; simpl in *.
    + destruct (vms_phase_called w1) as (a2 & H2 & HP2).
      exists a1, a2. destruct (vms_phase w1) as [w2 [[]|e2]]; simpl in *;
        rewrite H2, H1, (assoc_L (++)); by split_and!.
    + exists a1, []. rewrite app_nil_r. split_and!; [done..|].
      by intros e' [= <-].
Qed.

End ProcessMore.

(** ** The parallel path: who processes what *)

Section SchedulerMore.
Import ImageSched.

Variable object_params : Params → string → Params.
Variable image_func : Params → string → option Py.exn.
Variable params : Params.
Variable cpu_count : nat.

Local Abbreviation nthreads := (no_threads cpu_count).
Local Abbreviation pstep := (step object_params image_func params cpu_count).
Local Abbreviation prun := (run object_params image_func params cpu_count).
Local Abbreviation progress_of images :=
  (Observe.worker_progress (nthreads images) images).

Lemma called_by_snoc j' j x cs :
  Observe.called_by j' (cs ++ [Call (WorkerThread j) x]) =
  Observe.called_by j' cs ++ (if decide (j' = j) then [x] else []).
Proof.
  unfold Observe.called_by. rewrite filter_app, fmap_app. f_equal.
  rewrite filter_cons. simpl.
  destruct (decide (j' = j)) as [->|Hne].
  - by rewrite decide_True.
  - rewrite decide_False; [done|]. by intros [= ->].
Qed.

Lemma progress_init images : progress_of images (init images).
Proof. split; [done|]. by intros j w ?. Qed.

Lemma progress_main_step images s s' :
  inv cpu_count images s → progress_of images s →
  main_step cpu_count images s = Some s' → progress_of images s'.
Proof.
  intros [_ _ Hm] [Hout Hw]. unfold main_step.
  destruct (main s) as [i| | |] eqn:Hmain; [| |done..].
  - destruct Hm as [Hlen Hi]. case_match; intros [= <-]; [|by split].
    split; simpl.
    + intros j Hj. rewrite length_app in Hj. simpl in Hj. apply Hout. lia.
    + intros j w [Hj|[Hj Hnew]]%lookup_app_Some; [exact (Hw j w Hj)|].
      apply list_lookup_singleton_Some in Hnew as [Hj0 <-]. simpl.
      assert (j = i) as -> by lia. rewrite Hout by lia. done.
  - repeat case_match; intros [= <-]; by split.
Qed.

Lemma progress_worker_step images j s s' :
  progress_of images s →
  worker_step object_params image_func params j s = Some s' →
  progress_of images s'.
Proof.
  intros [Hout Hw]. unfold worker_step.
  destruct (threads s !! j) as [w|] eqn:Hj; [|done].
  assert (Hlt : j < length (threads s)) by by eapply lookup_lt_Some.
  pose proof (Hw j w Hj) as Hwj. cbv zeta in Hwj.
  assert (Hothers : ∀ ev' cs', 
            (∀ j', j' ≠ j → Observe.called_by j' cs' = Observe.called_by j' (calls s)) →
            (exit_event s = true → ev' = true) →
            ∀ j' w', j' ≠ j → threads s !! j' = Some w' →
              let slice := Py.stride j' (nthreads images) images in
              let done := Observe.called_by j' cs' in
              match st w' with
              | Running todo => done ++ todo = slice
              | Checking todo => done ++ todo = slice ∧ done ≠ []
              | Caught _ => done `prefix_of` slice ∧ done ≠ []
              | Finished =>
                  done `prefix_of` slice ∧ (ev' = false → done = slice) ∧
                  (done = [] → slice = [])
              end).
  { intros ev' cs' Hcs Hev j' w' Hne Hj'. cbv zeta. rewrite Hcs by done.
    specialize (Hw j' w' Hj'). cbv zeta in Hw.
    destruct (st w'); try done. destruct Hw as (?&Hfull&?).
    split_and!; [done| |done]. intros ->. apply Hfull.
    destruct (exit_event s); [by discriminate Hev|done]. }
  destruct (st w) as [[|x rest]|rest|e|] eqn:Hst; [..|done].
  - intros [= <-]. split; cbn [threads calls exit_event].
    + intros j' Hj'. rewrite length_insert in Hj'. by apply Hout.
    + intros j' w' [(<- & <- & _)|[Hne Hj']]%list_lookup_insert_Some.
      * cbn [st]. rewrite app_nil_r in Hwj. rewrite Hwj.
        split_and!; [done|done|]. by intros.
      * by apply (Hothers (exit_event s) (calls s)).
  - assert (∀ j', j' ≠ j →
              Observe.called_by j' (calls s ++ [Call (WorkerThread j) x])
              = Observe.called_by j' (calls s)) as Hcs.
    { intros j' Hne. rewrite called_by_snoc, decide_False by done.
      by rewrite app_nil_r. }
    assert (Observe.called_by j (calls s ++ [Call (WorkerThread j) x])
            = Observe.called_by j (calls s) ++ [x]) as Hmine
      by (by rewrite called_by_snoc, decide_True).
    destruct (image_func _ x) as [e|]; intros [= <-];
      (split; cbn [threads calls exit_event];
       [ intros j' Hj'; rewrite length_insert in Hj';
         rewrite Hcs by lia; by apply Hout
       | intros j' w' [(<- & <- & _)|[Hne Hj']]%list_lookup_insert_Some;
         [ cbn [st]; rewrite Hmine
         | by apply (Hothers (exit_event s)) ] ]).
    + split; [|by destruct (Observe.called_by j (calls s))].
      rewrite <- Hwj. apply prefix_app, prefix_cons, prefix_nil.
    + split; [|by destruct (Observe.called_by j (calls s))].
      by rewrite <- (assoc_L (++)).
  - intros [= <-]. split; cbn [threads calls exit_event].
    + intros j' Hj'. rewrite length_insert in Hj'. by apply Hout.
    + intros j' w' [(<- & <- & _)|[Hne Hj']]%list_lookup_insert_Some.
      * cbn [st]. destruct Hwj as [Hsl Hne].
        destruct (exit_event s) eqn:Hev; [|done].
        split_and!; [by eexists|done|done].
      * by apply (Hothers (exit_event s) (calls s)).
  - intros [= <-]. split; cbn [threads calls exit_event].
    + intros j' Hj'. rewrite length_insert in Hj'. by apply Hout.
    + intros j' w' [(<- & <- & _)|[Hne Hj']]%list_lookup_insert_Some.
      * cbn [st]. destruct Hwj as [Hsl Hne]. by split_and!.
      * by apply (Hothers true (calls s)).
Qed.

Lemma progress_reachable images cs :
  progress_of images (prun images cs (init images)).
Proof.
  induction cs as [|c cs IH] using rev_ind; [apply progress_init|].
  rewrite run_app. simpl.
  destruct (pstep images c _) as [s'|] eqn:Hs; simpl; [|done].
  destruct c; simpl in Hs;
    eauto using progress_main_step, progress_worker_step, inv_reachable.
Qed.

(** X13. In the parallel path, under every interleaving: each worker calls
    the image function on images of its own slice only, in the order of
    the slice, each at most once; when the caller returns normally every
    worker has called its whole slice, so that every image has been
    processed exactly once; and when the caller has raised or returned,
    every worker with a non-empty slice has processed at least its first
    image, the event being tested only after an image. *)
Theorem workers_keep_to_their_slices images cs :
  let s := prun images cs (init images) in
  let n := nthreads images in
  (∀ j, Observe.called_by j (calls s) `prefix_of` Py.stride j n images) ∧
  (main s = Returned →
   ∀ j, j < n → Observe.called_by j (calls s) = Py.stride j n images) ∧
  ((main s = Returned ∨ ∃ e, main s = Raise e) →
   ∀ j, j < n → Py.stride j n images ≠ [] →
        Observe.called_by j (calls s) ≠ []).
Proof.
  intros s n. pose proof (progress_reachable images cs) as [Hout Hw].
  pose proof (inv_reachable object_params image_func params cpu_count
                images cs) as Hinv.
  fold s in Hout, Hw, Hinv. fold n in Hw.
  assert (Hfinal : (main s = Returned ∨ ∃ e, main s = Raise e) →
            length (threads s) = n ∧ Forall (λ w, st w = Finished) (threads s)).
  { pose proof (inv_main _ _ _ Hinv) as Hm.
    intros [Hr|[e Hr]]; rewrite Hr in Hm; tauto. }
  split_and!.
  - intros j. destruct (threads s !! j) as [w|] eqn:Hj.
    + specialize (Hw j w Hj). cbv zeta in Hw.
      destruct (st w); try tauto.
      * rewrite <- Hw. by apply prefix_app_r.
      * destruct Hw as [<- _]. by apply prefix_app_r.
    + rewrite Hout; [apply prefix_nil|]. by apply lookup_ge_None.
  - intros Hret j Hj. destruct (Hfinal (or_introl Hret)) as [Hlen Hall].
    destruct (lookup_lt_is_Some_2 (threads s) j) as [w Hjw]; [lia|].
    specialize (Hw j w Hjw). cbv zeta in Hw.
    rewrite (proj1 (Forall_lookup _ _) Hall j w Hjw) in Hw.
    destruct Hw as (_ & Hfull & _). apply Hfull.
    destruct (exit_event s) eqn:Hev; [|done].
    destruct (inv_event _ _ _ Hinv Hev) as (j0 & w0 & Hj0 & _ & Hsome).
    pose proof (inv_main _ _ _ Hinv) as Hm. rewrite Hret in Hm.
    destruct Hm as (_ & _ & Hnone).
    apply (first_exc_info_None object_params image_func params) in Hnone.
    rewrite (proj1 (Forall_lookup _ _) Hnone j0 w0 Hj0) in Hsome.
    by destruct Hsome.
  - intros Hfin j Hj Hne. destruct (Hfinal Hfin) as [Hlen Hall].
    destruct (lookup_lt_is_Some_2 (threads s) j) as [w Hjw]; [lia|].
    specialize (Hw j w Hjw). cbv zeta in Hw.
    rewrite (proj1 (Forall_lookup _ _) Hall j w Hjw) in Hw.
    destruct Hw as (_ & _ & Hempty). auto.
Qed.

End SchedulerMore.

(** ** [preprocess_image]: when an image is created, and when it is
    left alone *)

Section PreprocessImageFacts.
Import Eff ImagePre.

Variable params : Params.

Ltac run_preprocess_image :=
  unfold preprocess_image, call, record, when, raise, gets, modify, mbind,
    M_bind, bind, mret, M_ret, ret.

(** X16. Without [force_create_image = "yes"] the image file is never
    removed, whatever the calls do; and an image file that is there is
    not created again: it is still there afterwards. *)
Theorem no_removal_without_force storage w :
  get params "force_create_image" ≠ Some "yes" →
  let w' := (preprocess_image storage params w).1 in
  ∃ evs, called w' = called w ++ evs ∧
         (Did FileRemove ∉ evs) ∧
         (file_exists w = true →
          (Did Create ∉ evs) ∧ file_exists w' = true).
Proof.
  intros Hforce. destruct w as [present tr].
  run_preprocess_image.
  rewrite (bool_decide_eq_false_2 _ Hforce).
  destruct storage as [fails prepared]. cbn [ImagePre.fails backend_prepared].
  destruct (fails PrepareBackend), (fails Backup), (fails Create), prepared,
    present,
    (bool_decide (get params "create_image" = Some "yes")),
    (bool_decide (get_d params "backup_image_before_testing" "no" = "yes"));
    cbn; rewrite <- ?(assoc_L (++)); cbn;
    (eexists; split; [reflexivity|]; split; [not_in_list|]; intros;
     first [discriminate | split; [not_in_list|done]]).
Qed.

(** X17. When no call raises, the function returns, and the image is
    created exactly when [force_create_image = "yes"], or
    [create_image = "yes"] and the file is missing; the file is removed
    first exactly when creation is forced and the file is there; the
    backup is made exactly when [backup_image_before_testing = "yes"].
    Afterwards the file is there if it was, or was created. *)
Theorem creation_policy storage w :
  (∀ o, fails storage o = None) →
  let force := bool_decide (get params "force_create_image" = Some "yes") in
  let create_image :=
    force || (bool_decide (get params "create_image" = Some "yes")
              && negb (file_exists w)) in
  let run := preprocess_image storage params w in
  run.2 = Ok () ∧
  file_exists run.1 = (file_exists w || create_image) ∧
  ∃ evs, called run.1 = called w ++ evs ∧
         (Did Create ∈ evs ↔ create_image = true) ∧
         (Did FileRemove ∈ evs ↔ force = true ∧ file_exists w = true) ∧
         (Did Backup ∈ evs ↔
          get_d params "backup_image_before_testing" "no" = "yes").
Proof.
  intros Hok. destruct w as [present tr]. cbn zeta.
  run_preprocess_image. rewrite !Hok.
  destruct (backend_prepared storage), present,
    (bool_decide (get params "force_create_image" = Some "yes")),
    (bool_decide (get params "create_image" = Some "yes"));
    case_bool_decide; cbn; rewrite <- ?(assoc_L (++)); cbn;
    (split; [done|]; split; [done|]; eexists; split; [reflexivity|];
     split_and!;
     (split;
      [ intros Hin; first [done | exfalso; revert Hin; not_in_list]
      | intros Hyes; first [by in_list | by destruct Hyes | done] ])).
Qed.

(** X18. A storage backend that cannot be prepared
    ([preprocess_image_backend] gives a false value) only adds one error
    line to the log: the calls, the outcome and the image file are those
    of a run with a prepared backend. *)
Theorem unprepared_backend_is_only_logged fails w :
  fails PrepareBackend = None →
  let bad := preprocess_image (Backend fails false) params w in
  let good := preprocess_image (Backend fails true) params w in
  bad.2 = good.2 ∧ file_exists bad.1 = file_exists good.1 ∧
  ∃ rest,
    called good.1 = called w ++ Did PrepareBackend :: rest ∧
    called bad.1 =
      called w ++ Did PrepareBackend
        :: Logged "error" "Backend can't be prepared correctly." :: rest.
Proof.
  intros Hp. destruct w as [present tr]. cbn zeta.
  run_preprocess_image. cbn [ImagePre.fails backend_prepared]. rewrite Hp.
  destruct (fails Backup), (fails Create), (fails FileRemove), present,
    (bool_decide (get params "force_create_image" = Some "yes")),
    (bool_decide (get params "create_image" = Some "yes")),
    (bool_decide (get_d params "backup_image_before_testing" "no" = "yes"));
    cbn; rewrite <- ?(assoc_L (++)); cbn;
    (split; [done|]; split; [done|]; eexists; split; reflexivity).
Qed.

End PreprocessImageFacts.

(** ** [postprocess_vm]: the sessions that are closed, and when the VM
    is destroyed *)

Section PostprocessVMFacts.
Import Eff VMPost.

Variable closes : nat → bool.
Variable destroy_fails : option Py.exn.
Variable float : string → option Z.
Variable params : Params.

Local Abbreviation postprocess_vm :=
  (VMPost.postprocess_vm closes destroy_fails float params).

(** [vm.remote_sessions] after each session of [l] was closed, or not. *)
Local Abbreviation close_all :=
  (foldl (λ cur s, if closes s then VMPost.list_remove s cur else cur)).

Lemma list_remove_middle s kept rest :
  s ∉ kept → VMPost.list_remove s (kept ++ s :: rest) = kept ++ rest.
Proof.
  induction kept as [|y kept IH]; intros Hnot; simpl.
  - by rewrite decide_True.
  - apply not_elem_of_cons in Hnot as [Hne Hnot].
    rewrite decide_False by done. by rewrite IH.
Qed.

Lemma close_all_filter kept l :
  Forall (λ s, closes s = false) kept →
  close_all (kept ++ l) l = kept ++ filter (λ s, closes s = false) l.
Proof.
  revert kept. induction l as [|s l IH]; intros kept Hkept; simpl.
  - done.
  - destruct (closes s) eqn:Hs.
    + rewrite list_remove_middle.
      * rewrite IH by done. by rewrite filter_cons_False by congruence.
      * intros Hin. rewrite Forall_forall in Hkept.
        apply Hkept in Hin. congruence.
    + rewrite filter_cons_True by done.
      rewrite (cons_middle s kept l), (assoc_L (++)).
      rewrite IH; [by rewrite <- (assoc_L (++))|].
      apply Forall_app. by repeat constructor.
Qed.

Lemma close_loop l cur tr :
  for_each l (λ s,
    try_except
      (record (SessionClose s) ;;
       (if closes s then mret ()
        else raise (Py.Exn "Exception" "close failed")) ;;
       modify (λ w, World (VMPost.list_remove s <$> vm w) (called w)))
      (λ _, mret ())) (World (Some cur) tr)
  = (World (Some (close_all cur l)) (tr ++ (SessionClose <$> l)), Ok ()).
Proof.
  revert cur tr. induction l as [|s l IH]; intros cur tr; simpl.
  - by rewrite app_nil_r.
  - unfold bind at 1, try_except, record, modify, raise, mbind, M_bind, bind,
      mret, M_ret, ret.
    cbn [vm called].
    destruct (closes s); cbn [fmap option_fmap option_map vm called];
      rewrite IH, <- (assoc_L (++)); done.
Qed.

(** After the loop over the sessions, the part on [kill_vm] runs. *)
Lemma postprocess_vm_after_sessions sessions tr :
  postprocess_vm (World (Some sessions) tr) =
  when (bool_decide (get params "kill_vm" = Some "yes"))
    (kill_vm_timeout ←
       match get params "kill_vm_timeout" with
       | None => mret 0%Z
       | Some text =>
           match float text with
           | Some t => mret t
           | None => raise (ValueError text)
           end
       end;
     when (negb (bool_decide (kill_vm_timeout = 0%Z)))
          (record (WaitForDead kill_vm_timeout)) ;;
     record (Destroy (bool_decide
                        (get params "kill_vm_gracefully" = Some "yes"))) ;;
     match destroy_fails with
     | Some e => raise e
     | None => mret ()
     end)
    (World (Some (close_all sessions sessions))
           (tr ++ (SessionClose <$> sessions))).
Proof.
  unfold VMPost.postprocess_vm.
  unfold mbind at 1, M_bind at 1, bind at 1, gets at 1.
  unfold mbind at 1, M_bind at 1, bind at 1.
  cbn beta iota delta [vm]. by rewrite close_loop.
Qed.

Ltac run_postprocess_vm w Hvm :=
  destruct w as [the_vm tr]; cbn [vm] in Hvm; subst the_vm; cbn zeta;
  rewrite !postprocess_vm_after_sessions; cbn [called vm].

(** X19. The sessions whose [close()] raised stay in [vm.remote_sessions], in
    their order; all the others are gone, whatever happens to the VM
    afterwards. *)
Theorem failed_closes_stay w sessions :
  vm w = Some sessions →
  vm (postprocess_vm w).1 = Some (filter (λ s, closes s = false) sessions).
Proof.
  intros Hvm. run_postprocess_vm w Hvm.
  pose proof (close_all_filter [] sessions (Forall_nil_2 _)) as Hleft.
  simpl in Hleft. rewrite <- Hleft.
  unfold when, record, modify, raise, mbind, M_bind, bind, mret, M_ret, ret.
  repeat (case_match; simplify_eq/=; try done).
Qed.

(** X20. Without [kill_vm = "yes"] the VM is neither waited for nor
    destroyed, and the function returns even when sessions fail to
    close: every session is closed once, in order, and nothing else is
    called. *)
Theorem without_kill_vm_only_sessions_are_closed w sessions :
  vm w = Some sessions →
  get params "kill_vm" ≠ Some "yes" →
  (postprocess_vm w).2 = Ok () ∧
  called (postprocess_vm w).1 = called w ++ (SessionClose <$> sessions).
Proof.
  intros Hvm Hkill. run_postprocess_vm w Hvm.
  rewrite (bool_decide_eq_false_2 _ Hkill). by cbn.
Qed.

(** X21. With [kill_vm = "yes"] and a timeout that reads as a number (none
    given reads as zero), the VM is destroyed exactly once, as the last
    call, gracefully if and only if [kill_vm_gracefully = "yes"]; the
    wait for the VM to die comes just before, and only for a timeout that
    is not zero.  What [destroy] raises is raised. *)
Theorem kill_vm_waits_then_destroys w sessions t :
  vm w = Some sessions →
  get params "kill_vm" = Some "yes" →
  match get params "kill_vm_timeout" with
  | None => Some 0%Z
  | Some text => float text
  end = Some t →
  (postprocess_vm w).2 =
    match destroy_fails with Some e => Raised e | None => Ok () end ∧
  called (postprocess_vm w).1 =
    called w ++ (SessionClose <$> sessions)
      ++ (if bool_decide (t = 0%Z) then [] else [WaitForDead t])
      ++ [Destroy (bool_decide (get params "kill_vm_gracefully" = Some "yes"))].
Proof.
  intros Hvm Hkill Ht. run_postprocess_vm w Hvm.
  rewrite (bool_decide_eq_true_2 _ Hkill).
  unfold when, record, modify, raise, mbind, M_bind, bind, mret, M_ret, ret.
  destruct (get params "kill_vm_timeout") as [text|].
  - rewrite Ht. destruct (bool_decide (t = 0%Z)), destroy_fails;
      cbn; rewrite <- ?(assoc_L (++)); done.
  - injection Ht as Ht. subst t.
    rewrite !(bool_decide_eq_true_2 (0%Z = 0%Z)) by done.
    destruct destroy_fails;
      cbn; rewrite <- ?(assoc_L (++)); done.
Qed.

(** X22. A [kill_vm_timeout] that does not read as a number: [ValueError]
    leaves the function after the sessions were closed, and the VM is
    neither waited for nor destroyed. *)
Theorem bad_kill_timeout_leaves_vm w sessions text :
  vm w = Some sessions →
  get params "kill_vm" = Some "yes" →
  get params "kill_vm_timeout" = Some text →
  float text = None →
  (postprocess_vm w).2 = Raised (ValueError text) ∧
  called (postprocess_vm w).1 = called w ++ (SessionClose <$> sessions).
Proof.
  intros Hvm Hkill Htext Hbad. run_postprocess_vm w Hvm.
  rewrite (bool_decide_eq_true_2 _ Hkill).
  unfold when, record, modify, raise, mbind, M_bind, bind, mret, M_ret, ret.
  rewrite Htext, Hbad. by cbn.
Qed.

End PostprocessVMFacts.

(** ** The VMs that [preprocess] drops from the environment *)

Section EnvSweepFacts.
Import Eff EnvSweep.

Variable destroy_fails : string → option Py.exn.
Variable params : Params.

Local Abbreviation requested_vms := (objects params "vms").

Local Abbreviation visit := (EnvSweep.visit destroy_fails params).

(** One key of the loop: the environment stays, or loses this key, which
    held a VM that is not asked for. *)
Lemma visit_env key w :
  env (visit key w).1 = env w ∨
  (env (visit key w).1 = delete key (env w) ∧
   ∃ name, env w !! key = Some (VM name) ∧ name ∉ requested_vms).
Proof.
  unfold EnvSweep.visit, when, gets, modify, raise, mbind, M_bind, bind, mret,
    M_ret, ret.
  destruct (env w !! key) as [[name|]|] eqn:Hkey; cbn; auto.
  unfold Py.mem. case_bool_decide; cbn; auto.
  destruct (destroy_fails name); cbn; eauto.
Qed.

Lemma loop_env keys w k :
  env (for_each keys visit w).1 !! k = env w !! k ∨
  (env (for_each keys visit w).1 !! k = None ∧
   ∃ name, env w !! k = Some (VM name) ∧ name ∉ requested_vms).
Proof.
  revert w. induction keys as [|key keys IH]; intros w; [by left|].
  cbn [for_each]. unfold bind.
  pose proof (visit_env key w) as Hstep.
  destruct (visit key w) as [w1 [[]|e]] eqn:Hrun; cbn [fst] in Hstep.
  - destruct (IH w1) as [Hsame|[Hnone (name & Hname & Hreq)]].
    + rewrite Hsame.
      destruct Hstep as [->|[-> (name & Hname & Hreq)]]; [by left|].
      destruct (decide (key = k)) as [<-|Hne].
      * right. rewrite lookup_delete_eq. eauto.
      * left. by rewrite lookup_delete_ne.
    + right. split; [done|]. exists name. split; [|done].
      destruct Hstep as [Heq|[Heq _]]; rewrite Heq in Hname; [done|].
      apply lookup_delete_Some in Hname as [_ Hname]. done.
  - cbn [fst].
    destruct Hstep as [->|[-> (name & Hname & Hreq)]]; [by left|].
    destruct (decide (key = k)) as [<-|Hne].
    + right. rewrite lookup_delete_eq. eauto.
    + left. by rewrite lookup_delete_ne.
Qed.

(** X23. Whatever [destroy] raises on the way, the loop only ever takes away
    VMs that are not in [vms]: every other entry, VM or not, is still
    there under its key, and nothing is added. *)
Theorem only_unrequested_vms_are_dropped w k :
  let w' := (remove_unrequested_vms destroy_fails params w).1 in
  env w' !! k = env w !! k ∨
  (env w' !! k = None ∧
   ∃ name, env w !! k = Some (VM name) ∧ name ∉ objects params "vms").
Proof. apply loop_env. Qed.

(** The VMs of the keys [keys] that are not asked for, in that order. *)
Local Abbreviation unrequested_at :=
  (λ (m : gmap string entry),
     omap (λ key, match m !! key with
                  | Some (VM name) =>
                      if Py.mem name requested_vms then None else Some name
                  | _ => None
                  end)).

Lemma loop_sound keys w :
  (∀ name, destroy_fails name = None) →
  NoDup keys →
  (∀ key, key ∈ keys → is_Some (env w !! key)) →
  ∃ w', for_each keys visit w = (w', Ok ()) ∧
        (∀ k, env w' !! k =
              if decide (k ∈ keys)
              then e ← env w !! k; if wanted requested_vms e then Some e else None
              else env w !! k) ∧
        destroyed w' = destroyed w ++ unrequested_at (env w) keys.
Proof.
  intros Hok. revert w.
  induction keys as [|key keys IH]; intros w Hnodup Hin.
  - exists w. split_and!; [done|done|by rewrite app_nil_r].
  - apply NoDup_cons in Hnodup as [Hfresh Hnodup].
    cbn [for_each omap list_omap]. unfold bind at 1.
    destruct (Hin key) as [e He]; [by left|].
    assert (∀ w1, (∀ k, k ≠ key → env w1 !! k = env w !! k) →
                  ∀ k, k ∈ keys → is_Some (env w1 !! k)) as Hin1.
    { intros w1 Hw1 k Hk. rewrite Hw1 by (by intros ->).
      apply Hin. by right. }
    assert (∀ w1, (∀ k, k ≠ key → env w1 !! k = env w !! k) →
                  unrequested_at (env w1) keys = unrequested_at (env w) keys)
      as Hnames.
    { intros w1 Hw1. apply list_omap_ext. apply Forall2_same_length_lookup_2;
        [done|]. intros i k k' Hk Hk'. simplify_eq.
      rewrite Hw1; [done|]. intros ->. apply Hfresh.
      by eapply list_elem_of_lookup_2. }
    unfold EnvSweep.visit, when, gets, modify, raise, mbind, M_bind, bind,
      mret, M_ret, ret.
    rewrite He. destruct e as [name|]; cbn.
    + unfold Py.mem. case_bool_decide as Hreq; cbn.
      * destruct (IH w Hnodup (Hin1 w (λ _ _, eq_refl)))
          as (w' & Hrun & Henv & Hnames').
        exists w'. split_and!; [done| |done].
        intros k. rewrite Henv. destruct (decide (k = key)) as [->|Hne].
        -- rewrite decide_False by done. rewrite decide_True by (by left).
           rewrite He. cbn. unfold Py.mem. by rewrite bool_decide_eq_true_2.
        -- rewrite (decide_ext (k ∈ key :: keys) (k ∈ keys))
             by (rewrite elem_of_cons; tauto). done.
      * rewrite Hok. cbn.
        set (w1 := World (delete key (env w)) (destroyed w ++ [name])).
        assert (∀ k, k ≠ key → env w1 !! k = env w !! k) as Hw1
          by (intros k Hk; by apply lookup_delete_ne).
        destruct (IH w1 Hnodup (Hin1 w1 Hw1)) as (w' & Hrun & Henv & Hnames').
        exists w'. split_and!; [done| |].
        -- intros k. rewrite Henv. destruct (decide (k = key)) as [->|Hne].
           ++ rewrite decide_False by done. rewrite decide_True by (by left).
              rewrite He. cbn. unfold Py.mem.
              rewrite bool_decide_eq_false_2 by done.
              apply lookup_delete_eq.
           ++ rewrite Hw1 by done.
              rewrite (decide_ext (k ∈ key :: keys) (k ∈ keys))
             by (rewrite elem_of_cons; tauto). done.
        -- rewrite Hnames', (Hnames w1 Hw1). cbn [destroyed w1].
           by rewrite <- (assoc_L (++)).
    + destruct (IH w Hnodup (Hin1 w (λ _ _, eq_refl)))
        as (w' & Hrun & Henv & Hnames').
      exists w'. split_and!; [done| |done].
      intros k. rewrite Henv. destruct (decide (k = key)) as [->|Hne].
      * rewrite decide_False by done. rewrite decide_True by (by left).
        by rewrite He.
      * rewrite (decide_ext (k ∈ key :: keys) (k ∈ keys))
             by (rewrite elem_of_cons; tauto). done.
Qed.

(** X24. When no [destroy] raises, what is left of the environment is
    exactly its entries that are not VMs or whose VM is in [vms], and
    [destroy] was called on exactly the VMs that are not in [vms]. *)
Theorem only_requested_vms_remain w :
  (∀ name, destroy_fails name = None) →
  let run := remove_unrequested_vms destroy_fails params w in
  run.2 = Ok () ∧
  env run.1 =
    filter (λ kv, wanted (objects params "vms") kv.2 = true) (env w) ∧
  ∃ names, destroyed run.1 = destroyed w ++ names ∧
    ∀ name, name ∈ names ↔
      (∃ key, env w !! key = Some (VM name)) ∧ name ∉ objects params "vms".
Proof.
  intros Hok run. subst run.
  change (remove_unrequested_vms destroy_fails params w)
    with (for_each (map_to_list (env w)).*1 visit w).
  destruct (loop_sound (map_to_list (env w)).*1 w Hok) as (w' & -> & Henv & Hd).
  { apply NoDup_fst_map_to_list. }
  { intros key Hkey. apply list_elem_of_fmap in Hkey as ([k e] & -> & Hkey).
    apply elem_of_map_to_list in Hkey. by exists e. }
  cbn [fst snd]. split; [done|]. split.
  - apply map_eq. intros k. rewrite Henv.
    destruct (env w !! k) as [e|] eqn:Hk.
    + rewrite decide_True.
      2:{ apply list_elem_of_fmap. exists (k, e). split; [done|].
          by apply elem_of_map_to_list. }
      cbn. destruct (wanted (objects params "vms") e) eqn:Hw; symmetry.
      * by apply map_lookup_filter_Some.
      * apply map_lookup_filter_None. right. intros e' He'. cbn.
        simplify_eq. congruence.
    + case_decide; cbn; symmetry; apply map_lookup_filter_None; by left.
  - eexists. split; [exact Hd|]. intros name.
    rewrite list_elem_of_omap. split.
    + intros (key & Hkey & Hname).
      destruct (env w !! key) as [[name'|]|] eqn:Hk; try done.
      unfold Py.mem in Hname. case_bool_decide; simplify_eq. eauto.
    + intros ((key & Hkey) & Hreq). exists key. split.
      * apply list_elem_of_fmap. exists (key, VM name). split; [done|].
        by apply elem_of_map_to_list.
      * rewrite Hkey. unfold Py.mem. by rewrite bool_decide_eq_false_2.
Qed.

End EnvSweepFacts.

(** ** The end of [postprocess]: cleanup goes on after a failure *)

Lemma string_app_empty (s t : string) : s +:+ t = "" → s = "".
Proof. by destruct s. Qed.

Lemma allowed_mono ops ops' ev :
  ops ⊆ ops' → PostCleanup.allowed ops ev → PostCleanup.allowed ops' ev.
Proof. intros Hsub. destruct ev; cbn; [apply Hsub|done]. Qed.

Ltac run_block :=
  unfold PostCleanup.collecting, PostCleanup.call, PostCleanup.log,
    PostCleanup.record, PostCleanup.add_err, Eff.try_except, Eff.when,
    Eff.raise, Eff.gets, Eff.modify, mbind, Eff.M_bind, Eff.bind, mret,
    Eff.M_ret, Eff.ret.

Ltac close_due :=
  let o := fresh "o" in
  let Hin := fresh "Hin" in
  intros o Hin;
  first
    [ by apply elem_of_nil in Hin
    | apply list_elem_of_singleton in Hin; subst o;
      split;
      [ in_list
      | first [done | intros _; by destruct (PostCleanup.err _)] ] ].

Ltac close_clean :=
  first
    [ done
    | let Hclean := fresh in
      intros _ Hclean;
      match goal with
      | Ho : ?f ?o = Some _ |- _ =>
          rewrite Hclean in Ho by in_list; discriminate Ho
      end ].

Ltac close_block :=
  eexists _, _; split; [reflexivity|];
  cbn [PostCleanup.err PostCleanup.kernel_modified PostCleanup.called];
  split; [done|];
  split; [first [symmetry; apply app_nil_r
                | rewrite <- ?(assoc_L (++)); reflexivity]|];
  cbn [PostCleanup.err PostCleanup.kernel_modified PostCleanup.called];
  split; [repeat constructor|];
  split; [first [done | apply string_app_empty]|];
  split; [close_due | close_clean].

Section PostCleanupBlocks.
Import Eff PostCleanup.

Variable fails : op → option Py.exn.
Variable object_params : Params → string → Params.
Variable int : string → option Z.
Variable bindir : string.
Variable params : Params.

Lemma collecting_call_ok (c : bool) label o :
  block_ok fails True (if c then [o] else []) [o]
    (when c (collecting label (call fails o))).
Proof.
  intros w. run_block.
  destruct c, (fails o) as [e|] eqn:Ho; cbn; close_block.
Qed.

Lemma cleanup_hugepages_ok :
  block_ok fails True
    (if bool_decide (get params "setup_hugepages" = Some "yes")
     then [HugePageCleanup] else [])
    [HugePageCleanup; LibvirtdRestart]
    (cleanup_hugepages fails params).
Proof.
  intros w. unfold cleanup_hugepages. run_block.
  destruct (bool_decide (get params "setup_hugepages" = Some "yes")),
    (fails HugePageCleanup) as [e|] eqn:Ho,
    (bool_decide (get params "vm_type" = Some "libvirt")),
    (fails LibvirtdRestart) as [e'|] eqn:Ho'; cbn; close_block.
Qed.

Lemma cleanup_polkit_ok :
  block_ok fails True
    (if bool_decide (get params "vm_type" = Some "libvirt")
        && bool_decide (get params "setup_libvirt_polkit" = Some "yes")
     then [PolkitCleanup] else [])
    [PolkitCleanup; LibvirtdRestart]
    (cleanup_polkit fails params).
Proof.
  intros w. unfold cleanup_polkit. run_block.
  destruct (bool_decide (get params "vm_type" = Some "libvirt")),
    (bool_decide (get params "setup_libvirt_polkit" = Some "yes")),
    (fails PolkitCleanup) as [e|] eqn:Ho,
    (fails LibvirtdRestart) as [e'|] eqn:Ho'; cbn;
    repeat case_bool_decide; cbn; close_block.
Qed.

Lemma cleanup_nfs_ok :
  block_ok fails True
    (if bool_decide (get params "storage_type" = Some "nfs")
     then [NfsCleanup] else [])
    [NfsCleanup]
    (cleanup_nfs fails params).
Proof.
  intros w. unfold cleanup_nfs. run_block.
  destruct (bool_decide (get params "storage_type" = Some "nfs")),
    (fails NfsCleanup) as [e|] eqn:Ho; cbn; close_block.
Qed.

Lemma cleanup_private_bridge_ok :
  block_ok fails True
    (if (private_bridge object_params params).1
     then [BridgeCleanup (private_bridge object_params params).2] else [])
    [BridgeCleanup (private_bridge object_params params).2]
    (cleanup_private_bridge fails object_params params).
Proof.
  unfold cleanup_private_bridge.
  destruct (private_bridge object_params params) as [setup_pb ovs_pb].
  apply collecting_call_ok.
Qed.

Lemma cleanup_lvm_ok :
  (get params "storage_type" = Some "lvm" →
   ∃ v, params !! "main_vm" = Some v ∧
        fails (UnregisterLvmdev ("lvm_" +:+ v)) = None) →
  block_ok fails True
    (if bool_decide (get params "storage_type" = Some "lvm")
     then match params !! "main_vm" with
          | Some v => [GetLvmdev ("lvm_" +:+ v)]
          | None => []
          end
     else [])
    (match params !! "main_vm" with
     | Some v => [GetLvmdev ("lvm_" +:+ v); LvmCleanup;
                  UnregisterLvmdev ("lvm_" +:+ v)]
     | None => []
     end)
    (cleanup_lvm fails params).
Proof.
  intros Hlvm w. unfold cleanup_lvm, lvm_name. run_block.
  case_bool_decide as Hst; cbn.
  - destruct (Hlvm Hst) as (v & -> & Hun). cbn. rewrite Hun.
    destruct (fails (GetLvmdev ("lvm_" +:+ v))) as [e|] eqn:Ho,
      (fails LvmCleanup) as [e'|] eqn:Ho'; cbn; close_block.
  - close_block.
Qed.

End PostCleanupBlocks.

Section PostCleanupFacts.
Import Eff PostCleanup.

Variable fails : op → option Py.exn.
Variable object_params : Params → string → Params.
Variable int : string → option Z.
Variable bindir : string.
Variable params : Params.

Local Abbreviation postprocess_cleanup :=
  (PostCleanup.postprocess_cleanup fails object_params int bindir params).
Local Abbreviation due_cleanups :=
  (PostCleanup.due_cleanups object_params params).
Local Abbreviation report := (PostCleanup.report fails params).

(** The calls of [process_command]. *)
Local Abbreviation putenv_ops :=
  (fmap (M := list)
     (λ kv : string * string, Putenv ("KVM_TEST_" +:+ kv.1) kv.2)).
Local Abbreviation command_ops command :=
  (putenv_ops (map_to_list params)
     ++ [System ("cd " +:+ bindir +:+ "; " +:+ command)]).

Lemma extends_trans s1 s2 d1 d2 o1 o2 w w1 w2 evs1 evs2 :
  extends fails s1 d1 o1 w w1 evs1 →
  extends fails s2 d2 o2 w1 w2 evs2 →
  extends fails (s1 ∧ s2) (d1 ++ d2) (o1 ++ o2) w w2 (evs1 ++ evs2).
Proof.
  intros (Hc1 & Ha1 & Hm1 & Hd1 & Hs1) (Hc2 & Ha2 & Hm2 & Hd2 & Hs2).
  split_and!.
  - by rewrite Hc2, Hc1, (assoc_L (++)).
  - apply Forall_app. split.
    + eapply Forall_impl; [exact Ha1|]. intros ev. apply allowed_mono.
      intros o Ho. apply elem_of_app. by left.
    + eapply Forall_impl; [exact Ha2|]. intros ev. apply allowed_mono.
      intros o Ho. apply elem_of_app. by right.
  - auto.
  - intros o Ho. apply elem_of_app in Ho as [Ho|Ho].
    + destruct (Hd1 o Ho) as [Hin Hfail]. split.
      * apply elem_of_app. by left.
      * intros Hf Hempty. by apply (Hfail Hf), Hm2.
    + destruct (Hd2 o Ho) as [Hin Hfail]. split; [|done].
      apply elem_of_app. by right.
  - intros [H1 H2] Hok. rewrite Hs2, Hs1; try done.
    + intros o Ho. apply Hok, elem_of_app. by left.
    + intros o Ho. apply Hok, elem_of_app. by right.
Qed.

Lemma runs_into_refl k : runs_into fails True [] [] k k.
Proof.
  intros w. exists w, []. unfold extends. split_and!; try done.
  - by rewrite app_nil_r.
  - intros o Ho. by apply elem_of_nil in Ho.
Qed.

Lemma runs_into_step s1 s2 d1 d2 o1 o2 (b m k : M world unit) :
  block_ok fails s1 d1 o1 b →
  runs_into fails s2 d2 o2 m k →
  runs_into fails (s1 ∧ s2) (d1 ++ d2) (o1 ++ o2) (b ;; m) k.
Proof.
  intros Hb Hm w.
  destruct (Hb w) as (w1 & evs1 & Hrun1 & Hkm1 & Hext1).
  destruct (Hm w1) as (w2 & evs2 & Hrun2 & Hkm2 & Hext2).
  exists w2, (evs1 ++ evs2). split_and!.
  - unfold mbind, M_bind, bind. by rewrite Hrun1.
  - congruence.
  - by eapply extends_trans.
Qed.

Lemma call_spec o w :
  call fails o w =
  (World (err w) (kernel_modified w) (called w ++ [Did o]),
   match fails o with Some e => Raised e | None => Ok () end).
Proof. run_block. by destruct (fails o). Qed.

(** The loop over the parameters at the head of [process_command]. *)
Lemma putenv_loop l w :
  ∃ w' r evs,
    for_each l (λ kv, call fails (Putenv ("KVM_TEST_" +:+ kv.1) kv.2)) w
      = (w', r) ∧
    err w' = err w ∧ kernel_modified w' = kernel_modified w ∧
    called w' = called w ++ evs ∧
    Forall (allowed (putenv_ops l)) evs ∧
    ((∀ o, o ∈ putenv_ops l → fails o = None) → r = Ok ()).
Proof.
  revert w. induction l as [|[k v] l IH]; intros w.
  - exists w, (Ok ()), []. split_and!; try done. by rewrite app_nil_r.
  - cbn [for_each fmap list_fmap fst snd]. unfold bind at 1.
    rewrite call_spec.
    destruct (fails (Putenv ("KVM_TEST_" +:+ k) v)) as [e|] eqn:Ho.
    + eexists _, _, [_]. split_and!; try done.
      * repeat constructor.
      * intros Hok. rewrite Hok in Ho by in_list. discriminate Ho.
    + destruct (IH (World (err w) (kernel_modified w)
                      (called w ++ [Did (Putenv ("KVM_TEST_" +:+ k) v)])))
        as (w' & r & evs & -> & Herr & Hkm & Hcalled & Hall & Hok).
      cbn in Herr, Hkm, Hcalled.
      eexists w', r, (_ :: evs). split_and!; try done.
      * by rewrite Hcalled, <- (assoc_L (++)).
      * constructor; [by left|].
        eapply Forall_impl; [exact Hall|]. intros ev. apply allowed_mono.
        intros o Hin. by right.
      * intros Hall'. apply Hok. intros o Hin. apply Hall'. by right.
Qed.

Lemma process_command_spec command t noncritical w :
  ∃ w' r evs,
    process_command fails bindir params command t noncritical w = (w', r) ∧
    err w' = err w ∧ kernel_modified w' = kernel_modified w ∧
    called w' = called w ++ evs ∧
    Forall (allowed (command_ops command)) evs ∧
    ((∀ o, o ∈ command_ops command → fails o = None) → r = Ok ()).
Proof.
  unfold process_command.
  destruct (putenv_loop (map_to_list params) w)
    as (w1 & r & evs & Hrun & Herr & Hkm & Hcalled & Hall & Hok).
  unfold mbind at 1, M_bind at 1, bind at 1. rewrite Hrun.
  assert (Forall (allowed (command_ops command)) evs) as Hall'.
  { eapply Forall_impl; [exact Hall|]. intros ev. apply allowed_mono.
    intros o Hin. apply elem_of_app. by left. }
  destruct r as [[]|e].
  - unfold try_except. rewrite call_spec.
    set (sys := System ("cd " +:+ bindir +:+ "; " +:+ command)).
    assert (sys ∈ command_ops command) as Hsys
      by (apply elem_of_app; right; by left).
    destruct (fails sys) as [e|] eqn:Ho.
    + assert (((∀ o, o ∈ command_ops command → fails o = None) →
               ∀ r : result (), r = Ok ())) as Hno.
      { intros Hok'. rewrite Hok' in Ho by done. discriminate Ho. }
      destruct (bool_decide (Py.exc_class e = "CmdError")), noncritical;
        unfold log, record, modify, raise; cbn;
        first
          [ exists (World (err w1) (kernel_modified w1)
                      ((called w1 ++ [Did sys])
                         ++ [Logged "warn" (Py.message e)])), (Ok ()),
              (evs ++ [Did sys; Logged "warn" (Py.message e)]);
            split; [reflexivity|]
          | exists (World (err w1) (kernel_modified w1)
                      (called w1 ++ [Did sys])), (Raised e),
              (evs ++ [Did sys]);
            split; [reflexivity|] ];
        cbn [PostCleanup.err PostCleanup.kernel_modified PostCleanup.called];
        (split; [done|]; split; [done|];
         split; [rewrite Hcalled, <- ?(assoc_L (++)); reflexivity|];
         split;
         [ apply Forall_app; split; [done|];
           repeat (apply Forall_cons_2; [first [exact Hsys | exact I]|]);
           apply Forall_nil_2
         | first [done | intros Hok'; by apply Hno] ]).
    + exists (World (err w1) (kernel_modified w1) (called w1 ++ [Did sys])),
        (Ok ()), (evs ++ [Did sys]).
      split; [reflexivity|].
      cbn [PostCleanup.err PostCleanup.kernel_modified PostCleanup.called].
      split_and!; try done.
      * by rewrite Hcalled, <- (assoc_L (++)).
      * apply Forall_app. split; [done|].
        apply Forall_cons_2; [exact Hsys|apply Forall_nil_2].
  - exists w1, (Raised e), evs. split_and!; try done.
    intros Hok'. apply Hok. intros o Hin. apply Hok', elem_of_app. by left.
Qed.

Lemma run_post_command_ok :
  block_ok fails
    (int (get_d params "post_command_timeout" "600") ≠ None) []
    (command_ops (get_d params "post_command" ""))
    (run_post_command fails int bindir params).
Proof.
  intros w. unfold run_post_command.
  destruct (truthy (get params "post_command")); cbn [when].
  2:{ exists w, []. unfold extends. split_and!; try done.
      - by rewrite app_nil_r.
      - intros o Ho. by apply elem_of_nil in Ho. }
  unfold try_except, mbind at 1, M_bind at 1, bind at 1.
  destruct (int (get_d params "post_command_timeout" "600")) as [t|]; cbn.
  - destruct (process_command_spec (get_d params "post_command" "") t
                (bool_decide (get params "post_command_noncritical" = Some "yes"))
                w)
      as (w1 & r & evs & -> & Herr & Hkm & Hcalled & Hall & Hok).
    destruct r as [[]|e].
    + exists w1, evs. unfold extends. split_and!; try done.
      * by rewrite Herr.
      * intros o Ho. by apply elem_of_nil in Ho.
    + run_block. cbn. eexists _, (evs ++ [_]). split; [reflexivity|].
      unfold extends.
      cbn [PostCleanup.err PostCleanup.kernel_modified PostCleanup.called].
      split_and!; try done.
      * by rewrite Hcalled, <- (assoc_L (++)).
      * apply Forall_app. split; [done|]. by repeat constructor.
      * rewrite Herr. apply string_app_empty.
      * intros o Ho. by apply elem_of_nil in Ho.
      * intros _ Hok'. by specialize (Hok Hok').
  - run_block. cbn. eexists _, [_]. split; [reflexivity|].
    unfold extends.
    cbn [PostCleanup.err PostCleanup.kernel_modified PostCleanup.called].
    split_and!; try done.
    + by repeat constructor.
    + apply string_app_empty.
    + intros o Ho. by apply elem_of_nil in Ho.
Qed.

(** Restoring the kernel command line, when it is not due or does not
    raise. *)
Lemma restore_kernel_ok w :
  kernel_modified w = false ∨
  get_d params "restore_kernel_cmd" "yes" ≠ "yes" ∨
  fails KernelRestore = None →
  ∃ w' evs,
    restore_kernel fails params w = (w', Ok ()) ∧
    err w' = err w ∧ called w' = called w ++ evs.
Proof.
  intros Hk. unfold restore_kernel. run_block.
  destruct (kernel_modified w) eqn:Hkm; cbn.
  - case_bool_decide as Hr; cbn.
    + destruct Hk as [?|[?|Hkr]]; try done. rewrite Hkr. cbn.
      eexists _, _. split; [reflexivity|]. cbn.
      split; [done|]. by rewrite <- (assoc_L (++)).
    + exists w, []. by rewrite app_nil_r.
  - exists w, []. by rewrite app_nil_r.
Qed.

(** The host tuning cleanup always gets as far as the kernel command
    line. *)
Lemma tuning_runs_into_restore k :
  runs_into fails (True ∧ True ∧ True ∧ True ∧ True ∧ True)
    ((if bool_decide (get params "setup_hugepages" = Some "yes")
      then [HugePageCleanup] else []) ++
     (if bool_decide (get params "setup_thp" = Some "yes")
      then [THPCleanup] else []) ++
     (if bool_decide (get params "setup_ksm" = Some "yes")
      then [KSMCleanup] else []) ++
     (if bool_decide (get params "setup_egd" = Some "yes")
         && bool_decide (get params "kill_vm" = Some "yes")
      then [EGDCleanup] else []) ++
     (if bool_decide (get params "vm_type" = Some "libvirt")
         && bool_decide (get params "setup_libvirt_polkit" = Some "yes")
      then [PolkitCleanup] else []) ++ [])
    ([HugePageCleanup; LibvirtdRestart] ++ [THPCleanup] ++ [KSMCleanup]
       ++ [EGDCleanup] ++ [PolkitCleanup; LibvirtdRestart] ++ [])
    (cleanup_hugepages fails params ;;
     cleanup_thp fails params ;;
     cleanup_ksm fails params ;;
     cleanup_egd fails params ;;
     cleanup_polkit fails params ;;
     k)
    k.
Proof.
  apply runs_into_step; [apply cleanup_hugepages_ok|].
  apply runs_into_step; [apply collecting_call_ok|].
  apply runs_into_step; [apply collecting_call_ok|].
  apply runs_into_step; [apply collecting_call_ok|].
  apply runs_into_step; [apply cleanup_polkit_ok|].
  apply runs_into_refl.
Qed.


(** The post command and the storage cleanup always get as far as the
    report. *)
Lemma storage_runs_into_report k :
  (get params "storage_type" = Some "lvm" →
   ∃ v, params !! "main_vm" = Some v ∧
        fails (UnregisterLvmdev ("lvm_" +:+ v)) = None) →
  runs_into fails
    (int (get_d params "post_command_timeout" "600") ≠ None
     ∧ True ∧ True ∧ True ∧ True ∧ True)
    ([] ++
     (if bool_decide (get params "storage_type" = Some "iscsi")
      then [IscsiCleanup] else []) ++
     (if bool_decide (get params "storage_type" = Some "lvm")
      then match params !! "main_vm" with
           | Some v => [GetLvmdev ("lvm_" +:+ v)]
           | None => []
           end
      else []) ++
     (if bool_decide (get params "storage_type" = Some "nfs")
      then [NfsCleanup] else []) ++
     (if (private_bridge object_params params).1
      then [BridgeCleanup (private_bridge object_params params).2] else [])
     ++ [])
    (command_ops (get_d params "post_command" "") ++ [IscsiCleanup] ++
     (match params !! "main_vm" with
      | Some v => [GetLvmdev ("lvm_" +:+ v); LvmCleanup;
                   UnregisterLvmdev ("lvm_" +:+ v)]
      | None => []
      end) ++ [NfsCleanup]
       ++ [BridgeCleanup (private_bridge object_params params).2] ++ [])
    (run_post_command fails int bindir params ;;
     cleanup_iscsi fails params ;;
     cleanup_lvm fails params ;;
     cleanup_nfs fails params ;;
     cleanup_private_bridge fails object_params params ;;
     k)
    k.
Proof.
  intros Hlvm.
  apply runs_into_step; [apply run_post_command_ok|].
  apply runs_into_step; [apply collecting_call_ok|].
  apply runs_into_step; [by apply cleanup_lvm_ok|].
  apply runs_into_step; [apply cleanup_nfs_ok|].
  apply runs_into_step; [apply cleanup_private_bridge_ok|].
  apply runs_into_refl.
Qed.

(** What [report] adds. *)
Lemma report_spec w :
  err (report w).1 = err w ∧
  (∃ tail, called (report w).1 = called w ++ tail) ∧
  (err w ≠ "" → (report w).2 = Raised (VMError (err w))) ∧
  (err w = "" → fails VerifyHostDmesg = None → (report w).2 = Ok ()).
Proof.
  unfold PostCleanup.report. run_block.
  case_bool_decide as Herr; [case_bool_decide|];
    [destruct (fails VerifyHostDmesg)|..]; cbn;
    (split_and!; try done; try by eexists [_]);
    exists []; by rewrite app_nil_r.
Qed.

(** The whole cleanup gets as far as the report, whatever raises on the
    way, when restoring the kernel command line does not raise and the
    LVM device can be unregistered. *)
Lemma cleanup_reaches_report w :
  (kernel_modified w = false ∨
   get_d params "restore_kernel_cmd" "yes" ≠ "yes" ∨
   fails KernelRestore = None) →
  (get params "storage_type" = Some "lvm" →
   ∃ v, params !! "main_vm" = Some v ∧
        fails (UnregisterLvmdev ("lvm_" +:+ v)) = None) →
  ∃ w' evs,
    postprocess_cleanup w = report w' ∧
    called w' = called w ++ evs ∧
    (err w' = "" → err w = "") ∧
    (∀ o, o ∈ due_cleanups →
          Did o ∈ evs ∧ (fails o ≠ None → err w' ≠ "")) ∧
    (int (get_d params "post_command_timeout" "600") ≠ None →
     (∀ o, fails o = None) → err w' = err w).
Proof.
  intros Hk Hlvm.
  unfold PostCleanup.postprocess_cleanup.
  destruct (tuning_runs_into_restore
              (restore_kernel fails params ;;
               run_post_command fails int bindir params ;;
               cleanup_iscsi fails params ;;
               cleanup_lvm fails params ;;
               cleanup_nfs fails params ;;
               cleanup_private_bridge fails object_params params ;;
               report) w)
    as (w1 & evs1 & -> & Hkm1 & Hc1 & _ & Hm1 & Hd1 & Hs1).
  rewrite <- Hkm1 in Hk.
  destruct (restore_kernel_ok w1 Hk) as (w2 & evs2 & Hrun2 & Herr2 & Hc2).
  unfold mbind at 1, M_bind at 1, bind at 1. rewrite Hrun2.
  destruct (storage_runs_into_report report Hlvm w2)
    as (w3 & evs3 & -> & Hkm3 & Hc3 & _ & Hm3 & Hd3 & Hs3).
  exists w3, (evs1 ++ evs2 ++ evs3). split_and!.
  - done.
  - by rewrite Hc3, Hc2, Hc1, <- !(assoc_L (++)).
  - intros Hempty. apply Hm1. rewrite <- Herr2. by apply Hm3.
  - intros o Ho. unfold PostCleanup.due_cleanups in Ho.
    rewrite !(assoc_L (++)) in Ho.
    repeat (apply elem_of_app in Ho as [Ho|Ho]).
    1-5: (destruct (Hd1 o) as [Hin Hfail];
          [rewrite !elem_of_app; tauto|];
          split; [apply elem_of_app; by left|];
          intros Hf Hempty; apply (Hfail Hf); rewrite <- Herr2;
          by apply Hm3).
    all: (destruct (Hd3 o) as [Hin Hfail];
          [rewrite !elem_of_app; tauto|];
          split; [|done]; rewrite !elem_of_app; tauto).
  - intros Hint Hok. rewrite Hs3, Herr2, Hs1; by auto.
Qed.

(** X25. Whatever the cleanup calls raise, every piece of cleanup that the
    parameters ask for is still called, when restoring the kernel
    command line does not raise (or is not due) and the LVM device can
    be unregistered: a failure of one piece does not stop the others. *)
Theorem cleanup_goes_on_after_failures w :
  (kernel_modified w = false ∨
   get_d params "restore_kernel_cmd" "yes" ≠ "yes" ∨
   fails KernelRestore = None) →
  (get params "storage_type" = Some "lvm" →
   ∃ v, params !! "main_vm" = Some v ∧
        fails (UnregisterLvmdev ("lvm_" +:+ v)) = None) →
  ∃ evs, called (postprocess_cleanup w).1 = called w ++ evs ∧
         ∀ o, o ∈ due_cleanups → Did o ∈ evs.
Proof.
  intros Hk Hlvm.
  destruct (cleanup_reaches_report w Hk Hlvm)
    as (w' & evs & -> & Hc & _ & Hd & _).
  destruct (report_spec w') as (_ & (tail & ->) & _).
  exists (evs ++ tail). split; [by rewrite Hc, (assoc_L (++))|].
  intros o Ho. apply elem_of_app. left. by apply Hd.
Qed.

(** X26. Under the same conditions, a failure is not lost: when [err] came
    in with something in it, or one of the pieces of cleanup that are
    due raises, the function ends by raising [VMError] with what was
    collected. *)
Theorem cleanup_failures_are_raised w :
  (kernel_modified w = false ∨
   get_d params "restore_kernel_cmd" "yes" ≠ "yes" ∨
   fails KernelRestore = None) →
  (get params "storage_type" = Some "lvm" →
   ∃ v, params !! "main_vm" = Some v ∧
        fails (UnregisterLvmdev ("lvm_" +:+ v)) = None) →
  err w ≠ "" ∨ (∃ o, o ∈ due_cleanups ∧ fails o ≠ None) →
  err (postprocess_cleanup w).1 ≠ "" ∧
  (postprocess_cleanup w).2 = Raised (VMError (err (postprocess_cleanup w).1)).
Proof.
  intros Hk Hlvm Hfailed.
  destruct (cleanup_reaches_report w Hk Hlvm)
    as (w' & evs & -> & Hc & Hm & Hd & _).
  destruct (report_spec w') as (-> & _ & Hraise & _).
  assert (err w' ≠ "") as Herr.
  { destruct Hfailed as [Hw|(o & Ho & Hf)]; [by auto|].
    by apply (Hd o Ho). }
  auto.
Qed.

(** X27. When nothing raises, the timeout of the post command reads as a
    number and [err] came in empty, the function returns and [err] is
    still empty. *)
Theorem clean_cleanup_returns w :
  err w = "" →
  (∀ o, fails o = None) →
  int (get_d params "post_command_timeout" "600") ≠ None →
  (get params "storage_type" = Some "lvm" → is_Some (params !! "main_vm")) →
  (postprocess_cleanup w).2 = Ok () ∧ err (postprocess_cleanup w).1 = "".
Proof.
  intros Hempty Hok Hint Hmain.
  destruct (cleanup_reaches_report w) as (w' & evs & -> & Hc & Hm & Hd & Hs).
  { by right; right. }
  { intros Hst. destruct (Hmain Hst) as [v Hv]. by exists v. }
  destruct (report_spec w') as (-> & _ & _ & Hret).
  rewrite Hs in * by done. auto.
Qed.

(** X28. A kernel command line that cannot be restored ends the function at
    once: what the restore raises is raised as it is, also when [err]
    has failures in it, which are then not reported, and nothing is
    called after the restore; before it, only the host tuning cleanup
    was called. *)
Theorem failed_kernel_restore_ends_cleanup w e :
  kernel_modified w = true →
  get_d params "restore_kernel_cmd" "yes" = "yes" →
  fails KernelRestore = Some e →
  (postprocess_cleanup w).2 = Raised e ∧
  ∃ evs, called (postprocess_cleanup w).1
           = called w ++ evs ++ [Did KernelRestore] ∧
         Forall (allowed tuning_ops) evs.
Proof.
  intros Hkm Hr He.
  unfold PostCleanup.postprocess_cleanup.
  destruct (tuning_runs_into_restore
              (restore_kernel fails params ;;
               run_post_command fails int bindir params ;;
               cleanup_iscsi fails params ;;
               cleanup_lvm fails params ;;
               cleanup_nfs fails params ;;
               cleanup_private_bridge fails object_params params ;;
               report) w)
    as (w1 & evs1 & -> & Hkm1 & Hc1 & Hall & _).
  unfold restore_kernel.
  unfold mbind, M_bind, bind, gets, when. rewrite Hkm1, Hkm.
  rewrite (bool_decide_eq_true_2 _ Hr). cbn [andb]. rewrite call_spec, He.
  cbn. split; [done|]. exists evs1. split.
  - by rewrite Hc1, (assoc_L (++)).
  - eapply Forall_impl; [exact Hall|]. intros ev. apply allowed_mono.
    intros o Ho. unfold tuning_ops.
    repeat (apply elem_of_app in Ho as [Ho|Ho]);
      repeat (apply elem_of_cons in Ho as [->|Ho]; [in_list|]);
      by apply elem_of_nil in Ho.
Qed.

(** X29. [process_command]: when exporting the parameters does not raise, a
    command that fails makes the function raise what the command
    raised, unless that is a [CmdError] and the command is not
    critical: then the error is logged as a warning and the function
    returns. *)
Theorem command_failure_policy command t noncritical w e :
  (∀ k v, fails (Putenv k v) = None) →
  fails (System ("cd " +:+ bindir +:+ "; " +:+ command)) = Some e →
  let run := process_command fails bindir params command t noncritical w in
  let swallowed :=
    bool_decide (Py.exc_class e = "CmdError") && noncritical in
  run.2 = (if swallowed then Ok () else Raised e) ∧
  ∃ evs, called run.1 = called w ++ evs ∧
         (swallowed = true → Logged "warn" (Py.message e) ∈ evs).
Proof.
  intros Hput He run swallowed. subst run swallowed.
  unfold process_command.
  destruct (putenv_loop (map_to_list params) w)
    as (w1 & r & evs & Hrun & Herr & Hkm & Hcalled & Hall & Hok).
  rewrite Hok in Hrun.
  2:{ intros o Ho. apply list_elem_of_fmap in Ho as (kv & -> & _).
      apply Hput. }
  unfold mbind, M_bind, bind. rewrite Hrun.
  unfold try_except. rewrite call_spec, He.
  destruct (bool_decide (Py.exc_class e = "CmdError")), noncritical;
    unfold log, record, modify, raise; cbn;
    (split; [done|]); eexists;
    (split; [rewrite Hcalled, <- ?(assoc_L (++)); reflexivity|]);
    try done.
  intros _. apply elem_of_app. right. in_list.
Qed.

End PostCleanupFacts.

(** ** [preprocess_vm]: when the VM is brought up *)

Section VMBootFacts.
Import Eff VMBoot.

Variable fails : op → option Py.exn.
Variable int : string → option Z.
Variable params : Params.
Variable name : string.
Variable vm : vm_view.

Ltac run_bring_up :=
  unfold bring_up, start_or_settle, decide_start, vm_create_timeout, call, emit, when, raise,
    mbind, M_bind, bind, mret, M_ret, ret.

(** X15. Without a migration mode and without [start_vm = "yes"] the VM is
    never brought up, whatever the VM shows and whatever the calls
    raise: [start], [create] and [update_vm_id] are not called. *)
Theorem vm_is_brought_up_on_request_only :
  truthy (get params "migration_mode") = false →
  get params "start_vm" ≠ Some "yes" →
  filter (λ ev, is_boot ev = true) (bring_up fails int params name vm []).1
  = [].
Proof.
  intros Hmig Hstart. run_bring_up.
  rewrite Hmig, (bool_decide_eq_false_2 _ Hstart).
  destruct (negb (known vm) || is_libvirt params && negb (same_connect_uri vm)),
    (fails EnvCreateVM), (guest_is_missing params vm),
    (bool_decide (get params "force_remove_vm" = Some "yes")),
    (fails Remove), (alive vm),
    (bool_decide (get params "kill_vm_before_test" = Some "yes")
     && bool_decide (get params "start_vm" = Some "no")),
    (fails (Destroy (bool_decide (get params "kill_vm_gracefully" = Some "yes")))),
    (fails CreateSerialConsole),
    (bool_decide (get params "paused_after_start_vm" = Some "yes")
     && alive_at_end vm && negb (paused_at_end vm)),
    (fails Pause); reflexivity.
Qed.

(** X30. A restart: with [start_vm = "yes"], no migration mode, a VM type
    other than libvirt and v2v, and a VM that needs a restart (the check
    is on unless [check_vm_needs_restart] says otherwise), the old VM is
    destroyed first, alive or not, then the VM gets a new id and network
    and is created; this when no call raises and the timeout reads as a
    number. *)
Theorem restart_destroys_before_create :
  (∀ o, fails o = None) →
  truthy (get params "migration_mode") = false →
  get params "start_vm" = Some "yes" →
  is_libvirt params = false → is_v2v params = false →
  get_d params "check_vm_needs_restart" "yes" = "yes" →
  needs_restart vm = true →
  (∀ text, get params "vm_create_timeout" = Some text → is_Some (int text)) →
  let run := bring_up fails int params name vm [] in
  run.2 = Ok () ∧
  ∃ before after,
    run.1 = before
            ++ [Did (Destroy (bool_decide
                                (get params "kill_vm_gracefully" = Some "yes")));
                Did UpdateVmId;
                Did (Create (negb (bool_decide
                       (get_d params "reuse_previous_config" "no" = "no"))))]
            ++ after ∧
    Forall (λ ev, ev = Did EnvCreateVM ∨ ev = Did Remove) before ∧
    Forall (λ ev, ev = Did Pause) after.
Proof.
  intros Hok Hmig Hstart Hlib Hv2v Hcheck Hneeds Htimeout.
  run_bring_up. unfold guest_is_missing.
  rewrite !Hok, Hmig, Hlib, Hv2v, Hneeds.
  rewrite (bool_decide_eq_true_2 _ Hstart), (bool_decide_eq_true_2 _ Hcheck).
  cbn [andb orb negb fst snd].
  destruct (get params "vm_create_timeout") as [text|] eqn:Ht.
  - destruct (Htimeout text eq_refl) as [t ->].
    destruct (negb (known vm)),
      (bool_decide (get params "force_remove_vm" = Some "yes")),
      (bool_decide (get params "paused_after_start_vm" = Some "yes")
       && alive_at_end vm && negb (paused_at_end vm));
      cbn; (split; [done|]);
      first
        [ by exists [], []; split_and!; repeat constructor
        | by exists [], [Did Pause]; split_and!; repeat constructor
        | by exists [Did EnvCreateVM], []; split_and!; repeat constructor; auto
        | by exists [Did EnvCreateVM], [Did Pause]; split_and!;
             repeat constructor; auto
        | by exists [Did Remove], []; split_and!; repeat constructor; auto
        | by exists [Did Remove], [Did Pause]; split_and!;
             repeat constructor; auto
        | by exists [Did EnvCreateVM; Did Remove], []; split_and!;
             repeat constructor; auto
        | by exists [Did EnvCreateVM; Did Remove], [Did Pause]; split_and!;
             repeat constructor; auto ].
  - destruct (negb (known vm)),
      (bool_decide (get params "force_remove_vm" = Some "yes")),
      (bool_decide (get params "paused_after_start_vm" = Some "yes")
       && alive_at_end vm && negb (paused_at_end vm));
      cbn; (split; [done|]);
      first
        [ by exists [], []; split_and!; repeat constructor
        | by exists [], [Did Pause]; split_and!; repeat constructor
        | by exists [Did EnvCreateVM], []; split_and!; repeat constructor; auto
        | by exists [Did EnvCreateVM], [Did Pause]; split_and!;
             repeat constructor; auto
        | by exists [Did Remove], []; split_and!; repeat constructor; auto
        | by exists [Did Remove], [Did Pause]; split_and!;
             repeat constructor; auto
        | by exists [Did EnvCreateVM; Did Remove], []; split_and!;
             repeat constructor; auto
        | by exists [Did EnvCreateVM; Did Remove], [Did Pause]; split_and!;
             repeat constructor; auto ].
Qed.

End VMBootFacts.

(** * Instances of the further properties *)

Lemma no_check_no_backup_witness :
  (ImagePost.Did ImagePost.Info
     ∉ ImagePost.events ImagePost.quiet_backend Samples.unchecked_params
         "image1" None) ∧
  (ImagePost.Did ImagePost.CheckImage
     ∉ ImagePost.events ImagePost.quiet_backend Samples.unchecked_params
         "image1" None) ∧
  (ImagePost.Did ImagePost.Backup
     ∉ ImagePost.events ImagePost.quiet_backend Samples.unchecked_params
         "image1" None).
Proof.
  apply (no_check_no_backup ImagePost.quiet_backend Samples.unchecked_params
           "image1" None).
  left. by vm_compute.
Defined.

Lemma at_most_one_backup_or_restore_witness :
  length (filter Observe.is_backup_or_restore
            (ImagePost.events ImagePost.quiet_backend
               ImagePost.all_flags_params "image2" None)) ≤ 1.
Proof.
  apply (at_most_one_backup_or_restore ImagePost.quiet_backend
           ImagePost.all_flags_params "image2" None).
  intros o. reflexivity.
Defined.

Lemma failed_check_is_raised_again_witness :
  (ImagePost.postprocess_image Samples.leaky_image
     Samples.leak_tolerant_params "image1" None []).2 = Eff.Ok () ∧
  (ImagePost.postprocess_image Samples.leaky_image
     Samples.check_only_params "image1" None []).2
    = Eff.Raised (Py.Exn "CmdError" "Leaked clusters were found").
Proof.
  split.
  - exact (proj1 (failed_check_is_raised_again Samples.leaky_image
             Samples.leak_tolerant_params "image1" None
             (Py.Exn "CmdError" "Leaked clusters were found")
             eq_refl ltac:(discriminate) eq_refl eq_refl eq_refl eq_refl)).
  - exact (proj1 (failed_check_is_raised_again Samples.leaky_image
             Samples.check_only_params "image1" None
             (Py.Exn "CmdError" "Leaked clusters were found")
             eq_refl ltac:(discriminate) eq_refl eq_refl eq_refl eq_refl)).
Defined.

Lemma no_picture_keeps_counter_witness :
  Poller.counter
    (Poller.screendump_vm Poller.log_policy Samples.dead_guest Poller.sd_init)
    !! "vm1-instance" = Some 0%Z ∧
  Poller.cache
    (Poller.screendump_vm Poller.log_policy Samples.dead_guest Poller.sd_init)
    = ∅.
Proof.
  destruct (proj1 (no_picture_keeps_counter Poller.log_policy
                     Samples.dead_guest Poller.sd_init) (or_introl eq_refl))
    as (Hcounter & Hcache & _).
  split; [exact Hcounter|exact Hcache].
Defined.

Lemma misses_are_counted_witness :
  Poller.vm_register_error_count
    (Poller.register_pass (replicate 3 Poller.down_vm) Poller.vr_init)
    !! "vm1-instance" = Some 3%Z ∧
  Poller.new_events (Poller.vr_out Poller.vr_init)
    (Poller.vr_out
       (Poller.register_pass (replicate 3 Poller.down_vm) Poller.vr_init))
    = [Poller.NotAliveWarning "vm1"].
Proof.
  pose proof (misses_are_counted Poller.down_vm Poller.vr_init 3
                eq_refl eq_refl ltac:(lia)) as (Hcount & Hnew & _).
  split; [exact Hcount|exact Hnew].
Defined.

Lemma patch_without_entry_changes_nothing_witness :
  KernelPatch.patch_kernel_cmdline KernelPatch.selects_default
    KernelPatch.add_ker_cmd_tokens KernelPatch.rm_ker_cmd_tokens (λ p _, p)
    "pci=nomsi" "" Samples.no_kernel_entry
  = (Samples.no_kernel_entry,
     Eff.Raised (KernelPatch.TestError "Cannot find the kernel config")).
Proof.
  apply (patch_without_entry_changes_nothing KernelPatch.selects_default
           KernelPatch.add_ker_cmd_tokens KernelPatch.rm_ker_cmd_tokens
           (λ p _, p) Samples.no_kernel_entry "pci=nomsi" "").
  - left. discriminate.
  - by vm_compute.
Defined.

Lemma patch_without_change_witness :
  let r :=
    KernelPatch.patch_kernel_cmdline KernelPatch.selects_default
      KernelPatch.add_ker_cmd_tokens KernelPatch.rm_ker_cmd_tokens (λ p _, p)
      "" "nosuchoption" KernelPatch.two_entries in
  r.2 = Eff.Ok () ∧
  KernelPatch.grub_file r.1 = KernelPatch.grub_file KernelPatch.two_entries ∧
  KernelPatch.registered r.1 = ["vm1"] ∧
  KernelPatch.kernel_modified r.1 = false.
Proof.
  pose proof (patch_without_change KernelPatch.selects_default
                KernelPatch.add_ker_cmd_tokens KernelPatch.rm_ker_cmd_tokens
                (λ p _, p) KernelPatch.two_entries "" "nosuchoption"
                "	linux16 /vmlinuz-3.10.0 root=/dev/sda1 ro quiet"
                ["	linux16 /vmlinuz-0-rescue root=/dev/sda1 ro"])
    as Hsame.
  destruct Hsame as (Hok & Hfile & Hreg & Hmod & _).
  - right. discriminate.
  - by vm_compute.
  - by vm_compute.
  - intros r. by split_and!.
Defined.

Lemma patch_destroys_every_vm_witness :
  let r :=
    KernelPatch.patch_kernel_cmdline KernelPatch.selects_default
      KernelPatch.add_ker_cmd_tokens KernelPatch.rm_ker_cmd_tokens (λ p _, p)
      "pci=nomsi" "quiet" KernelPatch.two_entries in
  r.2 = Eff.Ok () ∧
  KernelPatch.registered r.1 = [] ∧
  KernelPatch.called r.1 =
    [KernelPatch.VmDestroy "vm1";
     KernelPatch.Debug "Guest cmdline extra_params setting:"].
Proof.
  pose proof (patch_destroys_every_vm KernelPatch.selects_default
                KernelPatch.add_ker_cmd_tokens KernelPatch.rm_ker_cmd_tokens
                (λ p _, p) KernelPatch.two_entries "pci=nomsi" "quiet"
                "	linux16 /vmlinuz-3.10.0 root=/dev/sda1 ro quiet"
                ["	linux16 /vmlinuz-0-rescue root=/dev/sda1 ro"])
    as Hpatched.
  destruct Hpatched as (Hok & Hreg & Hcalled & _).
  - left. discriminate.
  - by vm_compute.
  - by vm_compute.
  - intros r. by split_and!.
Defined.

Lemma restore_without_entry_witness :
  let r :=
    KernelPatch.restore_kernel_cmdline KernelPatch.selects_default
      Samples.entry_lost in
  r.2 = Eff.Raised (KernelPatch.TestError "Cannot find the kernel config") ∧
  KernelPatch.called r.1 =
    [KernelPatch.VmDestroy "vm1"; KernelPatch.VmDestroy "vm2"] ∧
  KernelPatch.kernel_modified r.1 = true.
Proof.
  pose proof (restore_without_entry KernelPatch.selects_default
                Samples.entry_lost eq_refl eq_refl) as Hlost.
  destruct Hlost as (Hraised & Hcalled & _ & Hmod).
  - by vm_compute.
  - intros r. by split_and!.
Defined.

Lemma no_removal_without_force_witness :
  let w' :=
    (ImagePre.preprocess_image ImagePre.sound_storage
       Samples.create_if_missing (ImagePre.World true [])).1 in
  ∃ evs, ImagePre.called w' = [] ++ evs ∧
         (ImagePre.Did ImagePre.FileRemove ∉ evs) ∧
         (ImagePre.Did ImagePre.Create ∉ evs) ∧
         ImagePre.file_exists w' = true.
Proof.
  intros w'.
  destruct (no_removal_without_force Samples.create_if_missing
              ImagePre.sound_storage (ImagePre.World true []))
    as (evs & Hcalled & Hremove & Hkept).
  - by vm_compute.
  - exists evs. destruct (Hkept eq_refl) as [Hcreate Hthere]. by split_and!.
Defined.

Lemma creation_policy_witness :
  let run :=
    ImagePre.preprocess_image ImagePre.sound_storage Samples.force_create
      (ImagePre.World true []) in
  run.2 = Eff.Ok () ∧ ImagePre.file_exists run.1 = true.
Proof.
  intros run.
  destruct (creation_policy Samples.force_create ImagePre.sound_storage
              (ImagePre.World true [])) as (Hok & Hthere & _).
  - intros o. reflexivity.
  - split; [exact Hok|exact Hthere].
Defined.

Lemma unprepared_backend_is_only_logged_witness :
  (ImagePre.preprocess_image (ImagePre.Backend (λ _, None) false)
     Samples.force_create (ImagePre.World false [])).2
  = (ImagePre.preprocess_image (ImagePre.Backend (λ _, None) true)
       Samples.force_create (ImagePre.World false [])).2.
Proof.
  exact (proj1 (unprepared_backend_is_only_logged Samples.force_create
                  (λ _, None) (ImagePre.World false []) eq_refl)).
Defined.

Lemma failed_closes_stay_witness :
  VMPost.vm
    (VMPost.postprocess_vm Samples.second_stays None Samples.float_of
       Samples.kill_after_wait (VMPost.World (Some [1; 2; 3]) [])).1
  = Some [2].
Proof.
  exact (failed_closes_stay Samples.second_stays None Samples.float_of
           Samples.kill_after_wait (VMPost.World (Some [1; 2; 3]) [])
           [1; 2; 3] eq_refl).
Defined.

Lemma without_kill_vm_only_sessions_are_closed_witness :
  (VMPost.postprocess_vm Samples.second_stays None Samples.float_of ∅
     (VMPost.World (Some [1; 2; 3]) [])).2 = Eff.Ok () ∧
  VMPost.called
    (VMPost.postprocess_vm Samples.second_stays None Samples.float_of ∅
       (VMPost.World (Some [1; 2; 3]) [])).1
  = [VMPost.SessionClose 1; VMPost.SessionClose 2; VMPost.SessionClose 3].
Proof.
  apply (without_kill_vm_only_sessions_are_closed Samples.second_stays None
           Samples.float_of ∅ (VMPost.World (Some [1; 2; 3]) []) [1; 2; 3]).
  - reflexivity.
  - by vm_compute.
Defined.

Lemma kill_vm_waits_then_destroys_witness :
  (VMPost.postprocess_vm Samples.second_stays None Samples.float_of
     Samples.kill_after_wait (VMPost.World (Some [1]) [])).2 = Eff.Ok () ∧
  VMPost.called
    (VMPost.postprocess_vm Samples.second_stays None Samples.float_of
       Samples.kill_after_wait (VMPost.World (Some [1]) [])).1
  = [VMPost.SessionClose 1; VMPost.WaitForDead 5; VMPost.Destroy true].
Proof.
  apply (kill_vm_waits_then_destroys Samples.second_stays None
           Samples.float_of Samples.kill_after_wait
           (VMPost.World (Some [1]) []) [1] 5%Z).
  - reflexivity.
  - reflexivity.
  - reflexivity.
Defined.

Lemma bad_kill_timeout_leaves_vm_witness :
  (VMPost.postprocess_vm Samples.second_stays None Samples.float_of
     Samples.kill_with_bad_timeout (VMPost.World (Some [1]) [])).2
  = Eff.Raised (VMPost.ValueError "soon") ∧
  VMPost.called
    (VMPost.postprocess_vm Samples.second_stays None Samples.float_of
       Samples.kill_with_bad_timeout (VMPost.World (Some [1]) [])).1
  = [VMPost.SessionClose 1].
Proof.
  apply (bad_kill_timeout_leaves_vm Samples.second_stays None
           Samples.float_of Samples.kill_with_bad_timeout
           (VMPost.World (Some [1]) []) [1] "soon").
  - reflexivity.
  - reflexivity.
  - reflexivity.
  - reflexivity.
Defined.

Lemma only_requested_vms_remain_witness :
  let run :=
    EnvSweep.remove_unrequested_vms (λ _, None) EnvSweep.sample_params
      (EnvSweep.World EnvSweep.sample_env []) in
  run.2 = Eff.Ok () ∧
  EnvSweep.env run.1 =
    filter (λ kv, EnvSweep.wanted (objects EnvSweep.sample_params "vms") kv.2
                  = true)
      EnvSweep.sample_env.
Proof.
  intros run.
  destruct (only_requested_vms_remain (λ _, None) EnvSweep.sample_params
              (EnvSweep.World EnvSweep.sample_env []))
    as (Hok & Henv & _).
  - intros name. reflexivity.
  - split; [exact Hok|exact Henv].
Defined.

Lemma cleanup_goes_on_after_failures_witness :
  ∃ evs,
    PostCleanup.called
      (PostCleanup.postprocess_cleanup Samples.thp_fails (λ p _, p)
         Samples.int_of "/usr/share/tests" Samples.cleanup_params
         (PostCleanup.World "" false [])).1 = [] ++ evs ∧
    PostCleanup.Did PostCleanup.THPCleanup ∈ evs ∧
    PostCleanup.Did PostCleanup.KSMCleanup ∈ evs ∧
    PostCleanup.Did PostCleanup.NfsCleanup ∈ evs.
Proof.
  destruct (cleanup_goes_on_after_failures Samples.thp_fails (λ p _, p)
              Samples.int_of "/usr/share/tests" Samples.cleanup_params
              (PostCleanup.World "" false []))
    as (evs & Hcalled & Hdue).
  - left. reflexivity.
  - intros Hlvm. by vm_compute in Hlvm.
  - exists evs. split; [exact Hcalled|].
    split_and!; apply Hdue; vm_compute; in_list.
Defined.

Lemma cleanup_failures_are_raised_witness :
  ∃ collected,
    collected ≠ "" ∧
    (PostCleanup.postprocess_cleanup Samples.thp_fails (λ p _, p)
       Samples.int_of "/usr/share/tests" Samples.cleanup_params
       (PostCleanup.World "" false [])).2
    = Eff.Raised (PostCleanup.VMError collected).
Proof.
  destruct (cleanup_failures_are_raised Samples.thp_fails (λ p _, p)
              Samples.int_of "/usr/share/tests" Samples.cleanup_params
              (PostCleanup.World "" false []))
    as (Hcollected & Hraised).
  - left. reflexivity.
  - intros Hlvm. by vm_compute in Hlvm.
  - right. exists PostCleanup.THPCleanup. split; [vm_compute; in_list|].
    discriminate.
  - eexists. split; [exact Hcollected|exact Hraised].
Defined.

Lemma clean_cleanup_returns_witness :
  (PostCleanup.postprocess_cleanup (λ _, None) (λ p _, p) Samples.int_of
     "/usr/share/tests" Samples.cleanup_params
     (PostCleanup.World "" false [])).2 = Eff.Ok ().
Proof.
  refine (proj1 (clean_cleanup_returns (λ _, None) (λ p _, p) Samples.int_of
                   "/usr/share/tests" Samples.cleanup_params
                   (PostCleanup.World "" false []) eq_refl
                   (λ _, eq_refl) _ _)).
  - by vm_compute.
  - intros Hlvm. by vm_compute in Hlvm.
Defined.

Lemma failed_kernel_restore_ends_cleanup_witness :
  (PostCleanup.postprocess_cleanup Samples.restore_fails (λ p _, p)
     Samples.int_of "/usr/share/tests" Samples.cleanup_params
     (PostCleanup.World "earlier failure" true [])).2
  = Eff.Raised (Py.Exn "TestError" "Cannot find the kernel config").
Proof.
  refine (proj1 (failed_kernel_restore_ends_cleanup Samples.restore_fails
                   (λ p _, p) Samples.int_of "/usr/share/tests"
                   Samples.cleanup_params
                   (PostCleanup.World "earlier failure" true [])
                   (Py.Exn "TestError" "Cannot find the kernel config")
                   eq_refl _ eq_refl)).
  by vm_compute.
Defined.

Lemma command_failure_policy_witness :
  (PostCleanup.process_command Samples.command_fails "/usr/share/tests"
     Samples.cleanup_params "make clean" 600%Z true
     (PostCleanup.World "" false [])).2 = Eff.Ok () ∧
  (PostCleanup.process_command Samples.command_fails "/usr/share/tests"
     Samples.cleanup_params "make clean" 600%Z false
     (PostCleanup.World "" false [])).2
  = Eff.Raised (Py.Exn "CmdError" "Command failed: 1").
Proof.
  split.
  - exact (proj1 (command_failure_policy Samples.command_fails
                    "/usr/share/tests" Samples.cleanup_params "make clean"
                    600%Z true (PostCleanup.World "" false [])
                    (Py.Exn "CmdError" "Command failed: 1")
                    (λ _ _, eq_refl) eq_refl)).
  - exact (proj1 (command_failure_policy Samples.command_fails
                    "/usr/share/tests" Samples.cleanup_params "make clean"
                    600%Z false (PostCleanup.World "" false [])
                    (Py.Exn "CmdError" "Command failed: 1")
                    (λ _ _, eq_refl) eq_refl)).
Defined.

Lemma vm_is_brought_up_on_request_only_witness :
  filter (λ ev, VMBoot.is_boot ev = true)
    (VMBoot.bring_up (λ _, None) Samples.int_of Samples.kill_before_test
       "vm1" Samples.live_guest []).1
  = [] ∧
  (VMBoot.bring_up (λ _, None) Samples.int_of Samples.kill_before_test
     "vm1" Samples.live_guest []).1
  = [VMBoot.Did (VMBoot.Destroy false)].
Proof.
  split; [|reflexivity].
  apply (vm_is_brought_up_on_request_only (λ _, None) Samples.int_of
           Samples.kill_before_test "vm1" Samples.live_guest).
  - reflexivity.
  - by vm_compute.
Defined.

Lemma restart_destroys_before_create_witness :
  (VMBoot.bring_up (λ _, None) Samples.int_of Samples.start_requested
     "vm1" Samples.stale_guest []).1
  = [VMBoot.Did (VMBoot.Destroy false); VMBoot.Did VMBoot.UpdateVmId;
     VMBoot.Did (VMBoot.Create false)] ∧
  (VMBoot.bring_up (λ _, None) Samples.int_of Samples.start_requested
     "vm1" Samples.stale_guest []).2 = Eff.Ok ().
Proof.
  split; [reflexivity|].
  refine (proj1 (restart_destroys_before_create (λ _, None) Samples.int_of
                   Samples.start_requested "vm1" Samples.stale_guest
                   (λ _, eq_refl) eq_refl eq_refl eq_refl eq_refl eq_refl
                   eq_refl _)).
  intros text Htext. by vm_compute in Htext.
Defined.
